(** * Notes backend: OTP sign-up / sign-in, sessions and per-user notes

    A shallow embedding of [backend/src/index.ts] (the Hono route handlers)
    over an in-memory model of the four Prisma tables declared by the
    migrations ([users], [otps], [sessions], [notes]).

    Conventions of the model

    - A request is handled to completion before the next one starts; the
      clock ([Date.now()]) is read once per request.
    - What the handlers obtain from outside is passed in explicitly: the
      clock, the entropy behind [crypto.randomInt], the row ids Prisma
      generates, and the outcome of the call to the e-mail provider live in
      [Env]; the JWT primitive and the [Date] parser live in [Ext].
    - JSON body fields are strings (or a boolean for [keepLoggedIn]); an
      absent field is [None].  A body that cannot be parsed is [None].
    - The columns [created_at]/[updated_at] of [users], [otps] and
      [sessions] are never read by a handler and are left out.
    - Every Prisma call is recorded in a log, so that the number of calls a
      handler makes can be stated. *)

From Stdlib Require Import ZArith List String Ascii Bool Lia Permutation.
Import ListNotations.

Local Open Scope string_scope.
Local Open Scope list_scope.
Local Open Scope Z_scope.

(** ** JavaScript string helpers used by the handlers *)

Module Js.

(** [String.prototype.toLowerCase] on the ASCII range. *)
Definition lower_char (c : ascii) : ascii :=
  let n := nat_of_ascii c in
  if ((65 <=? n) && (n <=? 90))%nat then ascii_of_nat (n + 32) else c.

Fixpoint toLowerCase (s : string) : string :=
  match s with
  | EmptyString => EmptyString
  | String c r => String (lower_char c) (toLowerCase r)
  end.

(** White space removed by [trim]: TAB, LF, VT, FF, CR and SPACE. *)
Definition is_space (c : ascii) : bool :=
  let n := nat_of_ascii c in
  (((9 <=? n) && (n <=? 13)) || (n =? 32))%nat.

Fixpoint trimStart (s : string) : string :=
  match s with
  | EmptyString => EmptyString
  | String c r => if is_space c then trimStart r else s
  end.

Fixpoint trimEnd (s : string) : string :=
  match s with
  | EmptyString => EmptyString
  | String c r =>
      match trimEnd r with
      | EmptyString => if is_space c then EmptyString else String c EmptyString
      | r' => String c r'
      end
  end.

Definition trim (s : string) : string := trimEnd (trimStart s).

Definition startsWith (s p : string) : bool := String.prefix p s.

(** [s.substring(n)] *)
Definition substring (s : string) (n : nat) : string :=
  String.substring n (String.length s - n) s.

(** [!v] for a value that is a string or [undefined]. *)
Definition falsy (v : option string) : bool :=
  match v with
  | None => true
  | Some s => String.eqb s ""
  end.

(** The string behind a value already known to be truthy. *)
Definition str (v : option string) : string :=
  match v with
  | None => ""
  | Some s => s
  end.

(** [a || b] on optional header values. *)
Definition or_else (a b : option string) : option string :=
  if falsy a then b else a.

(** [a || null] *)
Definition or_null (a : option string) : option string :=
  if falsy a then None else a.

Definition digit_char (d : Z) : ascii := ascii_of_nat (48 + Z.to_nat d).

(** Decimal digits of a non-negative integer, most significant first. *)
Fixpoint digits (fuel : nat) (n : Z) (acc : string) : string :=
  match fuel with
  | O => acc
  | S f =>
      let acc' := String (digit_char (n mod 10)) acc in
      if n <? 10 then acc' else digits f (n / 10) acc'
  end.

(** [Number.prototype.toString()] on integers. *)
Definition toString (n : Z) : string :=
  if n <? 0
  then String "-" (digits (S (Z.to_nat (Z.log2 (- n)))) (- n) "")
  else digits (S (Z.to_nat (Z.log2 n))) n "".

Definition is_digit (c : ascii) : bool :=
  let n := nat_of_ascii c in ((48 <=? n) && (n <=? 57))%nat.

Fixpoint all_digits (s : string) : bool :=
  match s with
  | EmptyString => true
  | String c r => is_digit c && all_digits r
  end.

(** Value of a string of decimal digits, read left to right. *)
Fixpoint value_from (acc : Z) (s : string) : Z :=
  match s with
  | EmptyString => acc
  | String c r => value_from (10 * acc + (Z.of_nat (nat_of_ascii c) - 48)) r
  end.

Definition decimal_value (s : string) : Z := value_from 0 s.

End Js.

(** ** The schema (prisma/migrations) *)

Inductive OtpType := SIGNUP | SIGNIN | PASSWORD_RESET.

Definition OtpType_eqb (a b : OtpType) : bool :=
  match a, b with
  | SIGNUP, SIGNUP | SIGNIN, SIGNIN | PASSWORD_RESET, PASSWORD_RESET => true
  | _, _ => false
  end.

Record User := {
  user_id : string;
  user_email : string;
  user_name : string;
  user_dateOfBirth : Z;
  user_verified : bool;
  user_isActive : bool
}.

(** The JSON column [signup_data] written by [POST /api/signup]. *)
Record SignupData := {
  sd_name : string;
  sd_email : string;
  sd_dateOfBirth : string
}.

Record Otp := {
  otp_id : string;
  otp_code : string;
  otp_email : string;
  otp_type : OtpType;
  otp_expiresAt : Z;
  otp_verified : bool;
  otp_attempts : Z;
  otp_userId : option string;
  otp_signupData : option SignupData
}.

Record Session := {
  session_id : string;
  session_userId : string;
  session_token : string;
  session_expiresAt : Z;
  session_isActive : bool;
  session_userAgent : option string;
  session_ipAddress : option string
}.

Record Note := {
  note_id : string;
  note_title : string;
  note_content : string;
  note_userId : string;
  note_createdAt : Z;
  note_updatedAt : Z
}.

(** Rows are kept in insertion order. *)
Record Db := {
  users : list User;
  otps : list Otp;
  sessions : list Session;
  notes : list Note
}.

Definition empty_db : Db :=
  {| users := []; otps := []; sessions := []; notes := [] |}.

Definition set_users (d : Db) (l : list User) : Db :=
  {| users := l; otps := otps d; sessions := sessions d; notes := notes d |}.
Definition set_otps (d : Db) (l : list Otp) : Db :=
  {| users := users d; otps := l; sessions := sessions d; notes := notes d |}.
Definition set_sessions (d : Db) (l : list Session) : Db :=
  {| users := users d; otps := otps d; sessions := l; notes := notes d |}.
Definition set_notes (d : Db) (l : list Note) : Db :=
  {| users := users d; otps := otps d; sessions := sessions d; notes := l |}.

(** ** Errors, the call log and the handler monad *)

(** What a rejected promise carries: a Prisma error with its [code], or any
    other JavaScript [Error]. *)
Inductive Exn :=
| PrismaError (code : string)
| JsError (message : string).

Definition error_code (e : Exn) : option string :=
  match e with
  | PrismaError c => Some c
  | JsError _ => None
  end.

Inductive Res (A : Type) :=
| Ok (a : A)
| Throw (e : Exn).
Arguments Ok {A} a.
Arguments Throw {A} e.

Inductive OrmOp :=
| UserFindUnique | UserCreate
| OtpDeleteMany | OtpCreate | OtpFindFirst | OtpUpdate
| SessionFindFirst | SessionCreate | SessionUpdateMany
| NoteFindMany | NoteFindFirst | NoteCreate | NoteUpdate | NoteDelete.

(** One entry per call made on the top-level client; the calls made on the
    transaction client [tx] are grouped under the [$transaction] that ran
    them. *)
Inductive OrmEvent :=
| Call (op : OrmOp)
| Transaction (ops : list OrmOp).

Record St := {
  st_db : Db;
  st_log : list OrmEvent
}.

Definition M (A : Type) : Type := St -> St * Res A.

Definition ret {A} (a : A) : M A := fun st => (st, Ok a).

Definition throw {A} (e : Exn) : M A := fun st => (st, Throw e).

Definition bind {A B} (m : M A) (f : A -> M B) : M B :=
  fun st =>
    match m st with
    | (st', Ok a) => f a st'
    | (st', Throw e) => (st', Throw e)
    end.

(** [try { m } catch (error) { h error }] *)
Definition try_catch {A} (m : M A) (h : Exn -> M A) : M A :=
  fun st =>
    match m st with
    | (st', Ok a) => (st', Ok a)
    | (st', Throw e) => h e st'
    end.

Declare Scope m_scope.
Delimit Scope m_scope with M.
Notation "x <- m ; k" := (bind m (fun x => k))
  (at level 61, m at next level, right associativity) : m_scope.
Notation "m ;; k" := (bind m (fun _ => k))
  (at level 61, right associativity) : m_scope.

(** A call on the Prisma client: logged, then run against the tables.  A
    call that is rejected leaves the tables as they were. *)
Definition orm {A} (op : OrmOp) (f : Db -> Res (Db * A)) : M A :=
  fun st =>
    let log := st_log st ++ [Call op] in
    match f (st_db st) with
    | Ok (db', a) => ({| st_db := db'; st_log := log |}, Ok a)
    | Throw e => ({| st_db := st_db st; st_log := log |}, Throw e)
    end.

Fixpoint ops_of (l : list OrmEvent) : list OrmOp :=
  match l with
  | [] => []
  | Call op :: r => op :: ops_of r
  | Transaction ops :: r => ops ++ ops_of r
  end.

(** [prisma.$transaction(async (tx) => body)]: the writes of [body] are
    committed when it returns and discarded when it throws. *)
Definition transaction {A} (body : M A) : M A :=
  fun st =>
    match body {| st_db := st_db st; st_log := [] |} with
    | (st', Ok a) =>
        ({| st_db := st_db st';
            st_log := st_log st ++ [Transaction (ops_of (st_log st'))] |}, Ok a)
    | (st', Throw e) =>
        ({| st_db := st_db st;
            st_log := st_log st ++ [Transaction (ops_of (st_log st'))] |}, Throw e)
    end.

(** ** Prisma client calls

    Each call enforces the constraints of the migrations that bear on it:
    primary keys, the unique indexes [users_email_key] and
    [sessions_token_key], and the foreign keys to [users(id)]. *)

Definition P2002 : Exn := PrismaError "P2002".  (* unique constraint failed *)
Definition P2003 : Exn := PrismaError "P2003".  (* foreign key constraint failed *)
Definition P2025 : Exn := PrismaError "P2025".  (* record to update/delete not found *)

Definition user_exists (db : Db) (id : string) : bool :=
  existsb (fun u => String.eqb (user_id u) id) (users db).

Definition fk_user (db : Db) (userId : option string) : bool :=
  match userId with
  | None => true
  | Some id => user_exists db id
  end.

(** [prisma.user.findUnique({ where: { email } })] *)
Definition user_findUnique (email : string) : M (option User) :=
  orm UserFindUnique (fun db =>
    Ok (db, find (fun u => String.eqb (user_email u) email) (users db))).

(** [tx.user.create({ data })]; [dateOfBirth] is [None] for an Invalid Date,
    which the client refuses.  [isActive] takes its column default. *)
Definition user_create (id name email : string) (dateOfBirth : option Z)
    (verified : bool) : M User :=
  orm UserCreate (fun db =>
    match dateOfBirth with
    | None => Throw (JsError "PrismaClientValidationError")
    | Some dob =>
        if existsb (fun u => String.eqb (user_id u) id
                             || String.eqb (user_email u) email) (users db)
        then Throw P2002
        else
          let u := {| user_id := id; user_email := email; user_name := name;
                      user_dateOfBirth := dob; user_verified := verified;
                      user_isActive := true |} in
          Ok (set_users db (users db ++ [u]), u)
    end).

(** [prisma.otp.deleteMany({ where })] *)
Definition otp_deleteMany (where_ : Otp -> bool) : M unit :=
  orm OtpDeleteMany (fun db =>
    Ok (set_otps db (filter (fun o => negb (where_ o)) (otps db)), tt)).

(** [prisma.otp.create({ data })]; [verified] and [attempts] take their
    column defaults. *)
Definition otp_create (id code email : string) (type : OtpType) (expiresAt : Z)
    (userId : option string) (signupData : option SignupData) : M Otp :=
  orm OtpCreate (fun db =>
    if existsb (fun o => String.eqb (otp_id o) id) (otps db) then Throw P2002
    else if negb (fk_user db userId) then Throw P2003
    else
      let o := {| otp_id := id; otp_code := code; otp_email := email;
                  otp_type := type; otp_expiresAt := expiresAt;
                  otp_verified := false; otp_attempts := 0;
                  otp_userId := userId; otp_signupData := signupData |} in
      Ok (set_otps db (otps db ++ [o]), o)).

(** [prisma.otp.findFirst({ where })]; no [orderBy] is given, and of
    several matching rows the oldest is returned. *)
Definition otp_findFirst (where_ : Otp -> bool) : M (option Otp) :=
  orm OtpFindFirst (fun db => Ok (db, find where_ (otps db))).

(** The relation [otp.user] loaded by [include: { user: true }]. *)
Definition otp_user (db : Db) (o : Otp) : option User :=
  match otp_userId o with
  | None => None
  | Some id => find (fun u => String.eqb (user_id u) id) (users db)
  end.

(** [prisma.otp.findFirst({ where, include: { user: true } })] *)
Definition otp_findFirst_include_user (where_ : Otp -> bool)
  : M (option (Otp * option User)) :=
  orm OtpFindFirst (fun db =>
    Ok (db, match find where_ (otps db) with
            | None => None
            | Some o => Some (o, otp_user db o)
            end)).

(** The [data] of an [otp.update]: the fields the handlers write. *)
Record OtpUpdate_data := {
  upd_verified : option bool;
  upd_userId : option string;
  upd_attempts_increment : option Z
}.

Definition otp_apply (d : OtpUpdate_data) (o : Otp) : Otp :=
  {| otp_id := otp_id o; otp_code := otp_code o; otp_email := otp_email o;
     otp_type := otp_type o; otp_expiresAt := otp_expiresAt o;
     otp_verified := match upd_verified d with Some b => b | None => otp_verified o end;
     otp_attempts := match upd_attempts_increment d with
                     | Some k => otp_attempts o + k
                     | None => otp_attempts o
                     end;
     otp_userId := match upd_userId d with Some u => Some u | None => otp_userId o end;
     otp_signupData := otp_signupData o |}.

(** [prisma.otp.update({ where: { id }, data })] *)
Definition otp_update (id : string) (d : OtpUpdate_data) : M unit :=
  orm OtpUpdate (fun db =>
    if negb (existsb (fun o => String.eqb (otp_id o) id) (otps db)) then Throw P2025
    else if negb (fk_user db (upd_userId d)) then Throw P2003
    else
      Ok (set_otps db
            (map (fun o => if String.eqb (otp_id o) id then otp_apply d o else o)
                 (otps db)), tt)).

(** [prisma.session.findFirst({ where })] *)
Definition session_findFirst (where_ : Session -> bool) : M (option Session) :=
  orm SessionFindFirst (fun db => Ok (db, find where_ (sessions db))).

(** [prisma.session.create({ data })]; [isActive] takes its column default. *)
Definition session_create (id userId token : string) (expiresAt : Z)
    (userAgent ipAddress : option string) : M Session :=
  orm SessionCreate (fun db =>
    if existsb (fun s => String.eqb (session_id s) id
                         || String.eqb (session_token s) token) (sessions db)
    then Throw P2002
    else if negb (user_exists db userId) then Throw P2003
    else
      let s := {| session_id := id; session_userId := userId;
                  session_token := token; session_expiresAt := expiresAt;
                  session_isActive := true; session_userAgent := userAgent;
                  session_ipAddress := ipAddress |} in
      Ok (set_sessions db (sessions db ++ [s]), s)).

Definition session_deactivate (s : Session) : Session :=
  {| session_id := session_id s; session_userId := session_userId s;
     session_token := session_token s; session_expiresAt := session_expiresAt s;
     session_isActive := false; session_userAgent := session_userAgent s;
     session_ipAddress := session_ipAddress s |}.

(** [prisma.session.updateMany({ where: { token }, data: { isActive: false } })] *)
Definition session_updateMany_deactivate (token : string) : M unit :=
  orm SessionUpdateMany (fun db =>
    Ok (set_sessions db
          (map (fun s => if String.eqb (session_token s) token
                         then session_deactivate s else s) (sessions db)), tt)).

Fixpoint insert_desc (n : Note) (l : list Note) : list Note :=
  match l with
  | [] => [n]
  | x :: r =>
      if note_createdAt x <? note_createdAt n then n :: l
      else x :: insert_desc n r
  end.

(** [orderBy: { createdAt: 'desc' }] *)
Definition orderBy_createdAt_desc (l : list Note) : list Note :=
  fold_right insert_desc [] l.

(** [prisma.note.findMany({ where: { userId }, orderBy: { createdAt: 'desc' } })] *)
Definition note_findMany (userId : string) : M (list Note) :=
  orm NoteFindMany (fun db =>
    Ok (db, orderBy_createdAt_desc
              (filter (fun n => String.eqb (note_userId n) userId) (notes db)))).

(** [prisma.note.findFirst({ where: { id, userId } })] *)
Definition note_findFirst (id userId : string) : M (option Note) :=
  orm NoteFindFirst (fun db =>
    Ok (db, find (fun n => String.eqb (note_id n) id
                           && String.eqb (note_userId n) userId) (notes db))).

(** [prisma.note.create({ data })] *)
Definition note_create (id title content userId : string) (now : Z) : M Note :=
  orm NoteCreate (fun db =>
    if existsb (fun n => String.eqb (note_id n) id) (notes db) then Throw P2002
    else if negb (user_exists db userId) then Throw P2003
    else
      let n := {| note_id := id; note_title := title; note_content := content;
                  note_userId := userId; note_createdAt := now;
                  note_updatedAt := now |} in
      Ok (set_notes db (notes db ++ [n]), n)).

Definition note_apply (title content : option string) (now : Z) (n : Note) : Note :=
  {| note_id := note_id n;
     note_title := match title with Some t => t | None => note_title n end;
     note_content := match content with Some c => c | None => note_content n end;
     note_userId := note_userId n;
     note_createdAt := note_createdAt n;
     note_updatedAt := now |}.

(** [prisma.note.update({ where: { id }, data })]; a field of [data] that is
    [None] is not written. *)
Definition note_update (id : string) (title content : option string) (now : Z)
  : M Note :=
  orm NoteUpdate (fun db =>
    match find (fun n => String.eqb (note_id n) id) (notes db) with
    | None => Throw P2025
    | Some n =>
        Ok (set_notes db
              (map (fun x => if String.eqb (note_id x) id
                             then note_apply title content now x else x)
                   (notes db)),
            note_apply title content now n)
    end).

(** [prisma.note.delete({ where: { id } })] *)
Definition note_delete (id : string) : M unit :=
  orm NoteDelete (fun db =>
    if negb (existsb (fun n => String.eqb (note_id n) id) (notes db)) then Throw P2025
    else
      Ok (set_notes db
            (filter (fun n => negb (String.eqb (note_id n) id)) (notes db)), tt)).

(** ** What a request gets from outside *)

(** Per request: the clock, the entropy of [crypto.randomInt], the ids the
    Prisma client generates for the rows it creates, and whether the e-mail
    provider answered with [response.ok]. *)
Record Env := {
  now : Z;
  entropy : Z;
  fresh_user_id : string;
  fresh_otp_id : string;
  fresh_session_id : string;
  fresh_note_id : string;
  email_ok : bool
}.

(** Per deployment: [jwt.sign(payload, secret, { expiresIn })] at a given
    time, [jwt.verify(token, secret)] at a given time ([None] when it
    throws; otherwise the [userId] and [type] of the payload), and
    [new Date(string)] ([None] for an Invalid Date). *)
Record Ext := {
  jwt_sign : string -> string -> Z -> Z -> string;
  jwt_verify : string -> Z -> option (string * string);
  parse_date : string -> option Z
}.

(** ** Requests and responses *)

Record Headers := {
  h_authorization : option string;
  h_user_agent : option string;
  h_cf_connecting_ip : option string;
  h_x_forwarded_for : option string
}.

Record SignupBody := {
  sb_name : option string;
  sb_email : option string;
  sb_dateOfBirth : option string
}.

Record VerifyBody := {
  vb_email : option string;
  vb_otp : option string;
  vb_keepLoggedIn : option bool
}.

Record EmailBody := { eb_email : option string }.

Record LogoutBody := { lb_token : option string }.

Record NoteBody := {
  nb_title : option string;
  nb_content : option string
}.

Record UserView := {
  uv_id : string;
  uv_name : string;
  uv_email : string;
  uv_dateOfBirth : Z
}.

Inductive Json :=
| JError (error : string)
| JMessage (message : string)
| JOtpSent (message email : string)
| JAuth (message : string) (user : UserView) (token : string)
| JNotes (notes : list Note)
| JNote (message : string) (note : Note)
| JHealth (status_text : string) (timestamp : Z).

Record Response := {
  status : Z;
  body : Json
}.

(** [c.json(body, status)]; the status is 200 when not given. *)
Definition json (b : Json) (st : Z) : Response := {| status := st; body := b |}.
Definition json_ok (b : Json) : Response := json b 200.

Definition view (u : User) : UserView :=
  {| uv_id := user_id u; uv_name := user_name u; uv_email := user_email u;
     uv_dateOfBirth := user_dateOfBirth u |}.

(** ** Helpers of index.ts *)

Definition minutes (n : Z) : Z := n * 60 * 1000.
Definition hours (n : Z) : Z := n * 60 * 60 * 1000.
Definition days (n : Z) : Z := n * 24 * 60 * 60 * 1000.

(** [crypto.randomInt(min, max)]: an integer [n] with [min <= n < max]. *)
Definition randomInt (min max : Z) (e : Z) : Z := min + e mod (max - min).

Definition generateOTP (env : Env) : string :=
  Js.toString (randomInt 100000 999999 (entropy env)).

(** [email.toLowerCase().trim()] *)
Definition normalize (email : string) : string := Js.trim (Js.toLowerCase email).

Section Handlers.

Variable ext : Ext.

Definition generateToken (env : Env) (userId : string) : string :=
  jwt_sign ext userId "session" (days 30) (now env).

Definition verifyToken (env : Env) (token : string) : option string :=
  match jwt_verify ext token (now env) with
  | Some (userId, type) => if String.eqb type "session" then Some userId else None
  | None => None
  end.

Definition authMiddleware (env : Env) (hdr : Headers) (next : string -> M Response)
  : M Response :=
  let authHeader := h_authorization hdr in
  if Js.falsy authHeader || negb (Js.startsWith (Js.str authHeader) "Bearer ")
  then ret (json (JError "Unauthorized") 401)
  else
    let token := Js.substring (Js.str authHeader) 7 in
    match verifyToken env token with
    | None => ret (json (JError "Invalid token") 401)
    | Some userId =>
        (session <- session_findFirst (fun s =>
            String.eqb (session_token s) token
            && session_isActive s
            && (now env <? session_expiresAt s)) ;
         match session with
         | None => ret (json (JError "Session expired") 401)
         | Some _ => next userId
         end)%M
    end.

Definition sendOTPEmail (env : Env) (email otp : string) (type : OtpType) : M unit :=
  if email_ok env then ret tt
  else throw (JsError "Failed to send email").

Definition cleanupExpiredOtps (env : Env) : M unit :=
  try_catch
    (otp_deleteMany (fun o => otp_expiresAt o <? now env))
    (fun _ => ret tt).

Definition otp_is (email : string) (type : OtpType) (o : Otp) : bool :=
  String.eqb (otp_email o) email && OtpType_eqb (otp_type o) type.

(** The [where] of both verification lookups. *)
Definition otp_live (env : Env) (email code : string) (type : OtpType) (o : Otp) : bool :=
  String.eqb (otp_email o) email
  && String.eqb (otp_code o) code
  && OtpType_eqb (otp_type o) type
  && negb (otp_verified o)
  && (now env <? otp_expiresAt o).

(** [POST /api/signup] *)
Definition signup (env : Env) (body : option SignupBody) : M Response :=
  match body with
  | None => ret (json (JError "Invalid request data") 400)
  | Some b =>
      if Js.falsy (sb_name b) || Js.falsy (sb_email b) || Js.falsy (sb_dateOfBirth b)
      then ret (json (JError "Name, email, and date of birth are required") 400)
      else
        let name := Js.str (sb_name b) in
        let email := Js.str (sb_email b) in
        let dateOfBirth := Js.str (sb_dateOfBirth b) in
        try_catch
          (cleanupExpiredOtps env ;;
           existingUser <- user_findUnique (normalize email) ;
           match existingUser with
           | Some _ => ret (json (JError "User already exists") 409)
           | None =>
               otp_deleteMany (otp_is (normalize email) SIGNUP) ;;
               let code := generateOTP env in
               let expiresAt := now env + minutes 10 in
               otp_create (fresh_otp_id env) code (normalize email) SIGNUP expiresAt
                 None
                 (Some {| sd_name := Js.trim name;
                          sd_email := normalize email;
                          sd_dateOfBirth := dateOfBirth |}) ;;
               sendOTPEmail env (normalize email) code SIGNUP ;;
               ret (json_ok (JOtpSent "OTP sent to your email" (normalize email)))
           end)%M
          (fun error =>
             match error_code error with
             | Some "P2002" => ret (json (JError "Email already exists") 409)
             | _ => ret (json (JError "Signup failed. Please try again.") 500)
             end)
  end.

(** The callback of [prisma.$transaction] in [POST /api/signup/verify]. *)
Definition signup_tx (env : Env) (signupData : SignupData) (otpId : string) : M User :=
  (user <- user_create (fresh_user_id env) (sd_name signupData) (sd_email signupData)
             (parse_date ext (sd_dateOfBirth signupData)) true ;
   otp_update otpId {| upd_verified := Some true;
                       upd_userId := Some (user_id user);
                       upd_attempts_increment := None |} ;;
   ret user)%M.

Definition ipAddress (hdr : Headers) : option string :=
  Js.or_else (Js.or_else (h_cf_connecting_ip hdr) (h_x_forwarded_for hdr))
             (Some "unknown").

(** [POST /api/signup/verify] *)
Definition signup_verify (env : Env) (hdr : Headers) (body : option VerifyBody)
  : M Response :=
  match body with
  | None => ret (json (JError "Invalid request data") 400)
  | Some b =>
      if Js.falsy (vb_email b) || Js.falsy (vb_otp b)
      then ret (json (JError "Email and OTP are required") 400)
      else
        let email := Js.str (vb_email b) in
        let otp := Js.str (vb_otp b) in
        try_catch
          (otpRecord <- otp_findFirst
                          (otp_live env (normalize email) (Js.trim otp) SIGNUP) ;
           match otpRecord with
           | None => ret (json (JError "Invalid or expired OTP") 400)
           | Some otpRecord =>
               if 5 <=? otp_attempts otpRecord
               then ret (json (JError "Too many attempts. Please request a new OTP.") 400)
               else
                 match otp_signupData otpRecord with
                 | None => ret (json (JError "Invalid signup data") 400)
                 | Some signupData =>
                     result <- transaction (signup_tx env signupData (otp_id otpRecord)) ;
                     let token := generateToken env (user_id result) in
                     session_create (fresh_session_id env) (user_id result) token
                       (now env + days 30)
                       (Js.or_null (h_user_agent hdr)) (ipAddress hdr) ;;
                     ret (json_ok (JAuth "Account created successfully"
                                         (view result) token))
                 end
           end)%M
          (fun _ => ret (json (JError "Verification failed") 500))
  end.

(** The part shared by [POST /api/signin] and [POST /api/signin/resend]
    after the body has been checked; they differ in two messages. *)
Definition issue_signin_otp (env : Env) (email sent failed : string) : M Response :=
  try_catch
    (cleanupExpiredOtps env ;;
     user <- user_findUnique (normalize email) ;
     match user with
     | None => ret (json (JError "User not found") 404)
     | Some user =>
         if negb (user_verified user)
         then ret (json (JError "Please complete signup verification first") 400)
         else if negb (user_isActive user)
         then ret (json (JError "Account is deactivated") 403)
         else
           otp_deleteMany (otp_is (normalize email) SIGNIN) ;;
           let code := generateOTP env in
           let expiresAt := now env + minutes 10 in
           otp_create (fresh_otp_id env) code (normalize email) SIGNIN expiresAt
             (Some (user_id user)) None ;;
           sendOTPEmail env (normalize email) code SIGNIN ;;
           ret (json_ok (JOtpSent sent (normalize email)))
     end)%M
    (fun _ => ret (json (JError failed) 500)).

(** [POST /api/signin] *)
Definition signin (env : Env) (body : option EmailBody) : M Response :=
  match body with
  | None => ret (json (JError "Invalid request data") 400)
  | Some b =>
      if Js.falsy (eb_email b)
      then ret (json (JError "Email is required") 400)
      else issue_signin_otp env (Js.str (eb_email b))
             "OTP sent to your email" "Failed to send OTP"
  end.

(** [POST /api/signin/resend] *)
Definition signin_resend (env : Env) (body : option EmailBody) : M Response :=
  match body with
  | None => ret (json (JError "Invalid request data") 400)
  | Some b =>
      if Js.falsy (eb_email b)
      then ret (json (JError "Email is required") 400)
      else issue_signin_otp env (Js.str (eb_email b))
             "New OTP sent to your email" "Failed to resend OTP"
  end.

(** [POST /api/signin/verify] *)
Definition signin_verify (env : Env) (hdr : Headers) (body : option VerifyBody)
  : M Response :=
  match body with
  | None => ret (json (JError "Invalid request data") 400)
  | Some b =>
      if Js.falsy (vb_email b) || Js.falsy (vb_otp b)
      then ret (json (JError "Email and OTP are required") 400)
      else
        let email := Js.str (vb_email b) in
        let otp := Js.str (vb_otp b) in
        let keepLoggedIn :=
          match vb_keepLoggedIn b with Some k => k | None => false end in
        try_catch
          (otpRecord <- otp_findFirst_include_user
                          (otp_live env (normalize email) (Js.trim otp) SIGNIN) ;
           match otpRecord with
           | None => ret (json (JError "Invalid or expired OTP") 400)
           | Some (otpRecord, None) =>
               otp_update (otp_id otpRecord)
                 {| upd_verified := None; upd_userId := None;
                    upd_attempts_increment := Some 1 |} ;;
               ret (json (JError "Invalid or expired OTP") 400)
           | Some (otpRecord, Some user) =>
               if 5 <=? otp_attempts otpRecord
               then ret (json (JError "Too many attempts. Please request a new OTP.") 400)
               else
                 otp_update (otp_id otpRecord)
                   {| upd_verified := Some true; upd_userId := None;
                      upd_attempts_increment := None |} ;;
                 let token := generateToken env (user_id user) in
                 let expiresAt :=
                   if keepLoggedIn then now env + days 30 else now env + hours 24 in
                 session_create (fresh_session_id env) (user_id user) token expiresAt
                   (Js.or_null (h_user_agent hdr)) (ipAddress hdr) ;;
                 ret (json_ok (JAuth "Signed in successfully" (view user) token))
           end)%M
          (fun _ => ret (json (JError "Signin failed") 500))
  end.

(** [POST /api/logout] *)
Definition logout (env : Env) (body : option LogoutBody) : M Response :=
  match body with
  | None => ret (json (JError "Invalid request data") 400)
  | Some b =>
      if Js.falsy (lb_token b)
      then ret (json (JError "Token is required") 400)
      else
        try_catch
          (session_updateMany_deactivate (Js.str (lb_token b)) ;;
           ret (json_ok (JMessage "Logged out successfully")))%M
          (fun _ => ret (json (JError "Logout failed") 500))
  end.

(** [GET /api/notes], after [authMiddleware] *)
Definition get_notes (env : Env) (userId : string) : M Response :=
  try_catch
    (notes <- note_findMany userId ;
     ret (json_ok (JNotes notes)))%M
    (fun _ => ret (json (JError "Failed to fetch notes") 500)).

(** [c.req.json()] followed by the destructuring of the body. *)
Definition req_json {A} (body : option A) : M A :=
  match body with
  | None => throw (JsError "SyntaxError")
  | Some b => ret b
  end.

(** [POST /api/notes], after [authMiddleware] *)
Definition create_note (env : Env) (userId : string) (body : option NoteBody)
  : M Response :=
  try_catch
    (b <- req_json body ;
     let title := nb_title b in
     let content := match nb_content b with Some c => c | None => "" end in
     if Js.falsy title || String.eqb (Js.trim (Js.str title)) ""
     then ret (json (JError "Title is required") 400)
     else
       note <- note_create (fresh_note_id env) (Js.trim (Js.str title))
                 (Js.trim content) userId (now env) ;
       ret (json_ok (JNote "Note created successfully" note)))%M
    (fun _ => ret (json (JError "Failed to create note") 500)).

(** [PUT /api/notes/:id], after [authMiddleware] *)
Definition update_note (env : Env) (userId noteId : string) (body : option NoteBody)
  : M Response :=
  try_catch
    (b <- req_json body ;
     let title := nb_title b in
     let content := nb_content b in
     if Js.falsy title && match content with None => true | Some _ => false end
     then ret (json (JError "Title or content is required") 400)
     else
       existingNote <- note_findFirst noteId userId ;
       match existingNote with
       | None => ret (json (JError "Note not found") 404)
       | Some _ =>
           note <- note_update noteId
                     (if Js.falsy title then None else Some (Js.trim (Js.str title)))
                     (match content with
                      | Some c => Some (Js.trim c)
                      | None => None
                      end)
                     (now env) ;
           ret (json_ok (JNote "Note updated successfully" note))
       end)%M
    (fun _ => ret (json (JError "Failed to update note") 500)).

(** [DELETE /api/notes/:id], after [authMiddleware] *)
Definition delete_note (env : Env) (userId noteId : string) : M Response :=
  try_catch
    (existingNote <- note_findFirst noteId userId ;
     match existingNote with
     | None => ret (json (JError "Note not found") 404)
     | Some _ =>
         note_delete noteId ;;
         ret (json_ok (JMessage "Note deleted successfully"))
     end)%M
    (fun _ => ret (json (JError "Failed to delete note") 500)).

(** [GET /api/health] *)
Definition health (env : Env) : M Response :=
  ret (json_ok (JHealth "OK" (now env))).

(** ** The application *)

Inductive Request :=
| POST_signup (body : option SignupBody)
| POST_signup_verify (hdr : Headers) (body : option VerifyBody)
| POST_signin (body : option EmailBody)
| POST_signin_verify (hdr : Headers) (body : option VerifyBody)
| POST_logout (body : option LogoutBody)
| GET_notes (hdr : Headers)
| POST_notes (hdr : Headers) (body : option NoteBody)
| PUT_notes (hdr : Headers) (id : string) (body : option NoteBody)
| DELETE_notes (hdr : Headers) (id : string)
| GET_health
| POST_signin_resend (body : option EmailBody).

Definition app (env : Env) (req : Request) : M Response :=
  match req with
  | POST_signup body => signup env body
  | POST_signup_verify hdr body => signup_verify env hdr body
  | POST_signin body => signin env body
  | POST_signin_verify hdr body => signin_verify env hdr body
  | POST_logout body => logout env body
  | GET_notes hdr => authMiddleware env hdr (fun userId => get_notes env userId)
  | POST_notes hdr body =>
      authMiddleware env hdr (fun userId => create_note env userId body)
  | PUT_notes hdr id body =>
      authMiddleware env hdr (fun userId => update_note env userId id body)
  | DELETE_notes hdr id =>
      authMiddleware env hdr (fun userId => delete_note env userId id)
  | GET_health => health env
  | POST_signin_resend body => signin_resend env body
  end.

(** One request served against the tables [db]: the tables afterwards, the
    Prisma calls made, and the response.  An error that reaches the
    framework is answered with 500. *)
Definition serve (env : Env) (req : Request) (db : Db) : Db * list OrmEvent * Response :=
  match app env req {| st_db := db; st_log := [] |} with
  | (st, Ok r) => (st_db st, st_log st, r)
  | (st, Throw _) => (st_db st, st_log st, json (JError "Internal Server Error") 500)
  end.

Definition db_after (env : Env) (req : Request) (db : Db) : Db :=
  fst (fst (serve env req db)).

Definition calls_of (env : Env) (req : Request) (db : Db) : list OrmEvent :=
  snd (fst (serve env req db)).

Definition response_of (env : Env) (req : Request) (db : Db) : Response :=
  snd (serve env req db).

(** A history of requests, each with its environment, served in order. *)
Fixpoint run (history : list (Env * Request)) (db : Db) : Db :=
  match history with
  | [] => db
  | (env, req) :: rest => run rest (db_after env req db)
  end.

End Handlers.

(** ** Vocabulary of the properties *)

(** The middleware lets the request through as [userId]: it hands over to
    the route handler after its one session lookup. *)
Definition authenticated_as (ext : Ext) (env : Env) (hdr : Headers) (db : Db)
    (userId : string) : Prop :=
  forall next,
    authMiddleware ext env hdr next {| st_db := db; st_log := [] |}
    = next userId {| st_db := db; st_log := [Call SessionFindFirst] |}.

(** The note [id] exists and belongs to somebody other than [userId]. *)
Definition owned_by_other (db : Db) (id userId : string) : Prop :=
  exists n, In n (notes db) /\ note_id n = id /\ note_userId n <> userId.

(** [notes_pkey] *)
Definition notes_pkey (db : Db) : Prop := NoDup (map note_id (notes db)).

(** The requests that go through [authMiddleware], with their headers. *)
Definition notes_request (req : Request) : option Headers :=
  match req with
  | GET_notes hdr | POST_notes hdr _ | PUT_notes hdr _ _ | DELETE_notes hdr _ =>
      Some hdr
  | _ => None
  end.

Definition bears (hdr : Headers) (token : string) : Prop :=
  h_authorization hdr = Some ("Bearer " ++ token)%string.

(** Every session row of [token] is inactive, and there is one. *)
Definition logged_out (token : string) (db : Db) : Prop :=
  In token (map session_token (sessions db))
  /\ forall s, In s (sessions db) -> session_token s = token ->
               session_isActive s = false.

Definition otp_key (o : Otp) : string * OtpType := (otp_email o, otp_type o).

(** At most one OTP row per (email, type). *)
Definition otp_unique (db : Db) : Prop := NoDup (map otp_key (otps db)).

(** Every OTP row of (email, type) has been verified. *)
Definition spent (email : string) (type : OtpType) (db : Db) : Prop :=
  forall o, In o (otps db) -> otp_email o = email -> otp_type o = type ->
            otp_verified o = true.

(** The (email, type) for which an issuing request creates an OTP. *)
Definition issued_key (req : Request) : option (string * OtpType) :=
  match req with
  | POST_signup (Some b) => Some (normalize (Js.str (sb_email b)), SIGNUP)
  | POST_signin (Some b) | POST_signin_resend (Some b) =>
      Some (normalize (Js.str (eb_email b)), SIGNIN)
  | _ => None
  end.

Definition is_error (r : Response) : Prop :=
  match body r with
  | JError _ => True
  | _ => False
  end.

Definition is_transaction (e : OrmEvent) : bool :=
  match e with
  | Transaction _ => true
  | Call _ => false
  end.

(** A computation keeps the property [I] of the tables, whether it returns
    or throws. *)
Definition preserves (I : Db -> Prop) {A} (m : M A) : Prop :=
  forall st st' r, m st = (st', r) -> I (st_db st) -> I (st_db st').

(** The six characters [toString] prints for a six-digit number. *)
Definition six (n : Z) : string :=
  String (Js.digit_char (n / 100000))
 (String (Js.digit_char (n / 10000 mod 10))
 (String (Js.digit_char (n / 1000 mod 10))
 (String (Js.digit_char (n / 100 mod 10))
 (String (Js.digit_char (n / 10 mod 10))
 (String (Js.digit_char (n mod 10)) ""))))).

(** The row a verification request is checked against: the one its lookup
    returns. *)
Definition matched_otp (env : Env) (b : VerifyBody) (type : OtpType) (db : Db)
  : option Otp :=
  find (otp_live env (normalize (Js.str (vb_email b))) (Js.trim (Js.str (vb_otp b))) type)
       (otps db).

(** The tables once [otp.update({ where: { id }, data })] has gone through. *)
Definition otp_updated (db : Db) (id : string) (d : OtpUpdate_data) : Db :=
  set_otps db
    (map (fun o => if String.eqb (otp_id o) id then otp_apply d o else o) (otps db)).

(** The three [data] objects the handlers pass to [otp.update]. *)
Definition verified_by (userId : string) : OtpUpdate_data :=
  {| upd_verified := Some true; upd_userId := Some userId;
     upd_attempts_increment := None |}.

Definition verified_only : OtpUpdate_data :=
  {| upd_verified := Some true; upd_userId := None; upd_attempts_increment := None |}.

Definition one_more_attempt : OtpUpdate_data :=
  {| upd_verified := None; upd_userId := None; upd_attempts_increment := Some 1 |}.

(** The user row [POST /api/signup/verify] inserts. *)
Definition new_user (env : Env) (sd : SignupData) (dob : Z) : User :=
  {| user_id := fresh_user_id env; user_email := sd_email sd;
     user_name := sd_name sd; user_dateOfBirth := dob;
     user_verified := true; user_isActive := true |}.

(** The session row the two verification handlers insert. *)
Definition new_session (ext : Ext) (env : Env) (hdr : Headers) (userId : string)
    (expiresAt : Z) : Session :=
  {| session_id := fresh_session_id env; session_userId := userId;
     session_token := generateToken ext env userId;
     session_expiresAt := expiresAt; session_isActive := true;
     session_userAgent := Js.or_null (h_user_agent hdr);
     session_ipAddress := ipAddress hdr |}.

(** [keepLoggedIn], with its default. *)
Definition keep_logged_in (b : VerifyBody) : bool :=
  match vb_keepLoggedIn b with Some k => k | None => false end.

(** The verification request of a flow. *)
Definition verify_request (type : OtpType) (hdr : Headers) (body : option VerifyBody)
  : Request :=
  match type with
  | SIGNUP => POST_signup_verify hdr body
  | _ => POST_signin_verify hdr body
  end.

Definition transactions (l : list OrmEvent) : list OrmEvent := filter is_transaction l.

(** A computation appends at most [n] entries to the log, at most [t] of
    them transactions. *)
Definition calls (n t : nat) {A} (m : M A) : Prop :=
  forall st st' r, m st = (st', r) ->
    exists l, st_log st' = st_log st ++ l
              /\ (List.length l <= n)%nat
              /\ (List.length (transactions l) <= t)%nat.

(** The most Prisma calls a route makes, the middleware's lookup included
    and a transaction counted as one. *)
Definition call_budget (req : Request) : nat :=
  match req with
  | POST_signup _ | POST_signin _ | POST_signin_resend _ => 4
  | POST_signup_verify _ _ | POST_signin_verify _ _ => 3
  | PUT_notes _ _ _ | DELETE_notes _ _ => 3
  | GET_notes _ | POST_notes _ _ => 2
  | POST_logout _ => 1
  | GET_health => 0
  end.

Definition tx_budget (req : Request) : nat :=
  match req with
  | POST_signup_verify _ _ => 1
  | _ => 0
  end.

(** ** Sample data used to exercise the statements *)

Module Sample.

(** A stand-in for the JWT primitive: the token spells out its payload and
    the second it was issued in; it does not lapse on its own. *)
Definition sign (userId type : string) (expiresIn now : Z) : string :=
  (type ++ ":" ++ userId ++ "@" ++ Js.toString (now / 1000))%string.

Fixpoint before_at (s : string) : string :=
  match s with
  | EmptyString => EmptyString
  | String c r => if Ascii.eqb c "@" then EmptyString else String c (before_at r)
  end.

Definition verify (token : string) (now : Z) : option (string * string) :=
  if Js.startsWith token "session:"
  then Some (before_at (Js.substring token 8), "session")
  else None.

Definition ext : Ext :=
  {| jwt_sign := sign;
     jwt_verify := verify;
     parse_date := fun s => if String.eqb s "" then None else Some 946684800000 |}.

Definition env (t : Z) (n : string) : Env :=
  {| now := t; entropy := 23456;
     fresh_user_id := ("user" ++ n)%string;
     fresh_otp_id := ("otp" ++ n)%string;
     fresh_session_id := ("session" ++ n)%string;
     fresh_note_id := ("note" ++ n)%string;
     email_ok := true |}.

Definition no_headers : Headers :=
  {| h_authorization := None; h_user_agent := None;
     h_cf_connecting_ip := None; h_x_forwarded_for := None |}.

Definition bearer (token : string) : Headers :=
  {| h_authorization := Some ("Bearer " ++ token)%string; h_user_agent := None;
     h_cf_connecting_ip := None; h_x_forwarded_for := None |}.

Definition ann : User :=
  {| user_id := "ann"; user_email := "ann@example.com"; user_name := "Ann";
     user_dateOfBirth := 0; user_verified := true; user_isActive := true |}.

Definition bob : User :=
  {| user_id := "bob"; user_email := "bob@example.com"; user_name := "Bob";
     user_dateOfBirth := 0; user_verified := true; user_isActive := true |}.

Definition ann_token : string := "session:ann@0".

Definition ann_session : Session :=
  {| session_id := "s-ann"; session_userId := "ann"; session_token := ann_token;
     session_expiresAt := days 1; session_isActive := true;
     session_userAgent := None; session_ipAddress := Some "unknown" |}.

Definition bob_note : Note :=
  {| note_id := "n-bob"; note_title := "Bob's"; note_content := "private";
     note_userId := "bob"; note_createdAt := 10; note_updatedAt := 10 |}.

Definition ann_note : Note :=
  {| note_id := "n-ann"; note_title := "Ann's"; note_content := "";
     note_userId := "ann"; note_createdAt := 20; note_updatedAt := 20 |}.

(** Ann and Bob, Ann signed in, one note each. *)
Definition db : Db :=
  {| users := [ann; bob]; otps := []; sessions := [ann_session];
     notes := [bob_note; ann_note] |}.

Definition signin_otp (attempts : Z) : Otp :=
  {| otp_id := "otp-in"; otp_code := "123456"; otp_email := "ann@example.com";
     otp_type := SIGNIN; otp_expiresAt := minutes 10; otp_verified := false;
     otp_attempts := attempts; otp_userId := Some "ann"; otp_signupData := None |}.

Definition signup_otp (attempts : Z) : Otp :=
  {| otp_id := "otp-up"; otp_code := "654321"; otp_email := "cy@example.com";
     otp_type := SIGNUP; otp_expiresAt := minutes 10; otp_verified := false;
     otp_attempts := attempts; otp_userId := None;
     otp_signupData := Some {| sd_name := "Cy"; sd_email := "cy@example.com";
                               sd_dateOfBirth := "2000-01-01" |} |}.

(** [db] with one live sign-in OTP for Ann and one live sign-up OTP for Cy. *)
Definition db_otps (attempts : Z) : Db :=
  set_otps db [signin_otp attempts; signup_otp attempts].

Definition verify_body (email otp : string) : option VerifyBody :=
  Some {| vb_email := Some email; vb_otp := Some otp; vb_keepLoggedIn := None |}.

Definition email_body (email : string) : option EmailBody :=
  Some {| eb_email := Some email |}.

(** Ann asks for a sign-in code; Ann presents "123456" (the code [env]
    makes [generateOTP] draw); Cy signs up. *)
Definition signin_ann : Request := POST_signin (email_body "ann@example.com").

Definition verify_ann : Request :=
  POST_signin_verify no_headers (verify_body "ann@example.com" "123456").

Definition signup_cy : Request :=
  POST_signup (Some {| sb_name := Some "Cy"; sb_email := Some "cy@example.com";
                       sb_dateOfBirth := Some "2000-01-01" |}).

End Sample.

(** ** Vocabulary of the further properties *)

(** The [where] of the middleware's session lookup. *)
Definition session_valid (env : Env) (token : string) (s : Session) : bool :=
  String.eqb (session_token s) token
  && session_isActive s
  && (now env <? session_expiresAt s).

(** The routes, by the Prisma writes their handlers contain. *)
Definition issues_otp (req : Request) : Prop :=
  match req with
  | POST_signup _ | POST_signin _ | POST_signin_resend _ => True
  | _ => False
  end.

Definition is_signup_verify (req : Request) : Prop :=
  match req with
  | POST_signup_verify _ _ => True
  | _ => False
  end.

Definition is_signin_verify (req : Request) : Prop :=
  match req with
  | POST_signin_verify _ _ => True
  | _ => False
  end.

Definition is_logout (req : Request) : Prop :=
  match req with
  | POST_logout _ => True
  | _ => False
  end.

Definition is_create_note (req : Request) : Prop :=
  match req with
  | POST_notes _ _ => True
  | _ => False
  end.

Definition is_update_note (req : Request) : Prop :=
  match req with
  | PUT_notes _ _ _ => True
  | _ => False
  end.

Definition is_delete_note (req : Request) : Prop :=
  match req with
  | DELETE_notes _ _ => True
  | _ => False
  end.

(** The constraints of the migrations: primary keys, the unique indexes
    [users_email_key] and [sessions_token_key], and the foreign keys to
    [users(id)]. *)
Definition users_keys (db : Db) : Prop :=
  NoDup (map user_id (users db)) /\ NoDup (map user_email (users db)).

Definition otps_pkey (db : Db) : Prop := NoDup (map otp_id (otps db)).

Definition sessions_keys (db : Db) : Prop :=
  NoDup (map session_id (sessions db)) /\ NoDup (map session_token (sessions db)).

Definition foreign_keys (db : Db) : Prop :=
  (forall s, In s (sessions db) -> user_exists db (session_userId s) = true)
  /\ (forall n, In n (notes db) -> user_exists db (note_userId n) = true)
  /\ (forall o, In o (otps db) -> fk_user db (otp_userId o) = true).

Definition db_constraints (db : Db) : Prop :=
  users_keys db /\ otps_pkey db /\ sessions_keys db /\ notes_pkey db
  /\ foreign_keys db.

(** Every account is verified and active. *)
Definition users_ready (db : Db) : Prop :=
  forall u, In u (users db) -> user_verified u = true /\ user_isActive u = true.

(** No attempt is on record, and every sign-in OTP row points to its user. *)
Definition otps_fresh (db : Db) : Prop :=
  forall o, In o (otps db) ->
    otp_attempts o = 0
    /\ (otp_type o = SIGNIN -> exists u, otp_user db o = Some u).

(** Newest first: no note is followed by a more recent one. *)
Fixpoint newest_first (l : list Note) : Prop :=
  match l with
  | [] => True
  | x :: r =>
      (forall y, In y r -> note_createdAt y <= note_createdAt x) /\ newest_first r
  end.

(** The note [POST /api/notes] stores for a body it accepts. *)
Definition new_note (env : Env) (userId : string) (b : NoteBody) : Note :=
  {| note_id := fresh_note_id env;
     note_title := Js.trim (Js.str (nb_title b));
     note_content := Js.trim (match nb_content b with Some c => c | None => "" end);
     note_userId := userId;
     note_createdAt := now env;
     note_updatedAt := now env |}.

(** The [data] of the update [PUT /api/notes/:id] makes for a body. *)
Definition title_update (b : NoteBody) : option string :=
  if Js.falsy (nb_title b) then None else Some (Js.trim (Js.str (nb_title b))).

Definition content_update (b : NoteBody) : option string :=
  match nb_content b with
  | Some c => Some (Js.trim c)
  | None => None
  end.

(** The note [id] exists and belongs to [userId]. *)
Definition owned_by (db : Db) (id userId : string) (n : Note) : Prop :=
  In n (notes db) /\ note_id n = id /\ note_userId n = userId.

(** The tables once [cleanupExpiredOtps] has run. *)
Definition purged (env : Env) (db : Db) : Db :=
  set_otps db (filter (fun o => negb (otp_expiresAt o <? now env)) (otps db)).

(** The OTP row an issuing route creates. *)
Definition new_otp (env : Env) (email : string) (type : OtpType)
    (userId : option string) (signupData : option SignupData) : Otp :=
  {| otp_id := fresh_otp_id env; otp_code := generateOTP env; otp_email := email;
     otp_type := type; otp_expiresAt := now env + minutes 10;
     otp_verified := false; otp_attempts := 0;
     otp_userId := userId; otp_signupData := signupData |}.

(** The tables once an issuing route has stored its OTP: the expired rows
    and the rows of that e-mail and type are gone, the new row is last. *)
Definition issued (env : Env) (db : Db) (email : string) (type : OtpType)
    (userId : option string) (signupData : option SignupData) : Db :=
  set_otps db
    (filter (fun o => negb (otp_is email type o)) (otps (purged env db))
     ++ [new_otp env email type userId signupData]).

(** The [signupData] [POST /api/signup] stores for a body. *)
Definition signup_data (b : SignupBody) : SignupData :=
  {| sd_name := Js.trim (Js.str (sb_name b));
     sd_email := normalize (Js.str (sb_email b));
     sd_dateOfBirth := Js.str (sb_dateOfBirth b) |}.

(** [fresh_otp_id], [fresh_user_id], [fresh_session_id] and the token are
    new to the tables. *)
Definition otp_id_is_fresh (env : Env) (db : Db) : Prop :=
  existsb (fun o => String.eqb (otp_id o) (fresh_otp_id env)) (otps db) = false.

Definition user_id_is_fresh (env : Env) (db : Db) : Prop :=
  existsb (fun u => String.eqb (user_id u) (fresh_user_id env)) (users db) = false.

Definition session_is_fresh (ext : Ext) (env : Env) (db : Db) (userId : string) : Prop :=
  existsb (fun s => String.eqb (session_id s) (fresh_session_id env)
                    || String.eqb (session_token s) (generateToken ext env userId))
          (sessions db) = false.

(** Some account has this e-mail. *)
Definition registered (db : Db) (email : string) (u : User) : Prop :=
  In u (users db) /\ user_email u = email.

(** No unverified OTP row of (email, type) carries [code]. *)
Definition code_used_up (email : string) (type : OtpType) (code : string) (db : Db)
  : Prop :=
  forall o, In o (otps db) -> otp_email o = email -> otp_type o = type ->
            otp_code o = code -> otp_verified o = true.

(** The [signupData] of an OTP row carries the e-mail of the row. *)
Definition signup_data_consistent (db : Db) : Prop :=
  forall o sd, In o (otps db) -> otp_signupData o = Some sd ->
               sd_email sd = otp_email o.

(** The same request when the mail service turns the message down. *)
Definition mail_fails (env : Env) : Env :=
  {| now := now env; entropy := entropy env;
     fresh_user_id := fresh_user_id env; fresh_otp_id := fresh_otp_id env;
     fresh_session_id := fresh_session_id env; fresh_note_id := fresh_note_id env;
     email_ok := false |}.

(** An OTP request whose body has the fields its route asks for. *)
Definition complete (req : Request) : Prop :=
  match req with
  | POST_signup (Some b) =>
      Js.falsy (sb_name b) = false /\ Js.falsy (sb_email b) = false
      /\ Js.falsy (sb_dateOfBirth b) = false
  | POST_signin (Some b) | POST_signin_resend (Some b) =>
      Js.falsy (eb_email b) = false
  | _ => False
  end.

(** What an OTP request for (email, type) leaves of the tables: the other
    tables as they were, no expired OTP row, and every live row of another
    key. *)
Definition swept (env : Env) (email : string) (type : OtpType) (db db' : Db) : Prop :=
  users db' = users db /\ sessions db' = sessions db /\ notes db' = notes db
  /\ (forall o, In o (otps db') -> now env <= otp_expiresAt o)
  /\ (forall o, In o (otps db) -> now env <= otp_expiresAt o ->
        otp_is email type o = false -> In o (otps db')).

(** ** The forms' checks of a code (signin.tsx, signup.tsx)

    Each returns the error it sets on the [otp] field, [None] when the form
    goes on to send the request. *)

(** [/^\d{n}$/.test(s)] *)
Fixpoint digits_exactly (n : nat) (s : string) : bool :=
  match n, s with
  | O, EmptyString => true
  | S k, String c r => Js.is_digit c && digits_exactly k r
  | _, _ => false
  end.

(** signin.tsx *)
Definition validateOtp (otp : string) : option string :=
  if String.eqb (Js.trim otp) "" then Some "OTP is required"
  else if negb (Nat.eqb (String.length otp) 6) then Some "OTP must be 6 digits"
  else None.

(** signup.tsx *)
Definition validateOtpForm (otp : string) : option string :=
  if String.eqb (Js.trim otp) "" then Some "OTP is required"
  else if negb (Nat.eqb (String.length otp) 6) then Some "OTP must be 6 digits"
  else if negb (digits_exactly 6 otp) then Some "OTP must contain only numbers"
  else None.

(** ** More sample data *)

Module Tour.

(** A note body, and Ann's requests with it. *)
Definition hello : NoteBody :=
  {| nb_title := Some "  Hello "; nb_content := Some " first note " |}.

Definition blank : NoteBody :=
  {| nb_title := Some "   "; nb_content := Some "text" |}.

Definition retitle : NoteBody :=
  {| nb_title := Some " Renamed "; nb_content := None |}.

Definition ann_hdr : Headers := Sample.bearer Sample.ann_token.

(** Ann types her address and the code the way the forms let her. *)
Definition ann_code : VerifyBody :=
  {| vb_email := Some " Ann@Example.com"; vb_otp := Some "123456 ";
     vb_keepLoggedIn := Some true |}.

Definition cy_code : VerifyBody :=
  {| vb_email := Some "CY@example.com"; vb_otp := Some "123456";
     vb_keepLoggedIn := None |}.

Definition cy_again : SignupBody :=
  {| sb_name := Some "Cyrus"; sb_email := Some " cy@Example.COM ";
     sb_dateOfBirth := Some "1999-09-09" |}.

(** The tables after Ann has asked for a code, and after Cy has signed up. *)
Definition db_signin : Db :=
  db_after Sample.ext (Sample.env 1000 "1") Sample.signin_ann Sample.db.

Definition db_signup : Db :=
  db_after Sample.ext (Sample.env 1000 "1") Sample.signup_cy Sample.db.

(** An environment whose draw makes [generateOTP] return "111111". *)
Definition env_111111 (t : Z) (n : string) : Env :=
  {| now := t; entropy := 11111;
     fresh_user_id := ("user" ++ n)%string;
     fresh_otp_id := ("otp" ++ n)%string;
     fresh_session_id := ("session" ++ n)%string;
     fresh_note_id := ("note" ++ n)%string;
     email_ok := true |}.

End Tour.

(** * Properties *)

(** ** Decimal printing and [generateOTP] *)

Ltac dlia := Z.div_mod_to_equations; lia.

Lemma digit_char_code d :
  0 <= d <= 9 -> Z.of_nat (nat_of_ascii (Js.digit_char d)) = 48 + d.
Proof.
  intros H.
  assert (C : d = 0 \/ d = 1 \/ d = 2 \/ d = 3 \/ d = 4 \/ d = 5 \/ d = 6
              \/ d = 7 \/ d = 8 \/ d = 9) by lia.
  repeat (destruct C as [C | C]; [subst d; reflexivity | ]).
  subst d; reflexivity.
Qed.

Lemma digit_char_is_digit d : 0 <= d <= 9 -> Js.is_digit (Js.digit_char d) = true.
Proof.
  intros H. unfold Js.is_digit.
  pose proof (digit_char_code d H) as E.
  apply andb_true_intro; split; apply Nat.leb_le; lia.
Qed.

Lemma digits_step f n acc :
  Js.digits (S f) n acc =
  if n <? 10 then String (Js.digit_char (n mod 10)) acc
  else Js.digits f (n / 10) (String (Js.digit_char (n mod 10)) acc).
Proof. reflexivity. Qed.

Lemma toString_six n : 100000 <= n < 1000000 -> Js.toString n = six n.
Proof.
  intros H. unfold Js.toString.
  destruct (Z.ltb_spec n 0) as [L | _]; [lia | ].
  assert (F : (17 <= S (Z.to_nat (Z.log2 n)))%nat).
  { assert (Z.log2 100000 <= Z.log2 n) by (apply Z.log2_le_mono; lia).
    change (Z.log2 100000) with 16 in *. lia. }
  destruct (S (Z.to_nat (Z.log2 n))) as [|[|[|[|[|[|f]]]]]]; try lia.
  clear F.
  rewrite !digits_step.
  rewrite !Z.div_div by lia. simpl Z.mul.
  destruct (Z.ltb_spec n 10); [lia | ].
  destruct (Z.ltb_spec (n / 10) 10); [dlia | ].
  destruct (Z.ltb_spec (n / 100) 10); [dlia | ].
  destruct (Z.ltb_spec (n / 1000) 10); [dlia | ].
  destruct (Z.ltb_spec (n / 10000) 10); [dlia | ].
  destruct (Z.ltb_spec (n / 100000) 10); [ | dlia].
  unfold six. rewrite (Z.mod_small (n / 100000) 10) by dlia. reflexivity.
Qed.

Lemma six_value n : 100000 <= n < 1000000 -> Js.decimal_value (six n) = n.
Proof.
  intros H. unfold Js.decimal_value, six, Js.value_from.
  rewrite !digit_char_code by dlia. dlia.
Qed.

Lemma six_all_digits n : 100000 <= n < 1000000 -> Js.all_digits (six n) = true.
Proof.
  intros H. unfold six, Js.all_digits.
  rewrite !digit_char_is_digit by dlia. reflexivity.
Qed.

Lemma six_head n : 100000 <= n < 1000000 -> Js.digit_char (n / 100000) <> "0"%char.
Proof.
  intros H E.
  assert (R : 1 <= n / 100000 <= 9) by dlia.
  pose proof (digit_char_code (n / 100000) ltac:(lia)) as C.
  rewrite E in C. change (Z.of_nat (nat_of_ascii "0"%char)) with 48 in C. lia.
Qed.

Lemma randomInt_range min max e :
  min < max -> min <= randomInt min max e < max.
Proof.
  intros H. unfold randomInt.
  pose proof (Z.mod_pos_bound e (max - min) ltac:(lia)). lia.
Qed.

(** C10.  Whatever the random source draws, [generateOTP] returns the
    decimal representation of an integer [n] of the range of
    [crypto.randomInt(100000, 999999)], that is [100000 <= n < 999999]: a
    string of exactly six decimal digits whose first digit is not zero and
    whose value is [n]. *)
Theorem generateOTP_six_digits (env : Env) :
  exists n,
    100000 <= n < 999999
    /\ generateOTP env = Js.toString n
    /\ String.length (generateOTP env) = 6%nat
    /\ Js.all_digits (generateOTP env) = true
    /\ (exists c r, generateOTP env = String c r /\ c <> "0"%char)
    /\ Js.decimal_value (generateOTP env) = n.
Proof.
  unfold generateOTP.
  set (n := randomInt 100000 999999 (entropy env)).
  assert (R : 100000 <= n < 999999) by (apply randomInt_range; lia).
  exists n. rewrite toString_six by lia.
  repeat split; try lia.
  - apply six_all_digits; lia.
  - eexists _, _. split; [reflexivity | apply six_head; lia].
  - apply six_value; lia.
Qed.

(** ** Notes are per user *)

Ltac unfold_h :=
  unfold bind, try_catch, ret, throw, orm, req_json in *;
  cbn [st_db st_log fst snd List.app] in *.

Ltac unfold_m := unfold transaction in *; unfold_h.

Lemma insert_desc_perm n l : Permutation (insert_desc n l) (n :: l).
Proof.
  induction l as [|x r IH]; simpl; [reflexivity | ].
  destruct (note_createdAt x <? note_createdAt n); [reflexivity | ].
  rewrite IH. apply perm_swap.
Qed.

Lemma orderBy_createdAt_desc_perm l : Permutation (orderBy_createdAt_desc l) l.
Proof.
  induction l as [|x r IH]; simpl; [reflexivity | ].
  rewrite insert_desc_perm. now constructor.
Qed.

Lemma get_notes_served ext env hdr db u :
  authenticated_as ext env hdr db u ->
  serve ext env (GET_notes hdr) db =
  (db, [Call SessionFindFirst; Call NoteFindMany],
   json_ok (JNotes (orderBy_createdAt_desc
                      (filter (fun n => String.eqb (note_userId n) u) (notes db))))).
Proof.
  intros A. unfold serve, app. rewrite A. reflexivity.
Qed.

(** With [id] a key, a note of somebody else is the only note of that id,
    so the lookup by [id] and [userId] comes back empty. *)
Lemma note_findFirst_foreign db id u :
  notes_pkey db -> owned_by_other db id u ->
  find (fun n => String.eqb (note_id n) id && String.eqb (note_userId n) u)
       (notes db) = None.
Proof.
  unfold notes_pkey, owned_by_other.
  intros ND (n & Hin & Hid & Hu).
  destruct (find _ (notes db)) as [m|] eqn:F; [ | reflexivity].
  apply find_some in F. destruct F as [Hm E].
  apply andb_prop in E. destruct E as [E1 E2].
  apply String.eqb_eq in E1, E2.
  assert (m = n); [ | subst m; contradiction].
  subst id. clear Hu E2. revert ND Hin Hm.
  induction (notes db) as [|x r IH]; [contradiction | ].
  simpl. intros ND Hin Hm. inversion ND as [|? ? Hx ND']; subst.
  destruct Hin as [-> | Hin], Hm as [-> | Hm]; auto.
  - exfalso. apply Hx. rewrite <- E1. now apply in_map.
  - exfalso. apply Hx. rewrite E1. now apply in_map.
Qed.

Lemma delete_note_foreign ext env hdr db u id :
  authenticated_as ext env hdr db u ->
  notes_pkey db -> owned_by_other db id u ->
  serve ext env (DELETE_notes hdr id) db =
  (db, [Call SessionFindFirst; Call NoteFindFirst],
   json (JError "Note not found") 404).
Proof.
  intros A ND F. unfold serve, app. rewrite A.
  unfold delete_note, note_findFirst. unfold_m.
  rewrite (note_findFirst_foreign _ _ _ ND F). reflexivity.
Qed.

Lemma update_note_foreign ext env hdr db u id body :
  authenticated_as ext env hdr db u ->
  notes_pkey db -> owned_by_other db id u ->
  exists log r,
    serve ext env (PUT_notes hdr id body) db = (db, log, r)
    /\ status r =
       match body with
       | None => 500
       | Some b =>
           if Js.falsy (nb_title b)
              && match nb_content b with None => true | Some _ => false end
           then 400 else 404
       end.
Proof.
  intros A ND F. unfold serve, app. rewrite A.
  unfold update_note, note_findFirst. unfold_m.
  destruct body as [b|]; cbn.
  - destruct (Js.falsy (nb_title b) && _); cbn.
    + eauto.
    + rewrite (note_findFirst_foreign _ _ _ ND F). eauto.
  - eauto.
Qed.

(** C1, as the code has it.  For a request the middleware lets through as
    user [u]: [GET /api/notes] answers 200 with exactly the notes whose
    [userId] is [u] (newest first) and changes nothing; [DELETE
    /api/notes/:id] on a note of another user answers 404 and changes
    nothing; [PUT /api/notes/:id] on a note of another user changes nothing
    and answers 404 when the body carries a title or a content, 400 when it
    carries neither, and 500 when it cannot be parsed. *)
Theorem notes_are_per_user ext env hdr db u :
  authenticated_as ext env hdr db u ->
  (exists l,
      response_of ext env (GET_notes hdr) db = json_ok (JNotes l)
      /\ db_after ext env (GET_notes hdr) db = db
      /\ Permutation l (filter (fun n => String.eqb (note_userId n) u) (notes db))
      /\ forall n, In n l <-> In n (notes db) /\ note_userId n = u)
  /\ forall id,
      notes_pkey db -> owned_by_other db id u ->
      status (response_of ext env (DELETE_notes hdr id) db) = 404
      /\ db_after ext env (DELETE_notes hdr id) db = db
      /\ forall body,
          db_after ext env (PUT_notes hdr id body) db = db
          /\ status (response_of ext env (PUT_notes hdr id body) db) =
             match body with
             | None => 500
             | Some b =>
                 if Js.falsy (nb_title b)
                    && match nb_content b with None => true | Some _ => false end
                 then 400 else 404
             end.
Proof.
  intros A. split.
  - eexists. unfold response_of, db_after.
    rewrite (get_notes_served _ _ _ _ _ A). cbn [fst snd].
    repeat split.
    + apply orderBy_createdAt_desc_perm.
    + apply (Permutation_in _ (orderBy_createdAt_desc_perm _)) in H.
      apply filter_In in H. tauto.
    + apply (Permutation_in _ (orderBy_createdAt_desc_perm _)) in H.
      apply filter_In in H. destruct H as [_ H]. now apply String.eqb_eq in H.
    + intros [Hin Hu].
      apply (Permutation_in _ (Permutation_sym (orderBy_createdAt_desc_perm _))).
      apply filter_In. split; [assumption | now apply String.eqb_eq].
  - intros id ND F. unfold response_of, db_after.
    rewrite (delete_note_foreign _ _ _ _ _ _ A ND F). cbn [fst snd].
    split; [reflexivity | ]. split; [reflexivity | ].
    intros b.
    destruct (update_note_foreign _ _ _ _ _ _ b A ND F) as (log & r & E & S).
    rewrite E. split; [reflexivity | exact S].
Qed.

Lemma sample_ann_authenticated :
  authenticated_as Sample.ext (Sample.env 1000 "1")
    (Sample.bearer Sample.ann_token) Sample.db "ann".
Proof. intros next. reflexivity. Qed.

Lemma sample_notes_pkey : notes_pkey Sample.db.
Proof.
  unfold notes_pkey. cbn.
  repeat constructor; cbn; intuition discriminate.
Qed.

Lemma sample_bob_note_foreign : owned_by_other Sample.db "n-bob" "ann".
Proof.
  exists Sample.bob_note. cbn. repeat split; [now left | discriminate].
Qed.

(** Ann is signed in and asks for, deletes and rewrites Bob's note. *)
Lemma notes_are_per_user_witness :
  authenticated_as Sample.ext (Sample.env 1000 "1")
    (Sample.bearer Sample.ann_token) Sample.db "ann"
  /\ notes_pkey Sample.db
  /\ owned_by_other Sample.db "n-bob" "ann"
  /\ response_of Sample.ext (Sample.env 1000 "1")
       (GET_notes (Sample.bearer Sample.ann_token)) Sample.db
     = json_ok (JNotes [Sample.ann_note])
  /\ status (response_of Sample.ext (Sample.env 1000 "1")
               (DELETE_notes (Sample.bearer Sample.ann_token) "n-bob") Sample.db)
     = 404.
Proof.
  split; [exact sample_ann_authenticated | ].
  split; [exact sample_notes_pkey | ].
  split; [exact sample_bob_note_foreign | ].
  split; [reflexivity | ].
  apply (notes_are_per_user Sample.ext (Sample.env 1000 "1")
           (Sample.bearer Sample.ann_token) Sample.db "ann"
           sample_ann_authenticated).
  - exact sample_notes_pkey.
  - exact sample_bob_note_foreign.
Defined.

(** Against C1 as stated: Ann, signed in, sends [PUT /api/notes/n-bob] with
    a body that has neither title nor content.  The note is Bob's, and the
    answer is 400, not 404. *)
Lemma put_foreign_note_empty_body_is_400 :
  authenticated_as Sample.ext (Sample.env 1000 "1")
    (Sample.bearer Sample.ann_token) Sample.db "ann"
  /\ owned_by_other Sample.db "n-bob" "ann"
  /\ response_of Sample.ext (Sample.env 1000 "1")
       (PUT_notes (Sample.bearer Sample.ann_token) "n-bob"
          (Some {| nb_title := None; nb_content := None |})) Sample.db
     = json (JError "Title or content is required") 400
  /\ status (response_of Sample.ext (Sample.env 1000 "1")
       (PUT_notes (Sample.bearer Sample.ann_token) "n-bob"
          (Some {| nb_title := None; nb_content := None |})) Sample.db) <> 404.
Proof.
  split; [exact sample_ann_authenticated | ].
  split; [exact sample_bob_note_foreign | ].
  split; [reflexivity | ].
  cbn. discriminate.
Qed.

(** ** What the two verification handlers do

    Each run is one of a few outcomes, given here with the tables, the calls
    and the response it ends with. *)

Lemma signup_tx_runs ext env sd otpId st :
  (exists e ops,
      transaction (signup_tx ext env sd otpId) st
      = ({| st_db := st_db st; st_log := st_log st ++ [Transaction ops] |}, Throw e)
      /\ (ops = [UserCreate] \/ ops = [UserCreate; OtpUpdate]))
  \/ exists dob,
      parse_date ext (sd_dateOfBirth sd) = Some dob
      /\ transaction (signup_tx ext env sd otpId) st
         = ({| st_db := otp_updated (set_users (st_db st)
                                       (users (st_db st) ++ [new_user env sd dob]))
                          otpId (verified_by (fresh_user_id env));
               st_log := st_log st ++ [Transaction [UserCreate; OtpUpdate]] |},
            Ok (new_user env sd dob)).
Proof.
  unfold signup_tx, user_create, otp_update. unfold_m.
  destruct (parse_date ext (sd_dateOfBirth sd)) as [dob|]; cbn; [ | left; eauto].
  destruct (existsb _ (users (st_db st))); cbn; [left; eauto | ].
  destruct (existsb _ (otps (st_db st))) eqn:E; cbn; [ | left; eauto].
  rewrite existsb_app. cbn. rewrite String.eqb_refl, orb_true_r. cbn.
  right. exists dob. split; reflexivity.
Qed.

Lemma signup_verify_runs ext env hdr body db :
  (exists log msg code,
      serve ext env (POST_signup_verify hdr body) db = (db, log, json (JError msg) code)
      /\ (code = 400 \/ code = 500))
  \/ exists b o sd dob,
      body = Some b
      /\ matched_otp env b SIGNUP db = Some o
      /\ otp_attempts o < 5
      /\ otp_signupData o = Some sd
      /\ parse_date ext (sd_dateOfBirth sd) = Some dob
      /\ let u := new_user env sd dob in
         let db1 := otp_updated (set_users db (users db ++ [u])) (otp_id o)
                      (verified_by (user_id u)) in
         let s := new_session ext env hdr (user_id u) (now env + days 30) in
         let log := [Call OtpFindFirst; Transaction [UserCreate; OtpUpdate];
                     Call SessionCreate] in
         serve ext env (POST_signup_verify hdr body) db
         = (db1, log, json (JError "Verification failed") 500)
         \/ serve ext env (POST_signup_verify hdr body) db
            = (set_sessions db1 (sessions db ++ [s]), log,
               json_ok (JAuth "Account created successfully" (view u) (session_token s))).
Proof.
  unfold serve, app, signup_verify, otp_findFirst. cbv zeta.
  destruct body as [b|]; [ | left; cbn; eauto 6].
  destruct (Js.falsy (vb_email b) || Js.falsy (vb_otp b)); [left; cbn; eauto 6 | ].
  unfold_h.
  destruct (find _ (otps db)) as [o|] eqn:F; unfold_h; [ | left; eauto 6].
  destruct (Z.leb_spec 5 (otp_attempts o)); unfold_h; [left; eauto 6 | ].
  destruct (otp_signupData o) as [sd|] eqn:SD; unfold_h; [ | left; eauto 6].

  destruct (signup_tx_runs ext env sd (otp_id o)
              {| st_db := db; st_log := [Call OtpFindFirst] |})
    as [(e & ops & T & _) | (dob & PD & T)]; rewrite T; cbn [st_db st_log List.app].
  - left; eauto 6.
  - right. exists b, o, sd, dob. repeat (split; [assumption || reflexivity | ]).
    unfold session_create. unfold_h. cbn.
    destruct (existsb _ (sessions db)); cbn; [left; reflexivity | ].
    rewrite existsb_app. cbn. rewrite String.eqb_refl, orb_true_r. cbn.
    right; reflexivity.
Qed.

Lemma find_exists_id (p : Otp -> bool) l o :
  find p l = Some o -> existsb (fun x => String.eqb (otp_id x) (otp_id o)) l = true.
Proof.
  intros F. apply find_some in F. apply existsb_exists.
  exists o. split; [tauto | apply String.eqb_refl].
Qed.

Lemma otp_user_exists db o u :
  otp_user db o = Some u -> user_exists db (user_id u) = true.
Proof.
  unfold otp_user, user_exists. destruct (otp_userId o) as [id|]; [ | discriminate].
  intros F. apply find_some in F. apply existsb_exists.
  exists u. split; [tauto | apply String.eqb_refl].
Qed.

Lemma signin_verify_runs ext env hdr body db :
  (exists log msg,
      serve ext env (POST_signin_verify hdr body) db = (db, log, json (JError msg) 400))
  \/ exists b o,
      body = Some b
      /\ matched_otp env b SIGNIN db = Some o
      /\ ((otp_user db o = None
           /\ serve ext env (POST_signin_verify hdr body) db
              = (otp_updated db (otp_id o) one_more_attempt,
                 [Call OtpFindFirst; Call OtpUpdate],
                 json (JError "Invalid or expired OTP") 400))
          \/ exists u,
              otp_user db o = Some u
              /\ otp_attempts o < 5
              /\ let db1 := otp_updated db (otp_id o) verified_only in
                 let s := new_session ext env hdr (user_id u)
                            (if keep_logged_in b then now env + days 30
                             else now env + hours 24) in
                 let log := [Call OtpFindFirst; Call OtpUpdate; Call SessionCreate] in
                 serve ext env (POST_signin_verify hdr body) db
                 = (db1, log, json (JError "Signin failed") 500)
                 \/ serve ext env (POST_signin_verify hdr body) db
                    = (set_sessions db1 (sessions db ++ [s]), log,
                       json_ok (JAuth "Signed in successfully" (view u) (session_token s)))).
Proof.
  unfold serve, app, signin_verify, otp_findFirst_include_user. cbv zeta.
  destruct body as [b|]; [ | left; cbn; eauto 6].
  destruct (Js.falsy (vb_email b) || Js.falsy (vb_otp b)); [left; cbn; eauto 6 | ].
  unfold_h.
  destruct (find _ (otps db)) as [o|] eqn:F; unfold_h; [ | left; eauto 6].
  destruct (otp_user db o) as [u|] eqn:U; unfold_h.
  - destruct (Z.leb_spec 5 (otp_attempts o)); unfold_h; [left; eauto 6 | ].
    right. exists b, o. split; [reflexivity | ]. split; [exact F | ].
    right. exists u. split; [exact U | ]. split; [assumption | ].
    unfold otp_update, session_create. unfold_h.
    rewrite (find_exists_id _ _ _ F). cbn.
    destruct (existsb _ (sessions db)); cbn; [left; reflexivity | ].
    pose proof (otp_user_exists _ _ _ U) as UE. unfold user_exists in *. cbn.
    rewrite UE. cbn.
    right; reflexivity.
  - right. exists b, o. split; [reflexivity | ]. split; [exact F | ].
    left. split; [exact U | ].
    unfold otp_update. unfold_h. rewrite (find_exists_id _ _ _ F). cbn. reflexivity.
Qed.

(** ** Attempt counting (C2, C3) *)

(** A verification request that matches no row answers 400 and writes
    nothing, so no attempt is counted. *)
Lemma unmatched_verification_writes_nothing ext env hdr b db :
  (matched_otp env b SIGNUP db = None ->
   db_after ext env (POST_signup_verify hdr (Some b)) db = db
   /\ status (response_of ext env (POST_signup_verify hdr (Some b)) db) = 400)
  /\ (matched_otp env b SIGNIN db = None ->
      db_after ext env (POST_signin_verify hdr (Some b)) db = db
      /\ status (response_of ext env (POST_signin_verify hdr (Some b)) db) = 400).
Proof.
  unfold db_after, response_of. split; intros N.
  - destruct (signup_verify_runs ext env hdr (Some b) db)
      as [(log & msg & code & E & C) | (b' & o & sd & dob & B & F & _)].
    + revert E C. unfold serve, app, signup_verify, otp_findFirst. cbv zeta.
      destruct (Js.falsy (vb_email b) || Js.falsy (vb_otp b)); unfold_h;
        [cbn; auto | ].
      unfold matched_otp in N. rewrite N. cbn. auto.
    + inversion B; subst. congruence.
  - destruct (signin_verify_runs ext env hdr (Some b) db)
      as [(log & msg & E) | (b' & o & B & F & _)].
    + rewrite E. auto.
    + inversion B; subst. congruence.
Qed.

(** C2, evaluated.  Ann has a live, unverified sign-in OTP "123456" and Cy a
    live, unverified sign-up OTP "654321", both with [attempts = 0].  A
    verification request with the wrong code "000000" is answered 400 in
    both flows and leaves both rows, and their [attempts], as they were. *)
Theorem wrong_code_does_not_count_an_attempt :
  let db := Sample.db_otps 0 in
  let signin_req :=
    POST_signin_verify Sample.no_headers
      (Sample.verify_body "ann@example.com" "000000") in
  let signup_req :=
    POST_signup_verify Sample.no_headers
      (Sample.verify_body "cy@example.com" "000000") in
  otps db = [Sample.signin_otp 0; Sample.signup_otp 0]
  /\ status (response_of Sample.ext (Sample.env 1000 "1") signin_req db) = 400
  /\ otps (db_after Sample.ext (Sample.env 1000 "1") signin_req db)
     = [Sample.signin_otp 0; Sample.signup_otp 0]
  /\ status (response_of Sample.ext (Sample.env 1000 "1") signup_req db) = 400
  /\ otps (db_after Sample.ext (Sample.env 1000 "1") signup_req db)
     = [Sample.signin_otp 0; Sample.signup_otp 0]
  /\ map otp_attempts
       (otps (run Sample.ext
                [(Sample.env 1000 "1", signin_req); (Sample.env 1000 "1", signup_req)]
                db))
     = [0; 0].
Proof. cbv zeta. repeat split; reflexivity. Qed.

Lemma signup_verify_limited ext env hdr b db o :
  matched_otp env b SIGNUP db = Some o -> 5 <= otp_attempts o ->
  exists log msg,
    serve ext env (POST_signup_verify hdr (Some b)) db
    = (db, log, json (JError msg) 400).
Proof.
  unfold matched_otp. intros F A.
  unfold serve, app, signup_verify, otp_findFirst. cbv zeta. unfold_m.
  destruct (Js.falsy (vb_email b) || Js.falsy (vb_otp b)); unfold_m; [eauto | ].
  rewrite F. destruct (Z.leb_spec 5 (otp_attempts o)); [eauto | lia].
Qed.

Lemma signin_verify_limited ext env hdr b db o :
  matched_otp env b SIGNIN db = Some o -> 5 <= otp_attempts o ->
  exists db' log msg,
    serve ext env (POST_signin_verify hdr (Some b)) db
    = (db', log, json (JError msg) 400)
    /\ users db' = users db /\ sessions db' = sessions db /\ notes db' = notes db.
Proof.
  unfold matched_otp. intros F A.
  unfold serve, app, signin_verify, otp_findFirst_include_user, otp_update.
  cbv zeta. unfold_m.
  destruct (Js.falsy (vb_email b) || Js.falsy (vb_otp b)); unfold_m; [eauto 10 | ].
  rewrite F. destruct (otp_user db o) as [user|]; unfold_m.
  - destruct (Z.leb_spec 5 (otp_attempts o)); [eauto 10 | lia].
  - rewrite (find_exists_id _ _ _ F). cbn. eauto 10.
Qed.

(** C3.  A verification request, sign-up or sign-in, whose matched OTP row
    has [attempts >= 5] is answered 400 with an error body (so no token is
    returned), and the [users] and [sessions] tables are left as they
    were: no user and no session is created. *)
Theorem verification_is_attempt_limited ext env hdr b db o :
  5 <= otp_attempts o ->
  (matched_otp env b SIGNUP db = Some o ->
   status (response_of ext env (POST_signup_verify hdr (Some b)) db) = 400
   /\ is_error (response_of ext env (POST_signup_verify hdr (Some b)) db)
   /\ users (db_after ext env (POST_signup_verify hdr (Some b)) db) = users db
   /\ sessions (db_after ext env (POST_signup_verify hdr (Some b)) db) = sessions db)
  /\ (matched_otp env b SIGNIN db = Some o ->
      status (response_of ext env (POST_signin_verify hdr (Some b)) db) = 400
      /\ is_error (response_of ext env (POST_signin_verify hdr (Some b)) db)
      /\ users (db_after ext env (POST_signin_verify hdr (Some b)) db) = users db
      /\ sessions (db_after ext env (POST_signin_verify hdr (Some b)) db) = sessions db).
Proof.
  intros A. unfold response_of, db_after, is_error. split; intros F.
  - destruct (signup_verify_limited ext env hdr b db o F A) as (log & msg & E).
    rewrite E. cbn. auto.
  - destruct (signin_verify_limited ext env hdr b db o F A)
      as (db' & log & msg & E & U & S & _).
    rewrite E. cbn. auto.
Qed.

(** The sign-in OTP of Ann and the sign-up OTP of Cy, each with five
    attempts on record, presented with the right code. *)
Lemma verification_is_attempt_limited_witness :
  (5 <= otp_attempts (Sample.signin_otp 5)
   /\ matched_otp (Sample.env 1000 "1")
        {| vb_email := Some "ann@example.com"; vb_otp := Some "123456";
           vb_keepLoggedIn := None |} SIGNIN (Sample.db_otps 5)
      = Some (Sample.signin_otp 5)
   /\ status (response_of Sample.ext (Sample.env 1000 "1")
                (POST_signin_verify Sample.no_headers
                   (Sample.verify_body "ann@example.com" "123456"))
                (Sample.db_otps 5)) = 400)
  /\ (5 <= otp_attempts (Sample.signup_otp 5)
      /\ matched_otp (Sample.env 1000 "1")
           {| vb_email := Some "cy@example.com"; vb_otp := Some "654321";
              vb_keepLoggedIn := None |} SIGNUP (Sample.db_otps 5)
         = Some (Sample.signup_otp 5)
      /\ status (response_of Sample.ext (Sample.env 1000 "1")
                   (POST_signup_verify Sample.no_headers
                      (Sample.verify_body "cy@example.com" "654321"))
                   (Sample.db_otps 5)) = 400).
Proof.
  split.
  - assert (A : 5 <= otp_attempts (Sample.signin_otp 5)) by (cbn; lia).
    split; [exact A | ]. split; [reflexivity | ].
    apply (proj2 (verification_is_attempt_limited Sample.ext (Sample.env 1000 "1")
             Sample.no_headers
             {| vb_email := Some "ann@example.com"; vb_otp := Some "123456";
                vb_keepLoggedIn := None |}
             (Sample.db_otps 5) (Sample.signin_otp 5) A)).
    reflexivity.
  - assert (A : 5 <= otp_attempts (Sample.signup_otp 5)) by (cbn; lia).
    split; [exact A | ]. split; [reflexivity | ].
    apply (proj1 (verification_is_attempt_limited Sample.ext (Sample.env 1000 "1")
             Sample.no_headers
             {| vb_email := Some "cy@example.com"; vb_otp := Some "654321";
                vb_keepLoggedIn := None |}
             (Sample.db_otps 5) (Sample.signup_otp 5) A)).
    reflexivity.
Defined.

(** ** The sign-up transaction (C4) *)

(** The Prisma calls of [POST /api/signup/verify], outcome by outcome. *)
Lemma signup_verify_calls ext env hdr body db :
  (exists log msg,
      serve ext env (POST_signup_verify hdr body) db = (db, log, json (JError msg) 400)
      /\ (log = [] \/ log = [Call OtpFindFirst]))
  \/ (exists ops,
        serve ext env (POST_signup_verify hdr body) db
        = (db, [Call OtpFindFirst; Transaction ops],
           json (JError "Verification failed") 500)
        /\ (ops = [UserCreate] \/ ops = [UserCreate; OtpUpdate]))
  \/ exists b o sd dob,
      body = Some b
      /\ matched_otp env b SIGNUP db = Some o
      /\ otp_signupData o = Some sd
      /\ parse_date ext (sd_dateOfBirth sd) = Some dob
      /\ let u := new_user env sd dob in
         let db1 := otp_updated (set_users db (users db ++ [u])) (otp_id o)
                      (verified_by (user_id u)) in
         let s := new_session ext env hdr (user_id u) (now env + days 30) in
         let log := [Call OtpFindFirst; Transaction [UserCreate; OtpUpdate];
                     Call SessionCreate] in
         serve ext env (POST_signup_verify hdr body) db
         = (db1, log, json (JError "Verification failed") 500)
         \/ serve ext env (POST_signup_verify hdr body) db
            = (set_sessions db1 (sessions db ++ [s]), log,
               json_ok (JAuth "Account created successfully" (view u) (session_token s))).
Proof.
  unfold serve, app, signup_verify, otp_findFirst. cbv zeta.
  destruct body as [b|]; [ | left; cbn; eauto 6].
  destruct (Js.falsy (vb_email b) || Js.falsy (vb_otp b)); [left; cbn; eauto 6 | ].
  unfold_h.
  destruct (find _ (otps db)) as [o|] eqn:F; unfold_h; [ | left; eauto 6].
  destruct (Z.leb_spec 5 (otp_attempts o)); unfold_h; [left; eauto 6 | ].
  destruct (otp_signupData o) as [sd|] eqn:SD; unfold_h; [ | left; eauto 6].
  destruct (signup_tx_runs ext env sd (otp_id o)
              {| st_db := db; st_log := [Call OtpFindFirst] |})
    as [(e & ops & T & O) | (dob & PD & T)]; rewrite T; cbn [st_db st_log List.app].
  - right; left. exists ops. split; [reflexivity | exact O].
  - right; right. exists b, o, sd, dob. repeat (split; [assumption || reflexivity | ]).
    unfold session_create. unfold_h. cbn.
    destruct (existsb _ (sessions db)); cbn; [left; reflexivity | ].
    rewrite existsb_app. cbn. rewrite String.eqb_refl, orb_true_r. cbn.
    right; reflexivity.
Qed.

(** The row [otp.update] has marked, in the table it leaves. *)
Lemma otp_updated_row db o uid :
  In o (otps db) ->
  In (otp_apply (verified_by uid) o) (otps (otp_updated db (otp_id o) (verified_by uid)))
  /\ otp_verified (otp_apply (verified_by uid) o) = true
  /\ otp_userId (otp_apply (verified_by uid) o) = Some uid.
Proof.
  intros Hin. split; [ | split; reflexivity].
  cbn [otps otp_updated set_otps]. apply in_map_iff. exists o.
  rewrite String.eqb_refl. auto.
Qed.

(** C4.  The user row and the update that marks the sign-up OTP verified
    are written by one [$transaction].  The callback makes both calls on
    the transaction client; when it throws, at the first write or at the
    second, the tables are what they were before; when it returns, the new
    user row is there and every OTP row of the id carries [verified = true]
    and the user's id.  [POST /api/signup/verify] makes the two writes
    nowhere else: its log never has [user.create] or [otp.update] as a call
    of its own, and holds at most one transaction.  Either no transaction
    was started and the tables are unchanged; or the transaction was rolled
    back, the tables are unchanged and the answer is 500; or the
    transaction holds both writes, the user row has been appended and the
    matched OTP row carries [verified = true] and the new user's id.  So
    the handler never leaves one of the two writes without the other. *)
Theorem signup_verification_is_transactional ext env sd otpId st hdr body db :
  (exists ops,
      st_log (fst (transaction (signup_tx ext env sd otpId) st))
      = st_log st ++ [Transaction ops]
      /\ (ops = [UserCreate] \/ ops = [UserCreate; OtpUpdate]))
  /\ match snd (transaction (signup_tx ext env sd otpId) st) with
     | Throw _ =>
         st_db (fst (transaction (signup_tx ext env sd otpId) st)) = st_db st
     | Ok u =>
         user_verified u = true
         /\ st_db (fst (transaction (signup_tx ext env sd otpId) st))
            = otp_updated (set_users (st_db st) (users (st_db st) ++ [u]))
                otpId (verified_by (user_id u))
         /\ existsb (fun o => String.eqb (otp_id o) otpId) (otps (st_db st)) = true
         /\ In u (users (st_db (fst (transaction (signup_tx ext env sd otpId) st))))
         /\ (forall o,
               In o (otps (st_db (fst (transaction (signup_tx ext env sd otpId) st)))) ->
               otp_id o = otpId ->
               otp_verified o = true /\ otp_userId o = Some (user_id u))
     end
  /\ let db' := db_after ext env (POST_signup_verify hdr body) db in
     let log := calls_of ext env (POST_signup_verify hdr body) db in
     ~ In (Call UserCreate) log
     /\ ~ In (Call OtpUpdate) log
     /\ ((transactions log = [] /\ db' = db)
         \/ (exists ops,
               transactions log = [Transaction ops]
               /\ (ops = [UserCreate] \/ ops = [UserCreate; OtpUpdate])
               /\ db' = db
               /\ response_of ext env (POST_signup_verify hdr body) db
                  = json (JError "Verification failed") 500)
         \/ (transactions log = [Transaction [UserCreate; OtpUpdate]]
             /\ exists b o u,
                 body = Some b
                 /\ matched_otp env b SIGNUP db = Some o
                 /\ user_verified u = true
                 /\ users db' = users db ++ [u]
                 /\ otps db' = otps (otp_updated db (otp_id o) (verified_by (user_id u)))
                 /\ exists o',
                     In o' (otps db')
                     /\ otp_id o' = otp_id o
                     /\ otp_verified o' = true
                     /\ otp_userId o' = Some (user_id u))).
Proof.
  split; [ | split].
  - destruct (signup_tx_runs ext env sd otpId st)
      as [(e & ops & T & O) | (dob & PD & T)]; rewrite T; cbn; eauto.
  - unfold signup_tx, user_create, otp_update. unfold_m.
    destruct (parse_date ext (sd_dateOfBirth sd)) as [dob|]; cbn; [ | reflexivity].
    destruct (existsb _ (users (st_db st))); cbn; [reflexivity | ].
    destruct (existsb _ (otps (st_db st))) eqn:E; cbn; [ | reflexivity].
    rewrite existsb_app. cbn. rewrite String.eqb_refl, orb_true_r. cbn.
    split; [reflexivity | ]. split; [reflexivity | ]. split; [reflexivity | ].
    split; [apply in_or_app; right; now left | ].
    intros o Hin Eid. apply in_map_iff in Hin. destruct Hin as (o0 & <- & Hin0).
    destruct (String.eqb_spec (otp_id o0) otpId) as [E0 | E0].
    + split; reflexivity.
    + contradiction.
  - cbv zeta. unfold db_after, calls_of, response_of.
    destruct (signup_verify_calls ext env hdr body db)
      as [(log & msg & E & L)
         | [(ops & E & O)
           | (b & o & sd' & dob & B & F & _ & _ & [E | E])]];
      rewrite E; cbn [fst snd].
    + destruct L as [-> | ->];
        (split; [cbn; intuition discriminate | ]);
        (split; [cbn; intuition discriminate | ]);
        left; split; reflexivity.
    + split; [cbn; intuition discriminate | ].
      split; [cbn; intuition discriminate | ].
      right; left. exists ops. repeat split; auto.
    + split; [cbn; intuition discriminate | ].
      split; [cbn; intuition discriminate | ].
      right; right. split; [reflexivity | ].
      exists b, o, (new_user env sd' dob).
      destruct (otp_updated_row (set_users db (users db ++ [new_user env sd' dob])) o
                  (fresh_user_id env)) as (R1 & R2 & R3).
      { cbn. apply (find_some _ _ F). }
      repeat (split; [assumption || reflexivity | ]).
      eexists. split; [exact R1 | ]. split; [reflexivity | ]. split; [exact R2 | exact R3].
    + split; [cbn; intuition discriminate | ].
      split; [cbn; intuition discriminate | ].
      right; right. split; [reflexivity | ].
      exists b, o, (new_user env sd' dob).
      destruct (otp_updated_row (set_users db (users db ++ [new_user env sd' dob])) o
                  (fresh_user_id env)) as (R1 & R2 & R3).
      { cbn. apply (find_some _ _ F). }
      repeat (split; [assumption || reflexivity | ]).
      eexists. split; [exact R1 | ]. split; [reflexivity | ]. split; [exact R2 | exact R3].
Qed.

(** The first write fails (Ann's e-mail is taken): nothing is written. *)
Example signup_tx_rolls_back_on_user_create :
  transaction
    (signup_tx Sample.ext (Sample.env 1000 "1")
       {| sd_name := "Ann"; sd_email := "ann@example.com";
          sd_dateOfBirth := "2000-01-01" |} "otp-up")
    {| st_db := Sample.db_otps 0; st_log := [] |}
  = ({| st_db := Sample.db_otps 0; st_log := [Transaction [UserCreate]] |},
     Throw P2002).
Proof. reflexivity. Qed.

(** The second write fails (no OTP row of that id): the user row written
    by the first is gone too. *)
Example signup_tx_rolls_back_on_otp_update :
  transaction
    (signup_tx Sample.ext (Sample.env 1000 "1")
       {| sd_name := "Cy"; sd_email := "cy@example.com";
          sd_dateOfBirth := "2000-01-01" |} "no-such-otp")
    {| st_db := Sample.db_otps 0; st_log := [] |}
  = ({| st_db := Sample.db_otps 0;
        st_log := [Transaction [UserCreate; OtpUpdate]] |},
     Throw P2025).
Proof. reflexivity. Qed.

(** ** Sessions issued on sign-in (C7) *)

(** C7.  A [POST /api/signin/verify] answered 200 has matched an OTP row
    whose user exists; it has added exactly one row to [sessions], for that
    user, active, carrying the token it returns, and expiring 30 days from
    now when [keepLoggedIn] is true and 24 hours from now otherwise. *)
Theorem signin_issues_one_session ext env hdr body db :
  status (response_of ext env (POST_signin_verify hdr body) db) = 200 ->
  exists b o u s,
    body = Some b
    /\ matched_otp env b SIGNIN db = Some o
    /\ otp_user db o = Some u
    /\ sessions (db_after ext env (POST_signin_verify hdr body) db)
       = sessions db ++ [s]
    /\ session_userId s = user_id u
    /\ session_isActive s = true
    /\ session_token s = generateToken ext env (user_id u)
    /\ session_expiresAt s
       = (if keep_logged_in b then now env + days 30 else now env + hours 24)
    /\ response_of ext env (POST_signin_verify hdr body) db
       = json_ok (JAuth "Signed in successfully" (view u) (session_token s)).
Proof.
  unfold response_of, db_after. intros S.
  destruct (signin_verify_runs ext env hdr body db)
    as [(log & msg & E)
       | (b & o & B & F & [(U & E) | (u & U & A & [E | E])])];
    rewrite E in *; cbn in S; try discriminate.
  exists b, o, u, (new_session ext env hdr (user_id u)
                     (if keep_logged_in b then now env + days 30
                      else now env + hours 24)).
  cbn. repeat split; auto.
Qed.

(** Ann presents the right code, once asking to stay logged in. *)
Lemma signin_issues_one_session_witness :
  status (response_of Sample.ext (Sample.env 1000 "1")
            (POST_signin_verify Sample.no_headers
               (Some {| vb_email := Some "Ann@Example.com ";
                        vb_otp := Some "123456";
                        vb_keepLoggedIn := Some true |}))
            (Sample.db_otps 0)) = 200
  /\ exists s,
      sessions (db_after Sample.ext (Sample.env 1000 "1")
                  (POST_signin_verify Sample.no_headers
                     (Some {| vb_email := Some "Ann@Example.com ";
                              vb_otp := Some "123456";
                              vb_keepLoggedIn := Some true |}))
                  (Sample.db_otps 0))
      = sessions (Sample.db_otps 0) ++ [s]
      /\ session_userId s = "ann"
      /\ session_expiresAt s = 1000 + days 30.
Proof.
  assert (S : status (response_of Sample.ext (Sample.env 1000 "1")
            (POST_signin_verify Sample.no_headers
               (Some {| vb_email := Some "Ann@Example.com ";
                        vb_otp := Some "123456";
                        vb_keepLoggedIn := Some true |}))
            (Sample.db_otps 0)) = 200) by reflexivity.
  split; [exact S | ].
  destruct (signin_issues_one_session _ _ _ _ _ S)
    as (b & o & u & s & B & F & U & E & Eu & _ & _ & Ee & _).
  exists s. split; [exact E | ].
  inversion B; subst b. cbn in F. inversion F; subst o.
  cbn in U. inversion U; subst u.
  split; [exact Eu | exact Ee].
Defined.

(** ** Properties kept by every request

    A property of the tables that every Prisma write of a handler keeps is
    kept by the handler, whether it returns or fails half-way. *)

Section Preserves.
Variable I : Db -> Prop.

Lemma preserves_ret A (a : A) : preserves I (ret a).
Proof. intros st st' r E H. inversion E; subst; exact H. Qed.

Lemma preserves_throw A e : preserves I (@throw A e).
Proof. intros st st' r E H. inversion E; subst; exact H. Qed.

Lemma preserves_bind A B (m : M A) (f : A -> M B) :
  preserves I m -> (forall a, preserves I (f a)) -> preserves I (bind m f).
Proof.
  intros Hm Hf st st' r E H. unfold bind in E.
  destruct (m st) as [st1 [a|e]] eqn:Em.
  - eapply Hf; eauto.
  - inversion E; subst. eapply Hm; eauto.
Qed.

Lemma preserves_try_catch A (m : M A) h :
  preserves I m -> (forall e, preserves I (h e)) -> preserves I (try_catch m h).
Proof.
  intros Hm Hh st st' r E H. unfold try_catch in E.
  destruct (m st) as [st1 [a|e]] eqn:Em.
  - inversion E; subst. eapply Hm; eauto.
  - eapply Hh; eauto.
Qed.

Lemma preserves_transaction A (m : M A) :
  preserves I m -> preserves I (transaction m).
Proof.
  intros Hm st st' r E H. unfold transaction in E.
  destruct (m _) as [st1 [a|e]] eqn:Em; inversion E; subst; cbn.
  - eapply Hm in Em; eauto.
  - exact H.
Qed.

Lemma preserves_orm A op (f : Db -> Res (Db * A)) :
  (forall db db' a, f db = Ok (db', a) -> I db -> I db') -> preserves I (orm op f).
Proof.
  intros Hf st st' r E H. unfold orm in E.
  destruct (f (st_db st)) as [[db' a]|e] eqn:Ef; inversion E; subst; cbn; eauto.
Qed.

Lemma preserves_read A op (g : Db -> A) :
  preserves I (orm op (fun db => Ok (db, g db))).
Proof. apply preserves_orm. intros db db' a E H. inversion E; subst; exact H. Qed.

End Preserves.

Ltac pres_step :=
  first
    [ apply preserves_ret
    | apply preserves_throw
    | apply preserves_read
    | apply preserves_transaction
    | apply preserves_bind; [ | intros ? ]
    | apply preserves_try_catch; [ | intros ? ]
    | match goal with
      | |- preserves _ (match ?x with _ => _ end) => destruct x
      end ].

Section App.
Variable ext : Ext.
Variable I : Db -> Prop.
Variable req : Request.

Hypothesis H_user_create : forall id name email dob v, preserves I (user_create id name email dob v).
Hypothesis H_otp_deleteMany : forall w, preserves I (otp_deleteMany w).
Hypothesis H_issue : forall email type id code exp uid sd B (k : M B),
  issued_key req = Some (email, type) ->
  preserves I k ->
  preserves I (bind (otp_deleteMany (otp_is email type))
                 (fun _ => bind (otp_create id code email type exp uid sd) (fun _ => k))).
Hypothesis H_otp_update : forall id d, upd_verified d <> Some false -> preserves I (otp_update id d).
Hypothesis H_session_create : forall id uid tok exp ua ip, preserves I (session_create id uid tok exp ua ip).
Hypothesis H_session_updateMany : forall tok, preserves I (session_updateMany_deactivate tok).
Hypothesis H_note_create : forall id t c u n, preserves I (note_create id t c u n).
Hypothesis H_note_update : forall id t c n, preserves I (note_update id t c n).
Hypothesis H_note_delete : forall id, preserves I (note_delete id).

Lemma authMiddleware_preserves env hdr next :
  (forall u, preserves I (next u)) -> preserves I (authMiddleware ext env hdr next).
Proof.
  intros Hn. unfold authMiddleware, session_findFirst. cbv zeta.
  repeat pres_step; auto.
Qed.

Lemma app_preserves env : preserves I (app ext env req).
Proof.
  destruct req; cbn [app issued_key] in *;
    try (apply authMiddleware_preserves; intros ?);
    unfold signup, signup_verify, signin, signin_resend, issue_signin_otp, signin_verify, logout,
      get_notes, create_note, update_note, delete_note, health, signup_tx,
      cleanupExpiredOtps, sendOTPEmail, req_json,
      user_findUnique, otp_findFirst, otp_findFirst_include_user, note_findMany, note_findFirst;
    cbv zeta;
    repeat first [ apply H_issue; [reflexivity | ] | pres_step ]; auto;
    apply H_otp_update; cbn; discriminate.
Qed.

Lemma db_after_preserves env db : I db -> I (db_after ext env req db).
Proof.
  intros H. unfold db_after, serve.
  destruct (app ext env req _) as [st r] eqn:E.
  pose proof (app_preserves env _ _ _ E H) as P.
  destruct r; exact P.
Qed.

End App.

Ltac orm_cases E :=
  repeat match type of E with
         | context [match ?x with _ => _ end] => destruct x eqn:?
         | context [if ?x then _ else _] => destruct x eqn:?
         end;
  inversion E; subst; clear E.

(** A write to another table. *)
Ltac other_table :=
  intros; apply preserves_orm;
  let E := fresh "E" in
  intros ? ? ? E ?; orm_cases E; assumption.

Section LoggedOut.
Variable ext : Ext.
Variable token : string.

Lemma session_create_logged_out id uid tok exp ua ip :
  preserves (logged_out token) (session_create id uid tok exp ua ip).
Proof.
  apply preserves_orm. intros db db' a E [Hin Hall]. orm_cases E.
  unfold logged_out. cbn. split.
  - rewrite map_app. apply in_or_app. now left.
  - intros s Hs Ht. apply in_app_or in Hs. destruct Hs as [Hs | [<- | []]]; [now apply Hall | ].
    cbn in Ht. subst tok. exfalso.
    apply in_map_iff in Hin. destruct Hin as (s0 & T0 & Hs0).
    match goal with H : existsb _ _ = false |- _ => rename H into Ex end.
    assert (X : existsb (fun s => String.eqb (session_id s) id || String.eqb (session_token s) token)
                 (sessions db) = true).
    { apply existsb_exists. exists s0. split; [assumption | ].
      rewrite T0, String.eqb_refl. apply orb_true_r. }
    congruence.
Qed.

Lemma session_updateMany_logged_out tok :
  preserves (logged_out token) (session_updateMany_deactivate tok).
Proof.
  apply preserves_orm. intros db db' a E [Hin Hall]. orm_cases E.
  unfold logged_out. cbn. split.
  - rewrite map_map. erewrite map_ext; [exact Hin | ].
    intros s. cbn. destruct (String.eqb (session_token s) tok); reflexivity.
  - intros s Hs Ht. apply in_map_iff in Hs. destruct Hs as (s0 & <- & Hs0).
    destruct (String.eqb (session_token s0) tok); [reflexivity | now apply Hall].
Qed.

Lemma logged_out_invariant env req db :
  logged_out token db -> logged_out token (db_after ext env req db).
Proof.
  apply db_after_preserves.
  - other_table.
  - other_table.
  - intros. apply preserves_bind; [other_table | intros _].
    apply preserves_bind; [other_table | intros _; assumption].
  - other_table.
  - apply session_create_logged_out.
  - apply session_updateMany_logged_out.
  - other_table.
  - other_table.
  - other_table.
Qed.

End LoggedOut.

Lemma substring_all s : String.substring 0 (String.length s) s = s.
Proof. induction s as [|c r IH]; cbn; [reflexivity | now rewrite IH]. Qed.

Lemma substring_bearer t : Js.substring ("Bearer " ++ t) 7 = t.
Proof. unfold Js.substring. cbn. rewrite Nat.sub_0_r. apply substring_all. Qed.

Lemma no_active_session_is_401 ext env req hdr token db :
  notes_request req = Some hdr -> bears hdr token ->
  (forall s, In s (sessions db) -> session_token s = token -> session_isActive s = false) ->
  exists log msg, serve ext env req db = (db, log, json (JError msg) 401).
Proof.
  intros R B Hall.
  assert (A : forall next, exists log msg,
             match authMiddleware ext env hdr next {| st_db := db; st_log := [] |} with
             | (st, Ok r) => (st_db st, st_log st, r)
             | (st, Throw _) => (st_db st, st_log st, json (JError "Internal Server Error") 500)
             end = (db, log, json (JError msg) 401)).
  { intros next. unfold authMiddleware, session_findFirst. cbv zeta.
    unfold bears in B. rewrite B. cbn [Js.str].
    destruct (Js.falsy _ || _); [cbn; eauto | ].
    rewrite substring_bearer.
    destruct (verifyToken ext env token) as [u|]; [ | cbn; eauto].
    unfold_h.
    destruct (find _ (sessions db)) as [s|] eqn:F; [ | cbn; eauto].
    exfalso. apply find_some in F. destruct F as [Hin C].
    apply andb_prop in C. destruct C as [C _].
    apply andb_prop in C. destruct C as [C1 C2].
    apply String.eqb_eq in C1. rewrite (Hall s Hin C1) in C2. discriminate. }
  unfold serve.
  destruct req; cbn in R; try discriminate; inversion R; subst; cbn [app]; apply A.
Qed.

Lemma run_logged_out ext token history db :
  logged_out token db -> logged_out token (run ext history db).
Proof.
  revert db. induction history as [|[env req] rest IH]; intros db H; cbn; [exact H | ].
  apply IH. now apply logged_out_invariant.
Qed.

Lemma logout_runs ext env token db :
  token <> "" ->
  serve ext env (POST_logout (Some {| lb_token := Some token |})) db
  = (set_sessions db (map (fun s => if String.eqb (session_token s) token
                                   then session_deactivate s else s) (sessions db)),
     [Call SessionUpdateMany], json_ok (JMessage "Logged out successfully")).
Proof.
  intros T. unfold serve, app, logout. cbn [lb_token Js.falsy Js.str].
  destruct (String.eqb_spec token ""); [contradiction | ].
  reflexivity.
Qed.

(** ** Logging out (C5) *)

(** C5.  [POST /api/logout] with a token answers 200 and sets [isActive]
    to false on every session row of that token; the rows of other tokens
    are what they were, and no row is added or removed.  A notes request
    bearing the token is then refused with 401 by the middleware, and, the
    token having a session row, so is every later one, whatever requests are
    served in between: the row stays, so the unique index on [token] keeps a
    new session from being created under it. *)
Theorem logout_ends_the_session ext env token db :
  token <> "" ->
  let db1 := db_after ext env (POST_logout (Some {| lb_token := Some token |})) db in
  status (response_of ext env (POST_logout (Some {| lb_token := Some token |})) db) = 200
  /\ (forall s, In s (sessions db1) -> session_token s = token -> session_isActive s = false)
  /\ (forall s, session_token s <> token -> (In s (sessions db1) <-> In s (sessions db)))
  /\ map session_token (sessions db1) = map session_token (sessions db)
  /\ (forall env' req hdr,
         notes_request req = Some hdr -> bears hdr token ->
         status (response_of ext env' req db1) = 401)
  /\ (In token (map session_token (sessions db)) ->
      forall history env' req hdr,
        notes_request req = Some hdr -> bears hdr token ->
        status (response_of ext env' req (run ext history db1)) = 401
        /\ is_error (response_of ext env' req (run ext history db1))
        /\ db_after ext env' req (run ext history db1) = run ext history db1).
Proof.
  intros T. cbv zeta.
  assert (E1 : db_after ext env (POST_logout (Some {| lb_token := Some token |})) db
               = set_sessions db
                   (map (fun s => if String.eqb (session_token s) token
                                  then session_deactivate s else s) (sessions db)))
    by (unfold db_after; now rewrite (logout_runs ext env token db T)).
  rewrite E1. clear E1. unfold response_of at 1.
  rewrite (logout_runs ext env token db T). cbn [fst snd status json_ok json].
  set (db1 := set_sessions db _).
  assert (Hall : forall s, In s (sessions db1) -> session_token s = token ->
                           session_isActive s = false).
  { intros s Hs Ht. apply in_map_iff in Hs. destruct Hs as (s0 & <- & Hs0).
    destruct (String.eqb_spec (session_token s0) token); [reflexivity | contradiction]. }
  assert (Htok : map session_token (sessions db1) = map session_token (sessions db)).
  { cbn. rewrite map_map. apply map_ext. intros s.
    destruct (String.eqb (session_token s) token); reflexivity. }
  split; [reflexivity | ]. split; [exact Hall | ].
  split.
  { intros s Hs. cbn. rewrite in_map_iff. split.
    - intros (s0 & E & Hs0).
      destruct (String.eqb_spec (session_token s0) token) as [E0 | E0]; subst s.
      + cbn in Hs. contradiction.
      + assumption.
    - intros Hin. exists s.
      destruct (String.eqb_spec (session_token s) token); [contradiction | auto]. }
  split; [exact Htok | ].
  split.
  { intros env' req hdr R B.
    destruct (no_active_session_is_401 ext env' req hdr token db1 R B Hall)
      as (log & msg & E).
    unfold response_of. rewrite E. reflexivity. }
  intros Hin history env' req hdr R B.
  assert (L : logged_out token (run ext history db1)).
  { apply run_logged_out. split; [ | exact Hall]. rewrite Htok. exact Hin. }
  destruct (no_active_session_is_401 ext env' req hdr token _ R B (proj2 L))
    as (log & msg & E).
  unfold response_of, db_after, is_error. rewrite E. cbn. auto.
Qed.


(** Ann logs out; she then asks for a new sign-in code, and after that her
    old token is presented again. *)
Lemma logout_ends_the_session_witness :
  Sample.ann_token <> ""
  /\ In Sample.ann_token (map session_token (sessions Sample.db))
  /\ status (response_of Sample.ext (Sample.env 1000 "1")
               (GET_notes (Sample.bearer Sample.ann_token)) Sample.db) = 200
  /\ status (response_of Sample.ext (Sample.env 3000 "3")
               (GET_notes (Sample.bearer Sample.ann_token))
               (run Sample.ext
                  [(Sample.env 2500 "2",
                    POST_signin (Sample.email_body "ann@example.com"))]
                  (db_after Sample.ext (Sample.env 2000 "1")
                     (POST_logout (Some {| lb_token := Some Sample.ann_token |}))
                     Sample.db))) = 401.
Proof.
  assert (T : Sample.ann_token <> "") by discriminate.
  assert (R : In Sample.ann_token (map session_token (sessions Sample.db)))
    by (cbn; now left).
  split; [exact T | ]. split; [exact R | ]. split; [reflexivity | ].
  destruct (logout_ends_the_session Sample.ext (Sample.env 2000 "1")
              Sample.ann_token Sample.db T) as (_ & _ & _ & _ & _ & H).
  apply (H R
           [(Sample.env 2500 "2", POST_signin (Sample.email_body "ann@example.com"))]
           (Sample.env 3000 "3") (GET_notes (Sample.bearer Sample.ann_token))
           (Sample.bearer Sample.ann_token)); reflexivity.
Defined.

(** ** One OTP per e-mail and type (C9) *)

Lemma OtpType_eqb_eq a b : OtpType_eqb a b = true <-> a = b.
Proof. destruct a, b; cbn; split; intros; congruence. Qed.

Lemma otp_is_key email type o :
  otp_is email type o = true <-> otp_key o = (email, type).
Proof.
  unfold otp_is, otp_key. rewrite andb_true_iff, String.eqb_eq, OtpType_eqb_eq.
  split; [intros [-> ->]; reflexivity | intros E; inversion E; auto].
Qed.

Lemma NoDup_map_filter A B (f : A -> B) (p : A -> bool) l :
  NoDup (map f l) -> NoDup (map f (filter p l)).
Proof.
  induction l as [|x r IH]; cbn; intros ND; [constructor | ].
  inversion ND as [|? ? Hx ND']; subst.
  destruct (p x); cbn; auto.
  constructor; auto.
  intros Hin. apply Hx. apply in_map_iff in Hin. destruct Hin as (y & E & Hy).
  apply filter_In in Hy. apply in_map_iff. exists y. tauto.
Qed.

Lemma NoDup_snoc A (l : list A) x : NoDup l -> ~ In x l -> NoDup (l ++ [x]).
Proof.
  intros ND Hx. induction l as [|y r IH]; cbn.
  - constructor; [intros [] | constructor].
  - inversion ND as [|? ? Hy ND']; subst. constructor.
    + intros Hin. apply in_app_or in Hin. destruct Hin as [Hin | [<- | []]]; auto.
      apply Hx. now left.
    + apply IH; auto. intros Hin. apply Hx. now right.
Qed.

Section OtpUnique.
Variable ext : Ext.

Lemma otp_deleteMany_unique w : preserves otp_unique (otp_deleteMany w).
Proof.
  apply preserves_orm. intros db db' a E H. orm_cases E.
  unfold otp_unique. cbn. now apply NoDup_map_filter.
Qed.

Lemma otp_apply_key d o : otp_key (otp_apply d o) = otp_key o.
Proof. reflexivity. Qed.

Lemma otp_update_unique id d : preserves otp_unique (otp_update id d).
Proof.
  apply preserves_orm. intros db db' a E H. orm_cases E.
  unfold otp_unique in *. cbn. rewrite map_map.
  erewrite map_ext; [exact H | ].
  intros o. cbn. destruct (String.eqb (otp_id o) id); reflexivity.
Qed.

Lemma issue_unique email type id code exp uid sd B (k : M B) :
  preserves otp_unique k ->
  preserves otp_unique
    (bind (otp_deleteMany (otp_is email type))
       (fun _ => bind (otp_create id code email type exp uid sd) (fun _ => k))).
Proof.
  intros Hk st st' r E H.
  unfold bind, otp_deleteMany, otp_create, orm in E. cbn in E.
  assert (F : NoDup (map otp_key (filter (fun o => negb (otp_is email type o))
                                         (otps (st_db st)))))
    by now apply NoDup_map_filter.
  destruct (existsb _ _); [inversion E; subst; exact F | ].
  destruct (negb (fk_user _ _)); [inversion E; subst; exact F | ].
  apply (Hk _ _ _ E).
  unfold otp_unique. cbn. rewrite map_app. cbn.
  apply NoDup_snoc; [exact F | ].
  intros Hin. apply in_map_iff in Hin. destruct Hin as (o & K & Ho).
  apply filter_In in Ho. destruct Ho as [_ N].
  assert (X : otp_is email type o = true) by (apply otp_is_key; exact K).
  rewrite X in N. discriminate.
Qed.

Lemma otp_unique_invariant env req db :
  otp_unique db -> otp_unique (db_after ext env req db).
Proof.
  apply db_after_preserves.
  - other_table.
  - apply otp_deleteMany_unique.
  - intros. now apply issue_unique.
  - intros. apply otp_update_unique.
  - other_table.
  - other_table.
  - other_table.
  - other_table.
  - other_table.
Qed.

End OtpUnique.

Section Spent.
Variable ext : Ext.
Variable email : string.
Variable type : OtpType.

Lemma otp_deleteMany_spent w : preserves (spent email type) (otp_deleteMany w).
Proof.
  apply preserves_orm. intros db db' a E H. orm_cases E.
  intros o Ho. cbn in Ho. apply filter_In in Ho. now apply H.
Qed.

Lemma otp_update_spent id d :
  upd_verified d <> Some false -> preserves (spent email type) (otp_update id d).
Proof.
  intros V. apply preserves_orm. intros db db' a E H. orm_cases E.
  intros o Ho. cbn in Ho. apply in_map_iff in Ho. destruct Ho as (o0 & <- & Ho0).
  destruct (String.eqb (otp_id o0) id); [ | now apply H].
  cbn. intros Ee Et.
  destruct (upd_verified d) as [[|]|]; [reflexivity | congruence | now apply H].
Qed.

Lemma otp_create_spent id code e ty exp uid sd :
  (e, ty) <> (email, type) ->
  preserves (spent email type) (otp_create id code e ty exp uid sd).
Proof.
  intros K. apply preserves_orm. intros db db' a E H. orm_cases E.
  intros o Ho. cbn in Ho. apply in_app_or in Ho.
  destruct Ho as [Ho | [<- | []]]; [now apply H | ].
  cbn. intros -> ->. contradiction.
Qed.

Lemma spent_invariant env req db :
  issued_key req <> Some (email, type) ->
  spent email type db -> spent email type (db_after ext env req db).
Proof.
  intros K. apply db_after_preserves.
  - other_table.
  - apply otp_deleteMany_spent.
  - intros e ty id code exp uid sd B k Hreq Hk.
    apply preserves_bind; [apply otp_deleteMany_spent | intros _].
    apply preserves_bind; [ | intros _; exact Hk].
    apply otp_create_spent. congruence.
  - apply otp_update_spent.
  - other_table.
  - other_table.
  - other_table.
  - other_table.
  - other_table.
Qed.

End Spent.

Lemma issue_signin_otp_runs env email sent failed db :
  match issue_signin_otp env email sent failed {| st_db := db; st_log := [] |} with
  | (st, Ok r) =>
      status r = 200 ->
      exists o,
        otps (st_db st)
        = filter (fun x => negb (otp_is (normalize email) SIGNIN x))
            (filter (fun x => negb (otp_expiresAt x <? now env)) (otps db)) ++ [o]
        /\ otp_key o = (normalize email, SIGNIN)
        /\ otp_code o = generateOTP env
        /\ otp_expiresAt o = now env + minutes 10
        /\ otp_verified o = false /\ otp_attempts o = 0
  | (st, Throw _) => False
  end.
Proof.
  unfold issue_signin_otp, cleanupExpiredOtps, user_findUnique, otp_deleteMany,
    otp_create, sendOTPEmail. cbv zeta. unfold_h. cbn [users otps set_otps].
  destruct (find _ (users db)) as [u|]; unfold_h; [ | cbn; discriminate].
  destruct (negb (user_verified u)); unfold_h; [cbn; discriminate | ].
  destruct (negb (user_isActive u)); unfold_h; [cbn; discriminate | ].
  cbn [users otps set_otps].
  destruct (existsb _ _); unfold_h; [cbn; discriminate | ].
  destruct (negb _); unfold_h; [cbn; discriminate | ].
  destruct (email_ok env); unfold_h; [ | cbn; discriminate].
  intros _. eexists. cbn. repeat split.
Qed.

Lemma signup_runs env b db :
  match signup env (Some b) {| st_db := db; st_log := [] |} with
  | (st, Ok r) =>
      status r = 200 ->
      exists o,
        otps (st_db st)
        = filter (fun x => negb (otp_is (normalize (Js.str (sb_email b))) SIGNUP x))
            (filter (fun x => negb (otp_expiresAt x <? now env)) (otps db)) ++ [o]
        /\ otp_key o = (normalize (Js.str (sb_email b)), SIGNUP)
        /\ otp_code o = generateOTP env
        /\ otp_expiresAt o = now env + minutes 10
        /\ otp_verified o = false /\ otp_attempts o = 0
  | (st, Throw _) => False
  end.
Proof.
  unfold signup, cleanupExpiredOtps, user_findUnique, otp_deleteMany,
    otp_create, sendOTPEmail. cbv zeta.
  destruct (Js.falsy _ || _ || _); [cbn; discriminate | ].
  unfold_h. cbn [users otps set_otps].
  destruct (find _ (users db)) as [u|]; unfold_h; [cbn; discriminate | ].
  cbn [users otps set_otps].
  destruct (existsb _ _); unfold_h; [cbn; discriminate | ].
  cbn [fk_user negb].
  destruct (email_ok env); unfold_h; [ | cbn; discriminate].
  intros _. eexists. cbn. repeat split.
Qed.

Lemma issuance_runs ext env req email type db :
  issued_key req = Some (email, type) ->
  status (response_of ext env req db) = 200 ->
  exists o,
    otps (db_after ext env req db)
    = filter (fun x => negb (otp_is email type x))
        (filter (fun x => negb (otp_expiresAt x <? now env)) (otps db)) ++ [o]
    /\ otp_key o = (email, type)
    /\ otp_code o = generateOTP env
    /\ otp_expiresAt o = now env + minutes 10
    /\ otp_verified o = false /\ otp_attempts o = 0.
Proof.
  intros K. unfold response_of, db_after, serve.
  destruct req as [[b|] | | [b|] | | | | | | | | [b|]]; cbn in K; try discriminate;
    inversion K; subst; clear K; cbn [app].
  - pose proof (signup_runs env b db) as R.
    destruct (signup env (Some b) _) as [st [r|e]]; [exact R | contradiction].
  - unfold signin. destruct (Js.falsy (eb_email b)); [cbn; discriminate | ].
    pose proof (issue_signin_otp_runs env (Js.str (eb_email b))
                  "OTP sent to your email" "Failed to send OTP" db) as R.
    destruct (issue_signin_otp _ _ _ _ _) as [st [r|e]]; [exact R | contradiction].
  - unfold signin_resend. destruct (Js.falsy (eb_email b)); [cbn; discriminate | ].
    pose proof (issue_signin_otp_runs env (Js.str (eb_email b))
                  "New OTP sent to your email" "Failed to resend OTP" db) as R.
    destruct (issue_signin_otp _ _ _ _ _) as [st [r|e]]; [exact R | contradiction].
Qed.

Lemma run_otp_unique ext history db :
  otp_unique db -> otp_unique (run ext history db).
Proof.
  revert db. induction history as [|[env req] rest IH]; intros db H; cbn; [exact H | ].
  apply IH. now apply otp_unique_invariant.
Qed.

Lemma filter_filter_negb A (p : A -> bool) l :
  filter p (filter (fun x => negb (p x)) l) = [].
Proof.
  induction l as [|x r IH]; cbn; [reflexivity | ].
  destruct (p x) eqn:P; cbn; [exact IH | ]. now rewrite P.
Qed.

(** C9.  Served one request at a time, the API keeps at most one OTP row
    per (email, type): it holds of the empty database, every request keeps
    it, so it holds after any history.  The reason is in the issuing routes
    (sign-up, sign-in, resend): one that answers 200 has deleted the rows of
    the normalized e-mail and type before it created the new one, which is
    then the only row of that e-mail and type. *)
Theorem one_otp_per_email_and_type ext :
  (forall history, otp_unique (run ext history empty_db))
  /\ (forall env req db, otp_unique db -> otp_unique (db_after ext env req db))
  /\ (forall env req email type db,
         issued_key req = Some (email, type) ->
         status (response_of ext env req db) = 200 ->
         exists o,
           filter (otp_is email type) (otps (db_after ext env req db)) = [o]
           /\ otp_code o = generateOTP env
           /\ otp_verified o = false
           /\ otp_attempts o = 0).
Proof.
  split; [ | split].
  - intros history. apply run_otp_unique. constructor.
  - intros env req db. apply otp_unique_invariant.
  - intros env req email type db K S.
    destruct (issuance_runs ext env req email type db K S)
      as (o & E & Ko & C & _ & V & A).
    exists o. rewrite E, filter_app, filter_filter_negb. cbn.
    apply otp_is_key in Ko. rewrite Ko. auto.
Qed.


(** Ann asks for a sign-in code while one is pending. *)
Lemma one_otp_per_email_and_type_witness :
  otp_unique (Sample.db_otps 0)
  /\ issued_key (POST_signin (Sample.email_body " Ann@Example.com")) =
     Some ("ann@example.com", SIGNIN)
  /\ status (response_of Sample.ext (Sample.env 1000 "9")
               (POST_signin (Sample.email_body " Ann@Example.com"))
               (Sample.db_otps 0)) = 200
  /\ otp_unique (db_after Sample.ext (Sample.env 1000 "9")
                   (POST_signin (Sample.email_body " Ann@Example.com"))
                   (Sample.db_otps 0))
  /\ map otp_id (otps (db_after Sample.ext (Sample.env 1000 "9")
                         (POST_signin (Sample.email_body " Ann@Example.com"))
                         (Sample.db_otps 0))) = ["otp-up"; "otp9"].
Proof.
  assert (U : otp_unique (Sample.db_otps 0)).
  { unfold otp_unique. cbn. repeat constructor; cbn; intuition discriminate. }
  split; [exact U | ]. split; [reflexivity | ]. split; [reflexivity | ].
  split; [ | reflexivity].
  apply (proj1 (proj2 (one_otp_per_email_and_type Sample.ext))). exact U.
Defined.

(** ** OTPs are used once (C6) *)

Lemma find_none_iff A (p : A -> bool) l :
  (forall x, In x l -> p x = false) -> find p l = None.
Proof.
  intros H. destruct (find p l) as [x|] eqn:F; [ | reflexivity].
  apply find_some in F. destruct F as [Hin Px]. rewrite (H x Hin) in Px. discriminate.
Qed.

Lemma NoDup_map_inj A B (f : A -> B) l a b :
  NoDup (map f l) -> In a l -> In b l -> f a = f b -> a = b.
Proof.
  induction l as [|x r IH]; cbn; [contradiction | ].
  intros ND Ha Hb E. inversion ND as [|? ? Hx ND']; subst.
  destruct Ha as [-> | Ha], Hb as [-> | Hb]; auto.
  - exfalso. apply Hx. rewrite E. now apply in_map.
  - exfalso. apply Hx. rewrite <- E. now apply in_map.
Qed.

Lemma matched_otp_live env b type db o :
  matched_otp env b type db = Some o ->
  In o (otps db)
  /\ otp_key o = (normalize (Js.str (vb_email b)), type)
  /\ otp_code o = Js.trim (Js.str (vb_otp b))
  /\ otp_verified o = false
  /\ now env < otp_expiresAt o.
Proof.
  unfold matched_otp, otp_live, otp_key. intros F. apply find_some in F.
  destruct F as [Hin L].
  repeat (apply andb_prop in L; destruct L as [L ?]).
  apply String.eqb_eq in L. apply OtpType_eqb_eq in H1.
  match goal with H : (_ =? _)%string = true |- _ => apply String.eqb_eq in H end.
  match goal with H : negb _ = true |- _ => apply negb_true_iff in H end.
  match goal with H : (_ <? _) = true |- _ => apply Z.ltb_lt in H end.
  subst. repeat split; auto. congruence.
Qed.

Lemma spent_is_unmatched env b type db :
  spent (normalize (Js.str (vb_email b))) type db ->
  matched_otp env b type db = None.
Proof.
  intros S. apply find_none_iff. intros o Hin. unfold otp_live.
  destruct (String.eqb_spec (otp_email o) (normalize (Js.str (vb_email b)))) as [E|]; [ | reflexivity].
  destruct (OtpType_eqb (otp_type o) type) eqn:T;
    [ | now rewrite andb_false_r].
  apply OtpType_eqb_eq in T. rewrite (S o Hin E T). cbn.
  now rewrite andb_false_r.
Qed.

Lemma verify_success ext env type hdr body db :
  type <> PASSWORD_RESET ->
  status (response_of ext env (verify_request type hdr body) db) = 200 ->
  exists b o d,
    body = Some b
    /\ matched_otp env b type db = Some o
    /\ upd_verified d = Some true
    /\ otps (db_after ext env (verify_request type hdr body) db)
       = otps (otp_updated db (otp_id o) d).
Proof.
  intros T. unfold response_of, db_after.
  destruct type; [ | | contradiction]; cbn [verify_request].
  - destruct (signup_verify_runs ext env hdr body db)
      as [(log & msg & code & E & C) | (b & o & sd & dob & B & F & _ & _ & _ & [E | E])];
      rewrite E; cbn [fst snd status json json_ok]; intros S.
    + destruct C; subst; discriminate.
    + discriminate.
    + exists b, o, (verified_by (fresh_user_id env)). auto.
  - destruct (signin_verify_runs ext env hdr body db)
      as [(log & msg & E)
         | (b & o & B & F & [(U & E) | (u & U & A & [E | E])])];
      rewrite E; cbn [fst snd status json json_ok]; intros S; try discriminate.
    exists b, o, verified_only. auto.
Qed.

Lemma run_spent ext email type history db :
  (forall er, In er history -> issued_key (snd er) <> Some (email, type)) ->
  spent email type db -> spent email type (run ext history db).
Proof.
  revert db. induction history as [|[env req] rest IH]; intros db N H; cbn; [exact H | ].
  apply IH.
  - intros er Hin. apply N. now right.
  - apply spent_invariant; [ | exact H]. apply (N (env, req)). now left.
Qed.

(** Against C6 as stated: Ann signs in with "123456"; the verification
    succeeds and sets [verified] on her OTP row.  She asks for a new code
    and the draw is "123456" again.  A verification request with the same
    e-mail, code and type now succeeds. *)
Lemma reissued_code_verifies_again :
  let db1 := db_after Sample.ext (Sample.env 1000 "1") Sample.signin_ann Sample.db in
  let db2 := db_after Sample.ext (Sample.env 2000 "2") Sample.verify_ann db1 in
  let db3 := run Sample.ext [(Sample.env 4000 "4", Sample.signin_ann)] db2 in
  status (response_of Sample.ext (Sample.env 2000 "2") Sample.verify_ann db1) = 200
  /\ map otp_verified (otps db2) = [true]
  /\ status (response_of Sample.ext (Sample.env 5000 "5") Sample.verify_ann db3) = 200.
Proof. cbv zeta. repeat split; reflexivity. Qed.

(** ** The primary key of notes

    The hypothesis [notes_pkey] of C1 holds in every state the API reaches. *)

Section NotesPkey.
Variable ext : Ext.

Lemma note_create_pkey id t c u n : preserves notes_pkey (note_create id t c u n).
Proof.
  apply preserves_orm. intros db db' a E H. orm_cases E.
  unfold notes_pkey in *. cbn. rewrite map_app. cbn.
  apply NoDup_snoc; [exact H | ].
  intros Hin. apply in_map_iff in Hin. destruct Hin as (x & Ex & Hx).
  match goal with H : existsb _ _ = false |- _ => rename H into Ex0 end.
  assert (X : existsb (fun n => String.eqb (note_id n) id) (notes db) = true).
  { apply existsb_exists. exists x. split; [exact Hx | now apply String.eqb_eq]. }
  congruence.
Qed.

Lemma note_update_pkey id t c n : preserves notes_pkey (note_update id t c n).
Proof.
  apply preserves_orm. intros db db' a E H. orm_cases E.
  unfold notes_pkey in *. cbn. rewrite map_map.
  erewrite map_ext; [exact H | ].
  intros x. cbn. destruct (String.eqb (note_id x) id); reflexivity.
Qed.

Lemma note_delete_pkey id : preserves notes_pkey (note_delete id).
Proof.
  apply preserves_orm. intros db db' a E H. orm_cases E.
  unfold notes_pkey in *. cbn. now apply NoDup_map_filter.
Qed.

(** The primary key of [notes] is kept by every request. *)
Lemma notes_pkey_invariant env req db :
  notes_pkey db -> notes_pkey (db_after ext env req db).
Proof.
  apply db_after_preserves.
  - other_table.
  - other_table.
  - intros. apply preserves_bind; [other_table | intros _].
    apply preserves_bind; [other_table | intros _; assumption].
  - other_table.
  - other_table.
  - other_table.
  - apply note_create_pkey.
  - apply note_update_pkey.
  - apply note_delete_pkey.
Qed.

End NotesPkey.

(** ** How many Prisma calls a request makes (C8) *)

Lemma calls_ret n t A (a : A) : calls n t (ret a).
Proof.
  intros st st' r E. inversion E; subst. exists []. rewrite app_nil_r.
  cbn. repeat split; lia.
Qed.

Lemma calls_throw n t A e : calls n t (@throw A e).
Proof.
  intros st st' r E. inversion E; subst. exists []. rewrite app_nil_r.
  cbn. repeat split; lia.
Qed.

Lemma calls_orm n t A op (f : Db -> Res (Db * A)) : calls (S n) t (orm op f).
Proof.
  intros st st' r E. unfold orm in E.
  destruct (f (st_db st)) as [[db' a]|e]; inversion E; subst; clear E; cbn;
    exists [Call op]; unfold transactions; cbn; (split; [reflexivity | split; lia]).
Qed.

Lemma calls_transaction n t A (m : M A) : calls (S n) (S t) (transaction m).
Proof.
  intros st st' r E. unfold transaction in E.
  destruct (m _) as [st1 [a|e]]; inversion E; subst; clear E; cbn;
    eexists [_]; unfold transactions; (split; [reflexivity | cbn; split; lia]).
Qed.

Lemma calls_bind n1 t1 n t A B (m : M A) (f : A -> M B) :
  calls n1 t1 m -> (forall a, calls (n - n1) (t - t1) (f a)) ->
  (n1 <= n)%nat -> (t1 <= t)%nat ->
  calls n t (bind m f).
Proof.
  intros Hm Hf Ln Lt st st' r E. unfold bind in E.
  destruct (m st) as [st1 [a|e]] eqn:Em.
  - destruct (Hm _ _ _ Em) as (l1 & E1 & N1 & T1).
    destruct (Hf a _ _ _ E) as (l2 & E2 & N2 & T2).
    exists (l1 ++ l2). rewrite E2, E1, app_assoc. split; [reflexivity | ].
    unfold transactions in *. rewrite filter_app, !length_app. lia.
  - inversion E; subst. destruct (Hm _ _ _ Em) as (l1 & E1 & N1 & T1).
    exists l1. repeat split; auto; lia.
Qed.

Lemma calls_try_catch n t A (m : M A) h :
  calls n t m -> (forall e, calls 0 0 (h e)) -> calls n t (try_catch m h).
Proof.
  intros Hm Hh st st' r E. unfold try_catch in E.
  destruct (m st) as [st1 [a|e]] eqn:Em.
  - inversion E; subst. eapply Hm; eauto.
  - destruct (Hm _ _ _ Em) as (l1 & E1 & N1 & T1).
    destruct (Hh e _ _ _ E) as (l2 & E2 & N2 & T2).
    destruct l2; [ | cbn in N2; lia].
    exists l1. rewrite E2, E1, app_nil_r. auto.
Qed.

Lemma calls_orm1 A op (f : Db -> Res (Db * A)) : calls 1 0 (orm op f).
Proof. apply calls_orm. Qed.

Lemma calls_transaction1 A (m : M A) : calls 1 1 (transaction m).
Proof. apply calls_transaction. Qed.

(** What comes first in a sequence: one call, one transaction, the
    clean-up (one call, its failure swallowed), or no call at all. *)
Ltac calls_first :=
  first
    [ apply calls_orm1
    | apply calls_transaction1
    | apply calls_try_catch; [apply calls_orm1 | intros ?; apply calls_ret]
    | match goal with
      | |- calls _ _ (match ?x with _ => _ end) =>
          destruct x; first [apply (calls_ret 0 0) | apply (calls_throw 0 0)]
      end ].

Ltac calls_step :=
  first
    [ apply calls_ret
    | apply calls_throw
    | apply calls_orm
    | apply calls_transaction
    | apply calls_try_catch; [ | intros ? ]
    | eapply calls_bind; [ calls_first | intros ?; cbn [Nat.sub] | cbn; lia | cbn; lia ]
    | match goal with
      | |- calls _ _ (match ?x with _ => _ end) => destruct x
      end ].

Section Calls.
Variable ext : Ext.

Lemma calls_app env req : calls (call_budget req) (tx_budget req) (app ext env req).
Proof.
  destruct req; cbn [app call_budget tx_budget];
    unfold signup, signup_verify, signin, signin_resend, issue_signin_otp,
      signin_verify, logout, get_notes, create_note, update_note, delete_note,
      health, authMiddleware, cleanupExpiredOtps, sendOTPEmail, req_json,
      user_findUnique, user_create, otp_deleteMany, otp_create, otp_findFirst,
      otp_findFirst_include_user, otp_update, session_findFirst, session_create,
      session_updateMany_deactivate, note_findMany, note_findFirst, note_create,
      note_update, note_delete;
    cbv zeta.
  all: repeat calls_step.
Qed.

End Calls.

(** C8, as the code has it.  A request is handled by a short sequence of
    Prisma calls, not by one: at most four for the three OTP-issuing
    routes, three for the two verification routes and for PUT and DELETE of
    a note, two for GET and POST of notes, one for logout and none for the
    health check.  At most one entry of the sequence is a [$transaction],
    and only [POST /api/signup/verify] runs one. *)
Theorem handlers_make_few_calls ext env req db :
  (List.length (calls_of ext env req db) <= call_budget req)%nat
  /\ (List.length (calls_of ext env req db) <= 4)%nat
  /\ (List.length (transactions (calls_of ext env req db)) <= 1)%nat
  /\ (transactions (calls_of ext env req db) <> [] ->
      exists hdr body, req = POST_signup_verify hdr body).
Proof.
  unfold calls_of, serve.
  destruct (app ext env req {| st_db := db; st_log := [] |}) as [st r] eqn:E.
  destruct (calls_app ext env req _ _ _ E) as (l & L & N & T).
  cbn [st_log List.app] in L.
  assert (X : snd (fst (match r with
                        | Ok r0 => (st_db st, st_log st, r0)
                        | Throw _ =>
                            (st_db st, st_log st,
                             json (JError "Internal Server Error") 500)
                        end)) = l) by (destruct r; exact L).
  rewrite X. clear X L E.
  split; [exact N | ].
  split; [destruct req; cbn in N; lia | ].
  split; [destruct req; cbn in T; lia | ].
  intros NE. destruct req; cbn in T; try (destruct (transactions l); [congruence | cbn in T; lia]).
  eauto.
Qed.

(** Cy presents the right sign-up code: a lookup, the transaction and the
    creation of the session. *)
Lemma handlers_make_few_calls_witness :
  calls_of Sample.ext (Sample.env 1000 "1")
    (POST_signup_verify Sample.no_headers
       (Sample.verify_body "cy@example.com" "654321")) (Sample.db_otps 0)
  = [Call OtpFindFirst; Transaction [UserCreate; OtpUpdate]; Call SessionCreate]
  /\ transactions
       (calls_of Sample.ext (Sample.env 1000 "1")
          (POST_signup_verify Sample.no_headers
             (Sample.verify_body "cy@example.com" "654321")) (Sample.db_otps 0))
     <> []
  /\ exists hdr body,
      POST_signup_verify Sample.no_headers
        (Sample.verify_body "cy@example.com" "654321")
      = POST_signup_verify hdr body.
Proof.
  assert (N : transactions
                (calls_of Sample.ext (Sample.env 1000 "1")
                   (POST_signup_verify Sample.no_headers
                      (Sample.verify_body "cy@example.com" "654321"))
                   (Sample.db_otps 0)) <> []) by (cbn; discriminate).
  split; [reflexivity | ]. split; [exact N | ].
  exact (proj2 (proj2 (proj2
           (handlers_make_few_calls Sample.ext (Sample.env 1000 "1")
              (POST_signup_verify Sample.no_headers
                 (Sample.verify_body "cy@example.com" "654321"))
              (Sample.db_otps 0)))) N).
Defined.

(** Against C8 as stated: Cy's sign-up is handled by four separate calls on
    the client, none of them inside a transaction. *)
Lemma signup_makes_four_calls :
  calls_of Sample.ext (Sample.env 1000 "1") Sample.signup_cy Sample.db
  = [Call OtpDeleteMany; Call UserFindUnique; Call OtpDeleteMany; Call OtpCreate]
  /\ status (response_of Sample.ext (Sample.env 1000 "1") Sample.signup_cy Sample.db)
     = 200
  /\ transactions (calls_of Sample.ext (Sample.env 1000 "1") Sample.signup_cy Sample.db)
     = []
  /\ (1 < List.length
            (calls_of Sample.ext (Sample.env 1000 "1") Sample.signup_cy Sample.db))%nat.
Proof. repeat split; try reflexivity. apply Nat.ltb_lt. reflexivity. Qed.

(** * Further properties *)

(** ** The writes of each route

    A finer form of [app_preserves]: a property of the tables is kept by a
    request as soon as it is kept by the writes the request's own handler
    contains, with the arguments the handler passes them. *)

Section Footprint.
Variable ext : Ext.
Variable env : Env.
Variable Inv : Db -> Prop.
Variable req : Request.

Hypothesis F_cleanup :
  issues_otp req ->
  preserves Inv (otp_deleteMany (fun o => otp_expiresAt o <? now env)).
Hypothesis F_signup_issue : forall email id sd B (k : M B),
  issued_key req = Some (email, SIGNUP) ->
  sd_email sd = email ->
  preserves Inv k ->
  preserves Inv
    (bind (otp_deleteMany (otp_is email SIGNUP))
       (fun _ => bind (otp_create id (generateOTP env) email SIGNUP
                         (now env + minutes 10) None (Some sd))
                   (fun _ => k))).
Hypothesis F_signin_issue : forall email id uid B (k : M B),
  issued_key req = Some (email, SIGNIN) ->
  preserves Inv k ->
  preserves Inv
    (bind (otp_deleteMany (otp_is email SIGNIN))
       (fun _ => bind (otp_create id (generateOTP env) email SIGNIN
                         (now env + minutes 10) (Some uid) None)
                   (fun _ => k))).
Hypothesis F_user_create : forall id name email dob,
  is_signup_verify req -> preserves Inv (user_create id name email dob true).
Hypothesis F_mark_signup : forall id uid,
  is_signup_verify req -> preserves Inv (otp_update id (verified_by uid)).
Hypothesis F_mark_signin : forall id,
  is_signin_verify req -> preserves Inv (otp_update id verified_only).
Hypothesis F_attempt : forall id,
  is_signin_verify req -> preserves Inv (otp_update id one_more_attempt).
Hypothesis F_session_create : forall id uid tok exp ua ip,
  is_signup_verify req \/ is_signin_verify req ->
  preserves Inv (session_create id uid tok exp ua ip).
Hypothesis F_session_updateMany : forall tok,
  is_logout req -> preserves Inv (session_updateMany_deactivate tok).
Hypothesis F_note_create : forall id t c u,
  is_create_note req -> preserves Inv (note_create id t c u (now env)).
Hypothesis F_note_update : forall id t c,
  is_update_note req -> preserves Inv (note_update id t c (now env)).
Hypothesis F_note_delete : forall id,
  is_delete_note req -> preserves Inv (note_delete id).

Lemma authMiddleware_keeps hdr next :
  (forall u, preserves Inv (next u)) ->
  preserves Inv (authMiddleware ext env hdr next).
Proof.
  intros Hn. unfold authMiddleware, session_findFirst. cbv zeta.
  repeat pres_step; auto.
Qed.

Lemma app_keeps : preserves Inv (app ext env req).
Proof.
  destruct req; cbn [app issued_key issues_otp is_signup_verify is_signin_verify
                       is_logout is_create_note is_update_note is_delete_note] in *;
    try (apply authMiddleware_keeps; intros ?);
    unfold signup, signup_verify, signin, signin_resend, issue_signin_otp,
      signin_verify, logout, get_notes, create_note, update_note, delete_note,
      health, signup_tx, cleanupExpiredOtps, sendOTPEmail, req_json,
      user_findUnique, otp_findFirst, otp_findFirst_include_user,
      note_findMany, note_findFirst;
    cbv zeta;
    repeat first
      [ apply F_signup_issue; [reflexivity | reflexivity | ]
      | apply F_signin_issue; [reflexivity | ]
      | pres_step ];
    auto;
    apply (F_mark_signup _ (user_id _)); exact Logic.I.
Qed.

Lemma db_after_keeps db : Inv db -> Inv (db_after ext env req db).
Proof.
  intros H. unfold db_after, serve.
  destruct (app ext env req _) as [st r] eqn:E.
  pose proof (app_keeps _ _ _ E H) as P.
  destruct r; exact P.
Qed.

End Footprint.

(** A composition of an OTP [deleteMany] and [create] that leaves the
    property alone. *)
Ltac other_table_issue :=
  intros;
  apply preserves_bind; [other_table | intros _];
  apply preserves_bind; [other_table | intros _; assumption].

(** Closes the side of [db_after_keeps] for a write that the route does not
    contain, or that is to another table. *)
Ltac not_this_write :=
  first
    [ other_table_issue
    | other_table
    | let G := fresh in
      intros;
      match goal with
      | G : issues_otp _ |- _ => destruct G
      | G : is_signup_verify _ |- _ => destruct G
      | G : is_signin_verify _ |- _ => destruct G
      | G : is_logout _ |- _ => destruct G
      | G : is_create_note _ |- _ => destruct G
      | G : is_update_note _ |- _ => destruct G
      | G : is_delete_note _ |- _ => destruct G
      | G : _ \/ _ |- _ => destruct G as [G | G]; destruct G
      | G : issued_key _ = Some _ |- _ => discriminate G
      end ].

Section Frame.
Variable ext : Ext.
Variable env : Env.

Lemma user_create_appends db0 id name email dob v :
  preserves (fun d => exists l, users d = users db0 ++ l)
    (user_create id name email dob v).
Proof.
  apply preserves_orm. intros db db' a E [l H]. orm_cases E.
  cbn. eexists. rewrite H, <- app_assoc. reflexivity.
Qed.

Lemma users_only_grow req db :
  exists l, users (db_after ext env req db) = users db ++ l.
Proof.
  apply (db_after_keeps ext env (fun d => exists l, users d = users db ++ l));
    try not_this_write.
  - intros. apply user_create_appends.
  - exists []. now rewrite app_nil_r.
Qed.


Lemma notes_change_only_on_notes_routes req db :
  notes_request req = None -> notes (db_after ext env req db) = notes db.
Proof.
  intros N.
  apply (db_after_keeps ext env (fun d => notes d = notes db));
    try not_this_write; try reflexivity;
    intros; destruct req; cbn in *; try contradiction; discriminate.
Qed.


End Frame.

(** ** The constraints of the schema *)

Lemma existsb_false_In A (p : A -> bool) l x :
  existsb p l = false -> In x l -> p x = false.
Proof.
  intros E Hin. destruct (p x) eqn:P; [ | reflexivity].
  assert (existsb p l = true) by (apply existsb_exists; eauto). congruence.
Qed.

Lemma user_exists_In db id :
  user_exists db id = true <-> In id (map user_id (users db)).
Proof.
  unfold user_exists. rewrite existsb_exists, in_map_iff. split.
  - intros (u & Hin & E). apply String.eqb_eq in E. eauto.
  - intros (u & E & Hin). exists u. split; [exact Hin | now apply String.eqb_eq].
Qed.

Section Constraints.
Variable ext : Ext.

Lemma user_create_keys id name email dob v :
  preserves users_keys (user_create id name email dob v).
Proof.
  apply preserves_orm. intros db db' a E [Hi He]. orm_cases E.
  match goal with H : existsb _ _ = false |- _ => rename H into X end.
  unfold users_keys. cbn. rewrite !map_app. cbn.
  split; (apply NoDup_snoc; [assumption | ]); intros Hin;
    apply in_map_iff in Hin; destruct Hin as (u & Eu & Hu);
    apply (existsb_false_In _ _ _ _ X) in Hu;
    apply orb_false_iff in Hu; destruct Hu as [H1 H2];
    rewrite Eu, String.eqb_refl in *; discriminate.
Qed.

Lemma users_keys_invariant env req db :
  users_keys db -> users_keys (db_after ext env req db).
Proof.
  apply db_after_preserves.
  - apply user_create_keys.
  - other_table.
  - intros. apply preserves_bind; [other_table | intros _].
    apply preserves_bind; [other_table | intros _; assumption].
  - other_table.
  - other_table.
  - other_table.
  - other_table.
  - other_table.
  - other_table.
Qed.

Lemma otp_create_pkey id code email type exp uid sd :
  preserves otps_pkey (otp_create id code email type exp uid sd).
Proof.
  apply preserves_orm. intros db db' a E H. orm_cases E.
  match goal with H : existsb _ _ = false |- _ => rename H into X end.
  unfold otps_pkey in *. cbn. rewrite map_app. cbn.
  apply NoDup_snoc; [assumption | ]. intros Hin.
  apply in_map_iff in Hin. destruct Hin as (o & Eo & Ho).
  apply (existsb_false_In _ _ _ _ X) in Ho.
  rewrite Eo, String.eqb_refl in Ho. discriminate.
Qed.

Lemma otp_deleteMany_pkey w : preserves otps_pkey (otp_deleteMany w).
Proof.
  apply preserves_orm. intros db db' a E H. orm_cases E.
  unfold otps_pkey in *. cbn. now apply NoDup_map_filter.
Qed.

Lemma otp_update_pkey id d : preserves otps_pkey (otp_update id d).
Proof.
  apply preserves_orm. intros db db' a E H. orm_cases E.
  unfold otps_pkey in *. cbn. rewrite map_map.
  erewrite map_ext; [exact H | ].
  intros o. cbn. destruct (String.eqb (otp_id o) id); reflexivity.
Qed.

Lemma otps_pkey_invariant env req db :
  otps_pkey db -> otps_pkey (db_after ext env req db).
Proof.
  apply db_after_preserves.
  - other_table.
  - apply otp_deleteMany_pkey.
  - intros. apply preserves_bind; [apply otp_deleteMany_pkey | intros _].
    apply preserves_bind; [apply otp_create_pkey | intros _; assumption].
  - intros. apply otp_update_pkey.
  - other_table.
  - other_table.
  - other_table.
  - other_table.
  - other_table.
Qed.

Lemma session_create_keys id uid tok exp ua ip :
  preserves sessions_keys (session_create id uid tok exp ua ip).
Proof.
  apply preserves_orm. intros db db' a E [Hi Ht]. orm_cases E.
  match goal with H : existsb _ _ = false |- _ => rename H into X end.
  unfold sessions_keys. cbn. rewrite !map_app. cbn.
  split; (apply NoDup_snoc; [assumption | ]); intros Hin;
    apply in_map_iff in Hin; destruct Hin as (s & Es & Hs);
    apply (existsb_false_In _ _ _ _ X) in Hs;
    apply orb_false_iff in Hs; destruct Hs as [H1 H2];
    rewrite Es, String.eqb_refl in *; discriminate.
Qed.

Lemma session_updateMany_keys tok :
  preserves sessions_keys (session_updateMany_deactivate tok).
Proof.
  apply preserves_orm. intros db db' a E [Hi Ht]. orm_cases E.
  unfold sessions_keys. cbn. rewrite !map_map. split.
  - erewrite map_ext; [exact Hi | ].
    intros s. cbn. destruct (String.eqb (session_token s) tok); reflexivity.
  - erewrite map_ext; [exact Ht | ].
    intros s. cbn. destruct (String.eqb (session_token s) tok); reflexivity.
Qed.

Lemma sessions_keys_invariant env req db :
  sessions_keys db -> sessions_keys (db_after ext env req db).
Proof.
  apply db_after_preserves.
  - other_table.
  - other_table.
  - intros. apply preserves_bind; [other_table | intros _].
    apply preserves_bind; [other_table | intros _; assumption].
  - other_table.
  - apply session_create_keys.
  - apply session_updateMany_keys.
  - other_table.
  - other_table.
  - other_table.
Qed.

End Constraints.

Section ForeignKeys.
Variable ext : Ext.

Lemma user_create_fks id name email dob v :
  preserves foreign_keys (user_create id name email dob v).
Proof.
  apply preserves_orm. intros db db' a E (Hs & Hn & Ho). orm_cases E.
  unfold foreign_keys, user_exists, fk_user, user_exists in *. cbn.
  repeat split.
  - intros s Hin. rewrite existsb_app, (Hs s Hin). reflexivity.
  - intros n Hin. rewrite existsb_app, (Hn n Hin). reflexivity.
  - intros o Hin. specialize (Ho o Hin). destruct (otp_userId o); [ | reflexivity].
    rewrite existsb_app, Ho. reflexivity.
Qed.

Lemma otp_deleteMany_fks w : preserves foreign_keys (otp_deleteMany w).
Proof.
  apply preserves_orm. intros db db' a E (Hs & Hn & Ho). orm_cases E.
  repeat split; auto.
  intros o Hin. cbn in Hin. apply filter_In in Hin. now apply Ho.
Qed.

Lemma otp_create_fks id code email type exp uid sd :
  preserves foreign_keys (otp_create id code email type exp uid sd).
Proof.
  apply preserves_orm. intros db db' a E (Hs & Hn & Ho). orm_cases E.
  repeat split; auto.
  intros o Hin. cbn in Hin. apply in_app_or in Hin.
  destruct Hin as [Hin | [<- | []]]; [now apply Ho | ].
  cbn. match goal with H : negb _ = false |- _ => apply negb_false_iff in H; exact H end.
Qed.

Lemma otp_update_fks id d : preserves foreign_keys (otp_update id d).
Proof.
  apply preserves_orm. intros db db' a E (Hs & Hn & Ho). orm_cases E.
  repeat split; auto.
  intros o Hin. cbn in Hin. apply in_map_iff in Hin. destruct Hin as (o0 & <- & Hin).
  destruct (String.eqb (otp_id o0) id); [ | now apply Ho].
  match goal with H : negb (fk_user _ _) = false |- _ =>
    apply negb_false_iff in H; rename H into X end.
  cbn. destruct (upd_userId d); [exact X | now apply Ho].
Qed.

Lemma session_create_fks id uid tok exp ua ip :
  preserves foreign_keys (session_create id uid tok exp ua ip).
Proof.
  apply preserves_orm. intros db db' a E (Hs & Hn & Ho). orm_cases E.
  repeat split; auto.
  intros s Hin. cbn in Hin. apply in_app_or in Hin.
  destruct Hin as [Hin | [<- | []]]; [now apply Hs | ].
  cbn. match goal with H : negb _ = false |- _ => apply negb_false_iff in H; exact H end.
Qed.

Lemma session_updateMany_fks tok :
  preserves foreign_keys (session_updateMany_deactivate tok).
Proof.
  apply preserves_orm. intros db db' a E (Hs & Hn & Ho). orm_cases E.
  repeat split; auto.
  intros s Hin. cbn in Hin. apply in_map_iff in Hin. destruct Hin as (s0 & <- & Hin).
  destruct (String.eqb (session_token s0) tok); exact (Hs s0 Hin).
Qed.

Lemma note_create_fks id t c u n : preserves foreign_keys (note_create id t c u n).
Proof.
  apply preserves_orm. intros db db' a E (Hs & Hn & Ho). orm_cases E.
  repeat split; auto.
  intros x Hin. cbn in Hin. apply in_app_or in Hin.
  destruct Hin as [Hin | [<- | []]]; [now apply Hn | ].
  cbn. match goal with H : negb _ = false |- _ => apply negb_false_iff in H; exact H end.
Qed.

Lemma note_update_fks id t c n : preserves foreign_keys (note_update id t c n).
Proof.
  apply preserves_orm. intros db db' a E (Hs & Hn & Ho). orm_cases E.
  repeat split; auto.
  intros x Hin. cbn in Hin. apply in_map_iff in Hin. destruct Hin as (x0 & <- & Hin).
  destruct (String.eqb (note_id x0) id); exact (Hn x0 Hin).
Qed.

Lemma note_delete_fks id : preserves foreign_keys (note_delete id).
Proof.
  apply preserves_orm. intros db db' a E (Hs & Hn & Ho). orm_cases E.
  repeat split; auto.
  intros x Hin. cbn in Hin. apply filter_In in Hin. now apply Hn.
Qed.

Lemma foreign_keys_invariant env req db :
  foreign_keys db -> foreign_keys (db_after ext env req db).
Proof.
  apply db_after_preserves.
  - apply user_create_fks.
  - apply otp_deleteMany_fks.
  - intros. apply preserves_bind; [apply otp_deleteMany_fks | intros _].
    apply preserves_bind; [apply otp_create_fks | intros _; assumption].
  - intros. apply otp_update_fks.
  - apply session_create_fks.
  - apply session_updateMany_fks.
  - apply note_create_fks.
  - apply note_update_fks.
  - apply note_delete_fks.
Qed.

Lemma db_constraints_step env req db :
  db_constraints db -> db_constraints (db_after ext env req db).
Proof.
  intros (U & O & S & N & F). repeat split.
  - now apply users_keys_invariant.
  - now apply users_keys_invariant.
  - now apply otps_pkey_invariant.
  - now apply sessions_keys_invariant.
  - now apply sessions_keys_invariant.
  - now apply notes_pkey_invariant.
  - now apply foreign_keys_invariant.
  - now apply foreign_keys_invariant.
  - now apply foreign_keys_invariant.
Qed.

Lemma db_constraints_empty : db_constraints empty_db.
Proof.
  unfold db_constraints, users_keys, otps_pkey, sessions_keys, notes_pkey,
    foreign_keys. cbn. repeat split; try constructor; intros ? [].
Qed.

Lemma run_db_constraints history db :
  db_constraints db -> db_constraints (run ext history db).
Proof.
  revert db. induction history as [|[env req] rest IH]; intros db H; cbn; [exact H | ].
  apply IH. now apply db_constraints_step.
Qed.

End ForeignKeys.

(** ** Accounts are always verified and active; attempts are never counted *)

Lemma find_app_l A (p : A -> bool) l l' x :
  find p l = Some x -> find p (l ++ l') = Some x.
Proof.
  induction l as [|y r IH]; cbn; [discriminate | ].
  destruct (p y); auto.
Qed.

Lemma find_app_r A (p : A -> bool) l l' :
  find p l = None -> find p (l ++ l') = find p l'.
Proof.
  induction l as [|y r IH]; cbn; [reflexivity | ].
  destruct (p y); [discriminate | auto].
Qed.

Lemma user_exists_find db id :
  user_exists db id = true ->
  exists u, find (fun u => String.eqb (user_id u) id) (users db) = Some u.
Proof.
  unfold user_exists. intros E.
  destruct (find _ (users db)) as [u|] eqn:F; [eauto | ].
  apply existsb_exists in E. destruct E as (u & Hin & Eu).
  rewrite (find_none _ _ F u Hin) in Eu. discriminate.
Qed.

Section Ready.
Variable ext : Ext.
Variable env : Env.

Lemma users_ready_step req db :
  users_ready db -> users_ready (db_after ext env req db).
Proof.
  apply db_after_keeps; try not_this_write.
  intros id name email dob _. apply preserves_orm.
  intros db0 db' a E H. orm_cases E.
  intros u Hin. cbn in Hin. apply in_app_or in Hin.
  destruct Hin as [Hin | [<- | []]]; [now apply H | ].
  cbn. auto.
Qed.

Lemma otps_fresh_users db l :
  otps_fresh db -> otps_fresh (set_users db (users db ++ l)).
Proof.
  intros H o Hin. destruct (H o Hin) as [A U]. split; [exact A | ].
  intros T. destruct (U T) as [u Eu]. unfold otp_user in *. cbn.
  destruct (otp_userId o); [ | discriminate].
  exists u. now apply find_app_l.
Qed.

Lemma otps_fresh_updated db id d :
  upd_attempts_increment d = None ->
  fk_user db (upd_userId d) = true ->
  otps_fresh db -> otps_fresh (otp_updated db id d).
Proof.
  intros Hd Hf H o Hin. cbn in Hin. apply in_map_iff in Hin.
  destruct Hin as (o0 & <- & Hin). destruct (H o0 Hin) as [A U].
  destruct (String.eqb (otp_id o0) id); [ | split; [exact A | exact U]].
  split; [cbn; now rewrite Hd | ].
  cbn [otp_apply otp_type]. intros T. unfold otp_user. cbn.
  destruct (upd_userId d) as [uid|] eqn:Eu.
  - cbn in Hf. apply user_exists_find in Hf. exact Hf.
  - exact (U T).
Qed.

Lemma otp_update_fresh id d :
  upd_attempts_increment d = None ->
  preserves otps_fresh (otp_update id d).
Proof.
  intros Hd. apply preserves_orm. intros db db' a E H. orm_cases E.
  match goal with H : negb (fk_user _ _) = false |- _ =>
    apply negb_false_iff in H; rename H into X end.
  now apply (otps_fresh_updated db id d).
Qed.

Lemma otp_deleteMany_fresh w : preserves otps_fresh (otp_deleteMany w).
Proof.
  apply preserves_orm. intros db db' a E H. orm_cases E.
  intros o Hin. cbn in Hin. apply filter_In in Hin. destruct Hin as [Hin _].
  exact (H o Hin).
Qed.

Lemma otp_create_fresh id code email type exp uid sd :
  type = SIGNUP \/ uid <> None ->
  preserves otps_fresh (otp_create id code email type exp uid sd).
Proof.
  intros C. apply preserves_orm. intros db db' a E H. orm_cases E.
  match goal with H : negb (fk_user _ _) = false |- _ =>
    apply negb_false_iff in H; rename H into X end.
  intros o Hin. cbn in Hin. apply in_app_or in Hin.
  destruct Hin as [Hin | [<- | []]]; [exact (H o Hin) | ].
  split; [reflexivity | ]. cbn. intros T. unfold otp_user. cbn.
  destruct uid as [u|].
  - cbn in X. now apply user_exists_find.
  - destruct C as [C | C]; congruence.
Qed.

Lemma user_create_fresh id name email dob v :
  preserves otps_fresh (user_create id name email dob v).
Proof.
  apply preserves_orm. intros db db' a E H. orm_cases E.
  now apply otps_fresh_users.
Qed.

Lemma otps_fresh_step req db :
  otps_fresh db -> otps_fresh (db_after ext env req db).
Proof.
  intros H.
  assert (G : is_signin_verify req \/ ~ is_signin_verify req)
    by (destruct req; cbn; tauto).
  destruct G as [G | G].
  - destruct req as [b0|h0 b0|b0|hdr bd|b0|h0|h0 b0|h0 i0 b0|h0 i0| |b0];
      try contradiction.
    unfold db_after.
    destruct (signin_verify_runs ext env hdr bd db)
      as [(log & msg & E)
         | (b & o & B & F & [(U & E) | (u & U & A & [E | E])])];
      rewrite E; cbn [fst snd]; try exact H.
    + exfalso. destruct (matched_otp_live env b SIGNIN db o F) as (Hin & K & _).
      destruct (H o Hin) as [_ X]. unfold otp_key in K.
      destruct X as [u Eu]; congruence.
    + now apply otps_fresh_updated.
    + apply (otps_fresh_updated db (otp_id o) verified_only); auto.
  - revert H. apply db_after_keeps; try not_this_write.
    + intros. apply otp_deleteMany_fresh.
    + intros. apply preserves_bind; [apply otp_deleteMany_fresh | intros _].
      apply preserves_bind; [ | intros _; assumption].
      apply otp_create_fresh. now left.
    + intros. apply preserves_bind; [apply otp_deleteMany_fresh | intros _].
      apply preserves_bind; [ | intros _; assumption].
      apply otp_create_fresh. right. discriminate.
    + intros. apply user_create_fresh.
    + intros. now apply otp_update_fresh.
    + intros. contradiction.
    + intros. contradiction.
Qed.

End Ready.

Lemma run_users_ready ext history db :
  users_ready db -> users_ready (run ext history db).
Proof.
  revert db. induction history as [|[env req] rest IH]; intros db H; cbn; [exact H | ].
  apply IH. now apply users_ready_step.
Qed.

Lemma run_otps_fresh ext history db :
  otps_fresh db -> otps_fresh (run ext history db).
Proof.
  revert db. induction history as [|[env req] rest IH]; intros db H; cbn; [exact H | ].
  apply IH. now apply otps_fresh_step.
Qed.

(** ** What the middleware lets through *)

Lemma find_exists A (p : A -> bool) l x :
  In x l -> p x = true -> exists y, find p l = Some y.
Proof.
  intros Hin Px. destruct (find p l) as [y|] eqn:F; [eauto | ].
  rewrite (find_none _ _ F x Hin) in Px. discriminate.
Qed.

Lemma startsWith_nonempty h p :
  p <> "" -> Js.startsWith h p = true -> String.eqb h "" = false.
Proof.
  unfold Js.startsWith. destruct h; [ | reflexivity].
  destruct p; [contradiction | discriminate].
Qed.

Section Middleware.
Variable ext : Ext.
Variable env : Env.

(** The three ways through [authMiddleware]: refused without a lookup,
    refused after the lookup, or handed over to the route. *)
Lemma authMiddleware_runs hdr db next :
  (exists msg,
      authMiddleware ext env hdr next {| st_db := db; st_log := [] |}
      = ({| st_db := db; st_log := [] |}, Ok (json (JError msg) 401))
      /\ (h_authorization hdr = None
          \/ (exists h, h_authorization hdr = Some h
                        /\ (Js.startsWith h "Bearer " = false
                            \/ verifyToken ext env (Js.substring h 7) = None))))
  \/ (exists h,
        h_authorization hdr = Some h
        /\ Js.startsWith h "Bearer " = true
        /\ verifyToken ext env (Js.substring h 7) <> None
        /\ (forall s, In s (sessions db) ->
                      session_valid env (Js.substring h 7) s = false)
        /\ authMiddleware ext env hdr next {| st_db := db; st_log := [] |}
           = ({| st_db := db; st_log := [Call SessionFindFirst] |},
              Ok (json (JError "Session expired") 401)))
  \/ (exists h u s,
        h_authorization hdr = Some h
        /\ Js.startsWith h "Bearer " = true
        /\ verifyToken ext env (Js.substring h 7) = Some u
        /\ In s (sessions db)
        /\ session_valid env (Js.substring h 7) s = true
        /\ authMiddleware ext env hdr next {| st_db := db; st_log := [] |}
           = next u {| st_db := db; st_log := [Call SessionFindFirst] |}).
Proof.
  unfold authMiddleware, session_findFirst. cbv zeta.
  destruct (h_authorization hdr) as [h|] eqn:H; cbn [Js.falsy Js.str];
    [ | left; eexists; split; [reflexivity | now left]].
  destruct (Js.startsWith h "Bearer ") eqn:P.
  2:{ left. eexists. split; [rewrite orb_true_r; reflexivity | ].
      right. exists h. split; [reflexivity | left; exact P]. }
  rewrite (startsWith_nonempty h "Bearer " ltac:(discriminate) P). cbn [orb negb].
  destruct (verifyToken ext env (Js.substring h 7)) as [u|] eqn:V;
    [ | left; eexists; split; [reflexivity | ];
        right; exists h; split; [reflexivity | right; exact V]].
  unfold_h.
  change (fun s => String.eqb (session_token s) (Js.substring h 7)
                   && session_isActive s && (now env <? session_expiresAt s))
    with (session_valid env (Js.substring h 7)).
  destruct (find _ (sessions db)) as [s|] eqn:F.
  - right; right. apply find_some in F. destruct F as [Hin Vs].
    exists h, u, s. repeat (split; [assumption || reflexivity | ]). reflexivity.
  - right; left. exists h.
    split; [reflexivity | ]. split; [exact P | ]. split; [congruence | ].
    split; [ | reflexivity].
    intros s Hin. exact (find_none _ _ F s Hin).
Qed.

Lemma authenticated_iff hdr db u :
  authenticated_as ext env hdr db u
  <-> exists h s,
        h_authorization hdr = Some h
        /\ Js.startsWith h "Bearer " = true
        /\ verifyToken ext env (Js.substring h 7) = Some u
        /\ In s (sessions db)
        /\ session_valid env (Js.substring h 7) s = true.
Proof.
  split.
  - intros A.
    pose proof (A (fun v st => (st, Throw (JsError v)))) as A1.
    destruct (authMiddleware_runs hdr db (fun v st => (st, Throw (JsError v))))
      as [(msg & E & _) | [(h & _ & _ & _ & _ & E) | (h & u' & s & H & P & V & Hin & Vs & E)]];
      rewrite E in A1; try discriminate.
    inversion A1; subst u'. eauto 10.
  - intros (h & s & H & P & V & Hin & Vs) next.
    destruct (authMiddleware_runs hdr db next)
      as [(msg & E & [N | (h' & H' & [N | N])])
         | [(h' & H' & _ & _ & N & E) | (h' & u' & s' & H' & _ & V' & _ & _ & E)]];
      try congruence.
    rewrite H in H'. inversion H'; subst h'.
    rewrite (N s Hin) in Vs. discriminate.
Qed.

(** Whether a request is let through depends on the [sessions] table only. *)
Lemma authenticated_as_sessions hdr db db' u :
  sessions db' = sessions db ->
  authenticated_as ext env hdr db u -> authenticated_as ext env hdr db' u.
Proof.
  intros S A. apply authenticated_iff. apply authenticated_iff in A.
  rewrite S. exact A.
Qed.

Lemma refused_or_authenticated req hdr db :
  notes_request req = Some hdr ->
  (exists u, authenticated_as ext env hdr db u)
  \/ exists log msg,
      serve ext env req db = (db, log, json (JError msg) 401)
      /\ (log = [] \/ log = [Call SessionFindFirst]).
Proof.
  intros R.
  assert (A : forall next,
             (exists u, authenticated_as ext env hdr db u)
             \/ exists log msg,
                 authMiddleware ext env hdr next {| st_db := db; st_log := [] |}
                 = ({| st_db := db; st_log := log |}, Ok (json (JError msg) 401))
                 /\ (log = [] \/ log = [Call SessionFindFirst])).
  { intros next.
    destruct (authMiddleware_runs hdr db next)
      as [(msg & E & _) | [(h & _ & _ & _ & _ & E) | (h & u & s & H & P & V & Hin & Vs & E)]].
    - right. eauto 6.
    - right. eauto 6.
    - left. exists u. apply authenticated_iff. eauto 10. }
  unfold serve.
  destruct req; cbn in R; try discriminate; inversion R; subst; cbn [app];
    match goal with
    | |- context [authMiddleware ext env hdr ?n] =>
        destruct (A n) as [L | (log & msg & E & C)];
          [left; exact L | right; rewrite E; cbn; eauto]
    end.
Qed.

End Middleware.

(** ** Notes: create, list, update, delete *)

Lemma insert_desc_newest_first n l :
  newest_first l -> newest_first (insert_desc n l).
Proof.
  induction l as [|x r IH]; cbn.
  - intros _. split; [intros y [] | exact I].
  - intros [Hx Hr]. destruct (Z.ltb_spec (note_createdAt x) (note_createdAt n)).
    + cbn. split; [ | split; assumption].
      intros y [<- | Hy]; [lia | ]. specialize (Hx y Hy). lia.
    + cbn. split; [ | now apply IH].
      intros y Hy. apply (Permutation_in _ (insert_desc_perm n r)) in Hy.
      destruct Hy as [<- | Hy]; [lia | now apply Hx].
Qed.

Lemma orderBy_createdAt_desc_newest_first l :
  newest_first (orderBy_createdAt_desc l).
Proof.
  induction l as [|x r IH]; cbn; [exact I | now apply insert_desc_newest_first].
Qed.

Section Notes.
Variable ext : Ext.
Variable env : Env.

Lemma create_note_stored hdr db u b :
  authenticated_as ext env hdr db u ->
  Js.falsy (nb_title b) = false ->
  Js.trim (Js.str (nb_title b)) <> "" ->
  existsb (fun n => String.eqb (note_id n) (fresh_note_id env)) (notes db) = false ->
  user_exists db u = true ->
  serve ext env (POST_notes hdr (Some b)) db
  = (set_notes db (notes db ++ [new_note env u b]),
     [Call SessionFindFirst; Call NoteCreate],
     json_ok (JNote "Note created successfully" (new_note env u b))).
Proof.
  intros A T1 T2 Fr Ux. unfold serve, app. rewrite A.
  unfold create_note, note_create. unfold_h. unfold_h.
  rewrite T1. destruct (String.eqb_spec (Js.trim (Js.str (nb_title b))) "");
    [contradiction | ].
  cbn [orb]. unfold_h. rewrite Fr, Ux. reflexivity.
Qed.

Lemma create_note_refused hdr db u body :
  authenticated_as ext env hdr db u ->
  status (response_of ext env (POST_notes hdr body) db) <> 200 ->
  db_after ext env (POST_notes hdr body) db = db.
Proof.
  intros A. unfold response_of, db_after, serve, app. rewrite A.
  unfold create_note, note_create. unfold_h.
  destruct body as [b|]; cbn; [ | reflexivity].
  destruct (Js.falsy (nb_title b) || _); cbn; [reflexivity | ].
  destruct (existsb _ (notes db)); cbn; [reflexivity | ].
  destruct (negb (user_exists db u)); cbn; [reflexivity | ].
  intros N. contradiction.
Qed.

Lemma create_note_blank_title hdr db u b :
  authenticated_as ext env hdr db u ->
  Js.falsy (nb_title b) = true \/ Js.trim (Js.str (nb_title b)) = "" ->
  serve ext env (POST_notes hdr (Some b)) db
  = (db, [Call SessionFindFirst], json (JError "Title is required") 400).
Proof.
  intros A T. unfold serve, app. rewrite A.
  unfold create_note. unfold_h. unfold_h.
  destruct T as [T | T]; rewrite T; [reflexivity | ].
  rewrite orb_true_r. reflexivity.
Qed.

Lemma create_note_success hdr db u body :
  authenticated_as ext env hdr db u ->
  status (response_of ext env (POST_notes hdr body) db) = 200 ->
  exists b,
    body = Some b
    /\ Js.falsy (nb_title b) = false
    /\ Js.trim (Js.str (nb_title b)) <> ""
    /\ serve ext env (POST_notes hdr body) db
       = (set_notes db (notes db ++ [new_note env u b]),
          [Call SessionFindFirst; Call NoteCreate],
          json_ok (JNote "Note created successfully" (new_note env u b))).
Proof.
  intros A. unfold response_of.
  remember (serve ext env (POST_notes hdr body) db) as R eqn:ER.
  unfold serve, app in ER. rewrite A in ER.
  unfold create_note, note_create in ER. unfold_h.
  destruct body as [b|]; cbn in ER; [ | subst R; discriminate].
  destruct (Js.falsy (nb_title b)) eqn:T1; cbn in ER; [subst R; discriminate | ].
  destruct (String.eqb_spec (Js.trim (Js.str (nb_title b))) ""); cbn in ER;
    [subst R; discriminate | ].
  destruct (existsb _ (notes db)); cbn in ER; [subst R; discriminate | ].
  destruct (negb (user_exists db u)); cbn in ER; [subst R; discriminate | ].
  intros _. exists b.
  split; [reflexivity | ]. split; [exact T1 | ]. split; [assumption | ].
  exact ER.
Qed.

Lemma find_note_by_id db id n :
  notes_pkey db -> In n (notes db) -> note_id n = id ->
  find (fun x => String.eqb (note_id x) id) (notes db) = Some n.
Proof.
  intros PK Hin E.
  destruct (find_exists _ (fun x => String.eqb (note_id x) id) _ n Hin) as [y F];
    [now apply String.eqb_eq | ].
  rewrite F. f_equal. apply find_some in F. destruct F as [Hy Ey].
  apply String.eqb_eq in Ey.
  apply (NoDup_map_inj _ _ note_id (notes db)); auto. congruence.
Qed.

Lemma find_note_owned db id u n :
  notes_pkey db -> owned_by db id u n ->
  find (fun x => String.eqb (note_id x) id && String.eqb (note_userId x) u)
       (notes db) = Some n.
Proof.
  intros PK (Hin & Ei & Eu).
  destruct (find_exists _ (fun x => String.eqb (note_id x) id
                                    && String.eqb (note_userId x) u) _ n Hin)
    as [y F].
  { apply andb_true_intro. split; now apply String.eqb_eq. }
  rewrite F. f_equal. apply find_some in F. destruct F as [Hy Ey].
  apply andb_prop in Ey. destruct Ey as [Ey _]. apply String.eqb_eq in Ey.
  apply (NoDup_map_inj _ _ note_id (notes db)); auto. congruence.
Qed.

Lemma update_note_owned hdr db u id n b :
  authenticated_as ext env hdr db u ->
  notes_pkey db -> owned_by db id u n ->
  Js.falsy (nb_title b) = false \/ nb_content b <> None ->
  serve ext env (PUT_notes hdr id (Some b)) db
  = (set_notes db
       (map (fun x => if String.eqb (note_id x) id
                      then note_apply (title_update b) (content_update b) (now env) x
                      else x) (notes db)),
     [Call SessionFindFirst; Call NoteFindFirst; Call NoteUpdate],
     json_ok (JNote "Note updated successfully"
                (note_apply (title_update b) (content_update b) (now env) n))).
Proof.
  intros A PK O V. unfold serve, app. rewrite A.
  unfold update_note, note_findFirst, note_update. unfold_h. unfold_h.
  assert (V' : Js.falsy (nb_title b)
               && match nb_content b with None => true | Some _ => false end = false).
  { destruct V as [V | V]; [now rewrite V | ].
    destruct (nb_content b); [apply andb_false_r | contradiction]. }
  rewrite V'. unfold_h. rewrite (find_note_owned db id u n PK O). unfold_h.
  destruct O as (Hin & Ei & Eu).
  rewrite (find_note_by_id db id n PK Hin Ei). reflexivity.
Qed.

Lemma delete_note_owned hdr db u id n :
  authenticated_as ext env hdr db u ->
  notes_pkey db -> owned_by db id u n ->
  serve ext env (DELETE_notes hdr id) db
  = (set_notes db (filter (fun x => negb (String.eqb (note_id x) id)) (notes db)),
     [Call SessionFindFirst; Call NoteFindFirst; Call NoteDelete],
     json_ok (JMessage "Note deleted successfully")).
Proof.
  intros A PK O. unfold serve, app. rewrite A.
  unfold delete_note, note_findFirst, note_delete. unfold_h.
  rewrite (find_note_owned db id u n PK O). unfold_h.
  destruct O as (Hin & Ei & Eu).
  assert (X : existsb (fun x => String.eqb (note_id x) id) (notes db) = true).
  { apply existsb_exists. exists n. split; [exact Hin | now apply String.eqb_eq]. }
  rewrite X. reflexivity.
Qed.

Lemma note_gone_is_404 hdr db u id :
  authenticated_as ext env hdr db u ->
  (forall x, In x (notes db) -> note_id x <> id) ->
  serve ext env (DELETE_notes hdr id) db
  = (db, [Call SessionFindFirst; Call NoteFindFirst],
     json (JError "Note not found") 404).
Proof.
  intros A N. unfold serve, app. rewrite A.
  unfold delete_note, note_findFirst. unfold_h.
  rewrite find_none_iff; [reflexivity | ].
  intros x Hin. destruct (String.eqb_spec (note_id x) id) as [E | E];
    [exfalso; exact (N x Hin E) | reflexivity].
Qed.

End Notes.

(** ** Issuing and verifying, path by path *)

Lemma existsb_filter_false A (p q : A -> bool) l :
  existsb p l = false -> existsb p (filter q l) = false.
Proof.
  intros E. destruct (existsb p (filter q l)) eqn:X; [ | reflexivity].
  apply existsb_exists in X. destruct X as (x & Hin & Px).
  apply filter_In in Hin. destruct Hin as [Hin _].
  rewrite (existsb_false_In _ _ _ _ E Hin) in Px. discriminate.
Qed.

Lemma find_user_by_email db email u :
  users_keys db -> registered db email u ->
  find (fun x => String.eqb (user_email x) email) (users db) = Some u.
Proof.
  intros [_ NE] [Hin E].
  destruct (find_exists _ (fun x => String.eqb (user_email x) email) _ u Hin)
    as [y F]; [now apply String.eqb_eq | ].
  rewrite F. f_equal. apply find_some in F. destruct F as [Hy Ey].
  apply String.eqb_eq in Ey.
  apply (NoDup_map_inj _ _ user_email (users db)); auto. congruence.
Qed.

Lemma find_user_by_id db u :
  users_keys db -> In u (users db) ->
  find (fun x => String.eqb (user_id x) (user_id u)) (users db) = Some u.
Proof.
  intros [NI _] Hin.
  destruct (find_exists _ (fun x => String.eqb (user_id x) (user_id u)) _ u Hin)
    as [y F]; [apply String.eqb_refl | ].
  rewrite F. f_equal. apply find_some in F. destruct F as [Hy Ey].
  apply String.eqb_eq in Ey.
  apply (NoDup_map_inj _ _ user_id (users db)); auto.
Qed.

Lemma find_email_registered db email u :
  find (fun x => String.eqb (user_email x) email) (users db) = Some u ->
  registered db email u.
Proof.
  intros F. apply find_some in F. destruct F as [Hin E].
  split; [exact Hin | now apply String.eqb_eq].
Qed.

Section Issuing.
Variable env : Env.

(** Sign-in and resend share this path: the account exists and is ready,
    the id drawn for the row is new. *)
Lemma issue_signin_otp_stored email sent failed db u :
  find (fun x => String.eqb (user_email x) (normalize email)) (users db) = Some u ->
  user_verified u = true -> user_isActive u = true ->
  otp_id_is_fresh env db ->
  issue_signin_otp env email sent failed {| st_db := db; st_log := [] |}
  = ({| st_db := issued env db (normalize email) SIGNIN (Some (user_id u)) None;
        st_log := [Call OtpDeleteMany; Call UserFindUnique;
                   Call OtpDeleteMany; Call OtpCreate] |},
     Ok (if email_ok env then json_ok (JOtpSent sent (normalize email))
         else json (JError failed) 500)).
Proof.
  intros F V A Fr.
  unfold issue_signin_otp, cleanupExpiredOtps, user_findUnique, otp_deleteMany,
    otp_create, sendOTPEmail. cbv zeta. unfold_h. cbn [users otps set_otps].
  rewrite F. unfold_h. rewrite V, A. cbn [negb]. unfold_h.
  cbn [users otps set_otps].
  unfold otp_id_is_fresh in Fr.
  rewrite (existsb_filter_false _ _ _ _ (existsb_filter_false _ _ _ _ Fr)).
  assert (X : user_exists db (user_id u) = true).
  { apply find_some in F. apply user_exists_In. apply in_map. tauto. }
  unfold fk_user, user_exists in *. cbn [users otps set_otps]. rewrite X. cbn [negb].
  destruct (email_ok env); reflexivity.
Qed.

Lemma issue_signin_otp_unknown email sent failed db :
  find (fun x => String.eqb (user_email x) (normalize email)) (users db) = None ->
  issue_signin_otp env email sent failed {| st_db := db; st_log := [] |}
  = ({| st_db := purged env db;
        st_log := [Call OtpDeleteMany; Call UserFindUnique] |},
     Ok (json (JError "User not found") 404)).
Proof.
  intros F.
  unfold issue_signin_otp, cleanupExpiredOtps, user_findUnique, otp_deleteMany.
  cbv zeta. unfold_h. cbn [users otps set_otps].
  rewrite F. reflexivity.
Qed.

Lemma signup_stored b db :
  Js.falsy (sb_name b) = false -> Js.falsy (sb_email b) = false ->
  Js.falsy (sb_dateOfBirth b) = false ->
  find (fun x => String.eqb (user_email x) (normalize (Js.str (sb_email b))))
       (users db) = None ->
  otp_id_is_fresh env db ->
  signup env (Some b) {| st_db := db; st_log := [] |}
  = ({| st_db := issued env db (normalize (Js.str (sb_email b))) SIGNUP None
                   (Some (signup_data b));
        st_log := [Call OtpDeleteMany; Call UserFindUnique;
                   Call OtpDeleteMany; Call OtpCreate] |},
     Ok (if email_ok env
         then json_ok (JOtpSent "OTP sent to your email"
                         (normalize (Js.str (sb_email b))))
         else json (JError "Signup failed. Please try again.") 500)).
Proof.
  intros N E D F Fr.
  unfold signup, cleanupExpiredOtps, user_findUnique, otp_deleteMany,
    otp_create, sendOTPEmail. cbv zeta. rewrite N, E, D. cbn [orb].
  unfold_h. cbn [users otps set_otps]. rewrite F. unfold_h.
  cbn [users otps set_otps].
  unfold otp_id_is_fresh in Fr.
  rewrite (existsb_filter_false _ _ _ _ (existsb_filter_false _ _ _ _ Fr)).
  cbn [fk_user negb].
  destruct (email_ok env); reflexivity.
Qed.

Lemma signup_taken b db u :
  Js.falsy (sb_name b) = false -> Js.falsy (sb_email b) = false ->
  Js.falsy (sb_dateOfBirth b) = false ->
  find (fun x => String.eqb (user_email x) (normalize (Js.str (sb_email b))))
       (users db) = Some u ->
  signup env (Some b) {| st_db := db; st_log := [] |}
  = ({| st_db := purged env db;
        st_log := [Call OtpDeleteMany; Call UserFindUnique] |},
     Ok (json (JError "User already exists") 409)).
Proof.
  intros N E D F.
  unfold signup, cleanupExpiredOtps, user_findUnique, otp_deleteMany.
  cbv zeta. rewrite N, E, D. cbn [orb].
  unfold_h. cbn [users otps set_otps]. rewrite F. reflexivity.
Qed.

End Issuing.

Lemma otp_live_is env email code type o :
  otp_live env email code type o = true -> otp_is email type o = true.
Proof.
  unfold otp_live, otp_is. intros L.
  repeat (apply andb_prop in L; destruct L as [L ?]).
  apply andb_true_intro. split; assumption.
Qed.

Lemma matched_after_issue env1 env2 b db email type uid sd :
  normalize (Js.str (vb_email b)) = email ->
  Js.trim (Js.str (vb_otp b)) = generateOTP env1 ->
  now env2 < now env1 + minutes 10 ->
  matched_otp env2 b type (issued env1 db email type uid sd)
  = Some (new_otp env1 email type uid sd).
Proof.
  intros E C T. unfold matched_otp, issued. cbn [otps set_otps].
  rewrite find_app_r.
  - cbn [find]. unfold otp_live, new_otp.
    cbn [otp_email otp_code otp_type otp_verified otp_expiresAt].
    rewrite E, C, !String.eqb_refl.
    assert (L : (now env2 <? now env1 + minutes 10) = true) by now apply Z.ltb_lt.
    rewrite L. destruct type; reflexivity.
  - apply find_none_iff. intros x Hin. apply filter_In in Hin.
    destruct Hin as [_ N]. rewrite E.
    destruct (otp_live env2 email (Js.trim (Js.str (vb_otp b))) type x) eqn:L;
      [ | reflexivity].
    apply otp_live_is in L. rewrite L in N. discriminate.
Qed.

Lemma unmatched_after_expiry env1 env2 b db email type uid sd :
  normalize (Js.str (vb_email b)) = email ->
  now env1 + minutes 10 <= now env2 ->
  matched_otp env2 b type (issued env1 db email type uid sd) = None.
Proof.
  intros E T. unfold matched_otp, issued. cbn [otps set_otps].
  apply find_none_iff. intros x Hin. apply in_app_or in Hin.
  destruct Hin as [Hin | [<- | []]].
  - apply filter_In in Hin. destruct Hin as [_ N]. rewrite E.
    destruct (otp_live env2 email (Js.trim (Js.str (vb_otp b))) type x) eqn:L;
      [ | reflexivity].
    apply otp_live_is in L. rewrite L in N. discriminate.
  - unfold otp_live, new_otp. cbn [otp_expiresAt].
    destruct (Z.ltb_spec (now env2) (now env1 + minutes 10)); [lia | ].
    apply andb_false_r.
Qed.

Ltac simp_db :=
  cbn [st_db st_log fst snd List.app users otps sessions notes
       set_users set_otps set_sessions set_notes] in *.

Section Verifying.
Variable ext : Ext.
Variable env : Env.

Lemma signin_verified hdr b db o u :
  Js.falsy (vb_email b) = false -> Js.falsy (vb_otp b) = false ->
  matched_otp env b SIGNIN db = Some o ->
  otp_user db o = Some u ->
  otp_attempts o < 5 ->
  session_is_fresh ext env db (user_id u) ->
  serve ext env (POST_signin_verify hdr (Some b)) db
  = (set_sessions (otp_updated db (otp_id o) verified_only)
       (sessions db ++
        [new_session ext env hdr (user_id u)
           (if keep_logged_in b then now env + days 30 else now env + hours 24)]),
     [Call OtpFindFirst; Call OtpUpdate; Call SessionCreate],
     json_ok (JAuth "Signed in successfully" (view u)
                (generateToken ext env (user_id u)))).
Proof.
  intros E C F U A Fr.
  unfold serve, app, signin_verify, otp_findFirst_include_user. cbv zeta.
  rewrite E, C. cbn [orb]. unfold_h.
  unfold matched_otp in F. rewrite F, U. unfold_h.
  destruct (Z.leb_spec 5 (otp_attempts o)); [lia | ].
  unfold otp_update, session_create. unfold_h.
  rewrite (find_exists_id _ _ _ F). cbn [negb fk_user upd_userId verified_only].
  unfold_h. cbn [sessions set_otps]. unfold session_is_fresh in Fr. rewrite Fr.
  pose proof (otp_user_exists _ _ _ U) as UE. unfold user_exists in *.
  cbn [users set_otps]. rewrite UE. reflexivity.
Qed.

Lemma signin_collision hdr b db o u :
  Js.falsy (vb_email b) = false -> Js.falsy (vb_otp b) = false ->
  matched_otp env b SIGNIN db = Some o ->
  otp_user db o = Some u ->
  otp_attempts o < 5 ->
  ~ session_is_fresh ext env db (user_id u) ->
  serve ext env (POST_signin_verify hdr (Some b)) db
  = (otp_updated db (otp_id o) verified_only,
     [Call OtpFindFirst; Call OtpUpdate; Call SessionCreate],
     json (JError "Signin failed") 500).
Proof.
  intros E C F U A Fr.
  unfold serve, app, signin_verify, otp_findFirst_include_user. cbv zeta.
  rewrite E, C. cbn [orb]. unfold_h.
  unfold matched_otp in F. rewrite F, U. unfold_h.
  destruct (Z.leb_spec 5 (otp_attempts o)); [lia | ].
  unfold otp_update, session_create. unfold_h.
  rewrite (find_exists_id _ _ _ F). cbn [negb fk_user upd_userId verified_only].
  unfold_h. cbn [sessions set_otps]. unfold session_is_fresh in Fr.
  destruct (existsb _ (sessions db)); [reflexivity | contradiction].
Qed.

Lemma signup_verified hdr b db o sd dob :
  Js.falsy (vb_email b) = false -> Js.falsy (vb_otp b) = false ->
  matched_otp env b SIGNUP db = Some o ->
  otp_attempts o < 5 ->
  otp_signupData o = Some sd ->
  parse_date ext (sd_dateOfBirth sd) = Some dob ->
  user_id_is_fresh env db ->
  find (fun x => String.eqb (user_email x) (sd_email sd)) (users db) = None ->
  session_is_fresh ext env db (fresh_user_id env) ->
  serve ext env (POST_signup_verify hdr (Some b)) db
  = (set_sessions
       (otp_updated (set_users db (users db ++ [new_user env sd dob])) (otp_id o)
          (verified_by (fresh_user_id env)))
       (sessions db ++
        [new_session ext env hdr (fresh_user_id env) (now env + days 30)]),
     [Call OtpFindFirst; Transaction [UserCreate; OtpUpdate]; Call SessionCreate],
     json_ok (JAuth "Account created successfully" (view (new_user env sd dob))
                (generateToken ext env (fresh_user_id env)))).
Proof.
  intros E C F A SD PD Fu Fe Fs.
  unfold serve, app, signup_verify, otp_findFirst. cbv zeta.
  rewrite E, C. cbn [orb]. unfold_h.
  unfold matched_otp in F. rewrite F. unfold_h.
  destruct (Z.leb_spec 5 (otp_attempts o)); [lia | ].
  rewrite SD. unfold_h.
  unfold signup_tx, user_create, otp_update, session_create. unfold_m.
  rewrite PD.
  assert (X : existsb (fun u => String.eqb (user_id u) (fresh_user_id env)
                               || String.eqb (user_email u) (sd_email sd))
                (users db) = false).
  { destruct (existsb _ (users db)) eqn:X; [ | reflexivity].
    apply existsb_exists in X. destruct X as (x & Hin & Px).
    apply orb_prop in Px. destruct Px as [Px | Px].
    - rewrite (existsb_false_In _ _ _ _ Fu Hin) in Px. discriminate.
    - rewrite (find_none _ _ Fe x Hin) in Px. discriminate. }
  rewrite X. simp_db.
  rewrite (find_exists_id _ _ _ F). cbn [negb].
  unfold fk_user, user_exists. cbn [upd_userId user_id]. simp_db.
  rewrite existsb_app. cbn [existsb user_id]. rewrite String.eqb_refl, orb_true_r.
  cbn [negb orb]. simp_db. unfold session_is_fresh in Fs.
  cbn [user_id]. rewrite Fs.
  rewrite existsb_app. cbn [existsb user_id]. rewrite String.eqb_refl, orb_true_r.
  reflexivity.
Qed.

End Verifying.

(** ** Codes survive [trim] *)

Lemma digit_is_not_space c : Js.is_digit c = true -> Js.is_space c = false.
Proof.
  unfold Js.is_digit, Js.is_space. intros D.
  apply andb_prop in D. destruct D as [D1 D2].
  apply Nat.leb_le in D1, D2.
  destruct (Nat.leb_spec (nat_of_ascii c) 13); [lia | ].
  rewrite andb_false_r. cbn [orb].
  apply Nat.eqb_neq. lia.
Qed.

Lemma trimEnd_digits s : Js.all_digits s = true -> Js.trimEnd s = s.
Proof.
  induction s as [|c r IH]; cbn; [reflexivity | ].
  intros D. apply andb_prop in D. destruct D as [Dc Dr].
  rewrite (IH Dr). destruct r; [ | reflexivity].
  now rewrite (digit_is_not_space c Dc).
Qed.

Lemma trim_digits s : Js.all_digits s = true -> Js.trim s = s.
Proof.
  intros D. unfold Js.trim.
  assert (S : Js.trimStart s = s).
  { destruct s as [|c r]; [reflexivity | ]. cbn in *.
    apply andb_prop in D. destruct D as [Dc _].
    now rewrite (digit_is_not_space c Dc). }
  rewrite S. now apply trimEnd_digits.
Qed.

Lemma generateOTP_digits env :
  Js.all_digits (generateOTP env) = true
  /\ String.length (generateOTP env) = 6%nat
  /\ generateOTP env <> "".
Proof.
  unfold generateOTP.
  assert (R : 100000 <= randomInt 100000 999999 (entropy env) < 999999)
    by (apply randomInt_range; lia).
  rewrite toString_six by lia.
  split; [apply six_all_digits; lia | ]. split; [reflexivity | discriminate].
Qed.

Lemma trim_generateOTP env : Js.trim (generateOTP env) = generateOTP env.
Proof. apply trim_digits. apply generateOTP_digits. Qed.

(** ** What a 200 tells *)

Section Success.
Variable ext : Ext.
Variable env : Env.

Ltac dead R S := subst R; cbn in S; discriminate S.

Lemma signin_verify_facts hdr body db :
  status (response_of ext env (POST_signin_verify hdr body) db) = 200 ->
  exists b o u,
    body = Some b
    /\ Js.falsy (vb_email b) = false /\ Js.falsy (vb_otp b) = false
    /\ matched_otp env b SIGNIN db = Some o
    /\ otp_user db o = Some u
    /\ otp_attempts o < 5
    /\ session_is_fresh ext env db (user_id u).
Proof.
  unfold response_of. intros S.
  remember (serve ext env (POST_signin_verify hdr body) db) as R eqn:ER.
  unfold serve, app, signin_verify, otp_findFirst_include_user in ER.
  cbv zeta in ER.
  destruct body as [b|]; [ | dead R S].
  destruct (Js.falsy (vb_email b)) eqn:E; [dead R S | ].
  destruct (Js.falsy (vb_otp b)) eqn:C; [dead R S | ].
  cbn [orb] in ER. unfold_h.
  destruct (find _ (otps db)) as [o|] eqn:F; unfold_h; [ | dead R S].
  destruct (otp_user db o) as [u|] eqn:U; unfold_h.
  2:{ unfold otp_update in ER. unfold_h.
      rewrite (find_exists_id _ _ _ F) in ER. dead R S. }
  destruct (Z.leb_spec 5 (otp_attempts o)); unfold_h; [dead R S | ].
  unfold otp_update, session_create in ER. unfold_h.
  rewrite (find_exists_id _ _ _ F) in ER.
  cbn [negb fk_user upd_userId] in ER. unfold_h. simp_db.
  destruct (existsb _ (sessions db)) eqn:Fr; [dead R S | ].
  exists b, o, u. repeat (split; [reflexivity || assumption | ]). exact Fr.
Qed.

Lemma signup_verify_facts hdr body db :
  status (response_of ext env (POST_signup_verify hdr body) db) = 200 ->
  exists b o sd dob,
    body = Some b
    /\ Js.falsy (vb_email b) = false /\ Js.falsy (vb_otp b) = false
    /\ matched_otp env b SIGNUP db = Some o
    /\ otp_attempts o < 5
    /\ otp_signupData o = Some sd
    /\ parse_date ext (sd_dateOfBirth sd) = Some dob
    /\ user_id_is_fresh env db
    /\ find (fun x => String.eqb (user_email x) (sd_email sd)) (users db) = None
    /\ session_is_fresh ext env db (fresh_user_id env).
Proof.
  unfold response_of. intros S.
  remember (serve ext env (POST_signup_verify hdr body) db) as R eqn:ER.
  unfold serve, app, signup_verify, otp_findFirst in ER.
  cbv zeta in ER.
  destruct body as [b|]; [ | dead R S].
  destruct (Js.falsy (vb_email b)) eqn:E; [dead R S | ].
  destruct (Js.falsy (vb_otp b)) eqn:C; [dead R S | ].
  cbn [orb] in ER. unfold_h.
  destruct (find _ (otps db)) as [o|] eqn:F; unfold_h; [ | dead R S].
  destruct (Z.leb_spec 5 (otp_attempts o)); unfold_h; [dead R S | ].
  destruct (otp_signupData o) as [sd|] eqn:SD; unfold_h; [ | dead R S].
  unfold signup_tx, user_create, otp_update, session_create in ER. unfold_m.
  destruct (parse_date ext (sd_dateOfBirth sd)) as [dob|] eqn:PD; [ | dead R S].
  destruct (existsb _ (users db)) eqn:X; [dead R S | ].
  simp_db. rewrite (find_exists_id _ _ _ F) in ER. cbn [negb] in ER.
  unfold fk_user, user_exists in ER. cbn [upd_userId user_id] in ER. simp_db.
  rewrite existsb_app in ER. cbn [existsb user_id] in ER.
  rewrite String.eqb_refl, orb_true_r in ER. cbn [negb orb] in ER. simp_db.
  cbn [user_id] in ER.
  destruct (existsb _ (sessions db)) eqn:Fr; [dead R S | ].
  exists b, o, sd, dob.
  repeat (split; [reflexivity || assumption | ]).
  split; [ | split; [ | exact Fr]].
  - unfold user_id_is_fresh. apply not_true_iff_false. intros Y.
    apply existsb_exists in Y. destruct Y as (x & Hin & Px).
    pose proof (existsb_false_In _ _ _ _ X Hin) as Z. cbn in Z.
    rewrite Px in Z. discriminate.
  - apply find_none_iff. intros x Hin.
    pose proof (existsb_false_In _ _ _ _ X Hin) as Z. cbn in Z.
    apply orb_false_iff in Z. tauto.
Qed.

Lemma issue_signin_otp_facts email sent failed db st r :
  issue_signin_otp env email sent failed {| st_db := db; st_log := [] |} = (st, Ok r) ->
  status r = 200 ->
  exists u,
    find (fun x => String.eqb (user_email x) (normalize email)) (users db) = Some u
    /\ user_verified u = true /\ user_isActive u = true
    /\ email_ok env = true
    /\ st_db st = issued env db (normalize email) SIGNIN (Some (user_id u)) None.
Proof.
  unfold issue_signin_otp, cleanupExpiredOtps, user_findUnique, otp_deleteMany,
    otp_create, sendOTPEmail. cbv zeta. unfold_h. simp_db.
  destruct (find _ (users db)) as [u|] eqn:F; unfold_h;
    [ | intros E S; inversion E; subst; cbn in S; discriminate].
  destruct (user_verified u) eqn:V; cbn [negb]; unfold_h;
    [ | intros E S; inversion E; subst; cbn in S; discriminate].
  destruct (user_isActive u) eqn:A; cbn [negb]; unfold_h;
    [ | intros E S; inversion E; subst; cbn in S; discriminate].
  simp_db.
  destruct (existsb _ _); unfold_h;
    [intros E S; inversion E; subst; cbn in S; discriminate | ].
  destruct (negb _); unfold_h;
    [intros E S; inversion E; subst; cbn in S; discriminate | ].
  destruct (email_ok env) eqn:M; unfold_h;
    [ | intros E S; inversion E; subst; cbn in S; discriminate].
  intros E S. inversion E; subst. exists u. repeat split; auto.
Qed.

Lemma signup_facts b db st r :
  signup env (Some b) {| st_db := db; st_log := [] |} = (st, Ok r) ->
  status r = 200 ->
  Js.falsy (sb_name b) = false /\ Js.falsy (sb_email b) = false
  /\ Js.falsy (sb_dateOfBirth b) = false
  /\ find (fun x => String.eqb (user_email x) (normalize (Js.str (sb_email b))))
          (users db) = None
  /\ email_ok env = true
  /\ st_db st = issued env db (normalize (Js.str (sb_email b))) SIGNUP None
                  (Some (signup_data b)).
Proof.
  unfold signup, cleanupExpiredOtps, user_findUnique, otp_deleteMany,
    otp_create, sendOTPEmail. cbv zeta.
  destruct (Js.falsy (sb_name b)) eqn:N;
    [intros E S; inversion E; subst; cbn in S; discriminate | ].
  destruct (Js.falsy (sb_email b)) eqn:Em;
    [intros E S; inversion E; subst; cbn in S; discriminate | ].
  destruct (Js.falsy (sb_dateOfBirth b)) eqn:D;
    [intros E S; inversion E; subst; cbn in S; discriminate | ].
  cbn [orb]. unfold_h. simp_db.
  destruct (find _ (users db)) as [u|] eqn:F; unfold_h;
    [intros E S; inversion E; subst; cbn in S; discriminate | ].
  simp_db.
  destruct (existsb _ _); unfold_h;
    [intros E S; inversion E; subst; cbn in S; discriminate | ].
  cbn [fk_user negb]. unfold_h.
  destruct (email_ok env) eqn:M; unfold_h;
    [ | intros E S; inversion E; subst; cbn in S; discriminate].
  intros E S. inversion E; subst. repeat split; auto.
Qed.

End Success.

(** ** The issuing routes, seen from their 200 *)

Lemma signin_issued ext env b db :
  status (response_of ext env (POST_signin (Some b)) db) = 200 ->
  exists u,
    Js.falsy (eb_email b) = false
    /\ find (fun x => String.eqb (user_email x) (normalize (Js.str (eb_email b))))
            (users db) = Some u
    /\ email_ok env = true
    /\ db_after ext env (POST_signin (Some b)) db
       = issued env db (normalize (Js.str (eb_email b))) SIGNIN (Some (user_id u)) None.
Proof.
  unfold response_of, db_after, serve. cbn [app]. unfold signin.
  destruct (Js.falsy (eb_email b)) eqn:Em; [cbn; discriminate | ].
  destruct (issue_signin_otp _ _ _ _ _) as [st [r|x]] eqn:E; cbn [fst snd];
    [ | cbn; discriminate].
  intros S. destruct (issue_signin_otp_facts _ _ _ _ _ _ _ E S) as (u & F & _ & _ & M & D).
  exists u. auto.
Qed.

Lemma signin_resend_issued ext env b db :
  status (response_of ext env (POST_signin_resend (Some b)) db) = 200 ->
  exists u,
    Js.falsy (eb_email b) = false
    /\ find (fun x => String.eqb (user_email x) (normalize (Js.str (eb_email b))))
            (users db) = Some u
    /\ email_ok env = true
    /\ db_after ext env (POST_signin_resend (Some b)) db
       = issued env db (normalize (Js.str (eb_email b))) SIGNIN (Some (user_id u)) None.
Proof.
  unfold response_of, db_after, serve. cbn [app]. unfold signin_resend.
  destruct (Js.falsy (eb_email b)) eqn:Em; [cbn; discriminate | ].
  destruct (issue_signin_otp _ _ _ _ _) as [st [r|x]] eqn:E; cbn [fst snd];
    [ | cbn; discriminate].
  intros S. destruct (issue_signin_otp_facts _ _ _ _ _ _ _ E S) as (u & F & _ & _ & M & D).
  exists u. auto.
Qed.

Lemma signup_issued ext env b db :
  status (response_of ext env (POST_signup (Some b)) db) = 200 ->
  Js.falsy (sb_name b) = false /\ Js.falsy (sb_email b) = false
  /\ Js.falsy (sb_dateOfBirth b) = false
  /\ find (fun x => String.eqb (user_email x) (normalize (Js.str (sb_email b))))
          (users db) = None
  /\ email_ok env = true
  /\ db_after ext env (POST_signup (Some b)) db
     = issued env db (normalize (Js.str (sb_email b))) SIGNUP None
         (Some (signup_data b)).
Proof.
  unfold response_of, db_after, serve. cbn [app].
  destruct (signup env (Some b) _) as [st [r|x]] eqn:E; cbn [fst snd];
    [ | cbn; discriminate].
  intros S. exact (signup_facts _ _ _ _ _ E S).
Qed.

(** ** Tokens and their session rows *)

Lemma bearer_header hdr token :
  bears hdr token ->
  exists h, h_authorization hdr = Some h
            /\ Js.startsWith h "Bearer " = true
            /\ Js.substring h 7 = token.
Proof.
  unfold bears. intros B. eexists. split; [exact B | ]. split.
  - unfold Js.startsWith. cbn. now destruct token.
  - apply substring_bearer.
Qed.

Lemma bearer_authenticated ext env hdr token db u s :
  bears hdr token ->
  verifyToken ext env token = Some u ->
  In s (sessions db) -> session_valid env token s = true ->
  authenticated_as ext env hdr db u.
Proof.
  intros B V Hin Sv. destruct (bearer_header _ _ B) as (h & A & P & Sub).
  apply authenticated_iff. exists h, s. rewrite Sub. auto.
Qed.

Lemma bearer_refused ext env req hdr token db :
  notes_request req = Some hdr -> bears hdr token ->
  (forall s, In s (sessions db) -> session_valid env token s = false) ->
  exists log msg,
    serve ext env req db = (db, log, json (JError msg) 401)
    /\ (log = [] \/ log = [Call SessionFindFirst]).
Proof.
  intros R B Hall.
  destruct (refused_or_authenticated ext env req hdr db R) as [[u A] | H]; [ | exact H].
  exfalso. apply authenticated_iff in A. destruct A as (h & s & A & _ & _ & Hin & Sv).
  unfold bears in B.
  assert (E : h = ("Bearer " ++ token)%string) by congruence.
  rewrite E, substring_bearer in Sv. rewrite (Hall s Hin) in Sv. discriminate.
Qed.

Lemma fresh_token_unused ext env db userId s :
  session_is_fresh ext env db userId -> In s (sessions db) ->
  String.eqb (session_token s) (generateToken ext env userId) = false.
Proof.
  intros Fr Hin. pose proof (existsb_false_In _ _ _ _ Fr Hin) as Z. cbn in Z.
  apply orb_false_iff in Z. tauto.
Qed.

(** ** Logging out twice *)

Lemma session_deactivate_twice token l :
  map (fun s => if String.eqb (session_token s) token then session_deactivate s else s)
    (map (fun s => if String.eqb (session_token s) token then session_deactivate s else s) l)
  = map (fun s => if String.eqb (session_token s) token then session_deactivate s else s) l.
Proof.
  rewrite map_map. apply map_ext. intros s.
  destruct (String.eqb (session_token s) token) eqn:E; cbn [session_deactivate session_token].
  - rewrite E. reflexivity.
  - rewrite E. reflexivity.
Qed.

(** ** Either sign-in route, and any issuing route *)

Lemma signin_code_issued ext env req email db :
  issued_key req = Some (email, SIGNIN) ->
  status (response_of ext env req db) = 200 ->
  exists u,
    find (fun x => String.eqb (user_email x) email) (users db) = Some u
    /\ db_after ext env req db = issued env db email SIGNIN (Some (user_id u)) None.
Proof.
  intros K S.
  destruct req as [[b|] | | [b|] | | | | | | | | [b|]]; cbn in K; try discriminate;
    inversion K; subst; clear K.
  - destruct (signin_issued ext env b db S) as (u & _ & F & _ & D). eauto.
  - destruct (signin_resend_issued ext env b db S) as (u & _ & F & _ & D). eauto.
Qed.

Lemma code_issued ext env req email type db :
  issued_key req = Some (email, type) ->
  status (response_of ext env req db) = 200 ->
  exists uid sd, db_after ext env req db = issued env db email type uid sd.
Proof.
  intros K S.
  destruct req as [[b|] | | [b|] | | | | | | | | [b|]]; cbn in K; try discriminate;
    inversion K; subst; clear K.
  - destruct (signup_issued ext env b db S) as (_ & _ & _ & _ & _ & D). eauto.
  - destruct (signin_issued ext env b db S) as (u & _ & _ & _ & D). eauto.
  - destruct (signin_resend_issued ext env b db S) as (u & _ & _ & _ & D). eauto.
Qed.

Lemma code_given b code : code <> "" -> Js.trim (Js.str (vb_otp b)) = code ->
  Js.falsy (vb_otp b) = false.
Proof.
  intros N T. destruct (vb_otp b) as [s|]; cbn in *.
  - destruct (String.eqb_spec s ""); [ | reflexivity].
    subst s. cbn in T. congruence.
  - congruence.
Qed.

(** ** A session row, from creation to expiry *)

Lemma new_session_round_trip ext env env' hdr hdr' db db1 uid exp :
  session_is_fresh ext env db uid ->
  sessions db1 = sessions db ++ [new_session ext env hdr uid exp] ->
  bears hdr' (generateToken ext env uid) ->
  (now env' < exp ->
   verifyToken ext env' (generateToken ext env uid) = Some uid ->
   authenticated_as ext env' hdr' db1 uid)
  /\ (exp <= now env' ->
      forall req, notes_request req = Some hdr' ->
        status (response_of ext env' req db1) = 401
        /\ db_after ext env' req db1 = db1).
Proof.
  intros Fr S B. split.
  - intros L V.
    apply (bearer_authenticated ext env' hdr' _ db1 uid
             (new_session ext env hdr uid exp) B V).
    + rewrite S. apply in_or_app. right. now left.
    + unfold session_valid. cbn [new_session session_token session_isActive
                                   session_expiresAt].
      rewrite String.eqb_refl. apply Z.ltb_lt in L. now rewrite L.
  - intros L req R.
    destruct (bearer_refused ext env' req hdr' _ db1 R B) as (log & msg & E & _).
    + intros s Hin. rewrite S in Hin. apply in_app_or in Hin.
      unfold session_valid. destruct Hin as [Hin | [<- | []]].
      * now rewrite (fresh_token_unused _ _ _ _ _ Fr Hin).
      * cbn [new_session session_token session_isActive session_expiresAt].
        apply Z.ltb_ge in L. rewrite L. now rewrite andb_false_r.
    + unfold response_of, db_after. rewrite E. split; reflexivity.
Qed.

(** The middleware lets a request through as one user at most. *)
Lemma middleware_says_one_user ext env hdr db u v :
  authenticated_as ext env hdr db u -> authenticated_as ext env hdr db v -> u = v.
Proof.
  intros A B. apply authenticated_iff in A. apply authenticated_iff in B.
  destruct A as (h & s & A & _ & Va & _). destruct B as (h' & s' & B & _ & Vb & _).
  congruence.
Qed.

(** ** Which route writes which table, continued *)

Section Frame2.
Variable ext : Ext.
Variable env : Env.





End Frame2.

(** ** The outcomes of an OTP request *)

Section Outcomes.
Variable env : Env.

Lemma swept_purged email type db : swept env email type db (purged env db).
Proof.
  repeat split.
  - intros o Hin. cbn in Hin. apply filter_In in Hin. destruct Hin as [_ X].
    apply negb_true_iff, Z.ltb_ge in X. exact X.
  - intros o Hin L _. cbn. apply filter_In. split; [exact Hin | ].
    apply negb_true_iff, Z.ltb_ge. exact L.
Qed.

Lemma swept_cleared email type db :
  swept env email type db
    (set_otps db (filter (fun o => negb (otp_is email type o)) (otps (purged env db)))).
Proof.
  destruct (swept_purged email type db) as (_ & _ & _ & A & B).
  repeat split.
  - intros o Hin. cbn [otps set_otps] in Hin. apply filter_In in Hin.
    apply A. tauto.
  - intros o Hin L K. cbn [otps set_otps]. apply filter_In.
    split; [now apply B | now rewrite K].
Qed.

Lemma swept_issued email type uid sd db :
  swept env email type db (issued env db email type uid sd).
Proof.
  destruct (swept_cleared email type db) as (_ & _ & _ & A & B).
  repeat split.
  - intros o Hin. unfold issued in Hin. cbn [otps set_otps] in Hin.
    apply in_app_or in Hin. destruct Hin as [Hin | [<- | []]].
    + now apply A.
    + cbn. unfold minutes. lia.
  - intros o Hin L K. unfold issued. cbn [otps set_otps]. apply in_or_app. left.
    now apply B.
Qed.

Lemma issue_signin_otp_outcomes email sent failed db st r :
  issue_signin_otp env email sent failed {| st_db := db; st_log := [] |} = (st, r) ->
  swept env (normalize email) SIGNIN db (st_db st)
  /\ exists resp,
       r = Ok resp
       /\ match find (fun x => String.eqb (user_email x) (normalize email)) (users db) with
          | None => resp = json (JError "User not found") 404
          | Some u =>
              if negb (user_verified u)
              then resp = json (JError "Please complete signup verification first") 400
              else if negb (user_isActive u)
              then resp = json (JError "Account is deactivated") 403
              else resp = json_ok (JOtpSent sent (normalize email))
                   \/ resp = json (JError failed) 500
          end.
Proof.
  unfold issue_signin_otp, cleanupExpiredOtps, user_findUnique, otp_deleteMany,
    otp_create, sendOTPEmail. cbv zeta. unfold_h. simp_db.
  destruct (find _ (users db)) as [u|] eqn:F; unfold_h.
  2:{ intros E. inversion E; subst. split; [apply swept_purged | eauto]. }
  destruct (user_verified u) eqn:V; cbn [negb]; unfold_h.
  2:{ intros E. inversion E; subst. split; [apply swept_purged | eauto]. }
  destruct (user_isActive u) eqn:A; cbn [negb]; unfold_h.
  2:{ intros E. inversion E; subst. split; [apply swept_purged | eauto]. }
  simp_db.
  destruct (existsb _ _); unfold_h.
  { intros E. inversion E; subst. split; [apply swept_cleared | eauto]. }
  destruct (negb _); unfold_h.
  { intros E. inversion E; subst. split; [apply swept_cleared | eauto]. }
  destruct (email_ok env) eqn:M; unfold_h;
    intros E; inversion E; subst;
    (split; [apply (swept_issued (normalize email) SIGNIN (Some (user_id u)) None) | eauto]).
Qed.

Lemma signup_outcomes b db st r :
  Js.falsy (sb_name b) = false -> Js.falsy (sb_email b) = false ->
  Js.falsy (sb_dateOfBirth b) = false ->
  signup env (Some b) {| st_db := db; st_log := [] |} = (st, r) ->
  swept env (normalize (Js.str (sb_email b))) SIGNUP db (st_db st)
  /\ exists resp,
       r = Ok resp
       /\ match find (fun x => String.eqb (user_email x)
                                 (normalize (Js.str (sb_email b)))) (users db) with
          | Some _ => resp = json (JError "User already exists") 409
          | None =>
              resp = json_ok (JOtpSent "OTP sent to your email"
                                (normalize (Js.str (sb_email b))))
              \/ resp = json (JError "Email already exists") 409
              \/ resp = json (JError "Signup failed. Please try again.") 500
          end.
Proof.
  intros N Em D.
  unfold signup, cleanupExpiredOtps, user_findUnique, otp_deleteMany,
    otp_create, sendOTPEmail. cbv zeta. rewrite N, Em, D. cbn [orb].
  unfold_h. simp_db.
  destruct (find _ (users db)) as [u|] eqn:F; unfold_h.
  { intros E. inversion E; subst. split; [apply swept_purged | eauto]. }
  simp_db.
  destruct (existsb _ _); unfold_h.
  { intros E. inversion E; subst. split; [apply swept_cleared | eauto 6]. }
  cbn [fk_user negb]. unfold_h.
  destruct (email_ok env) eqn:M; unfold_h;
    intros E; inversion E; subst;
    (split; [apply (swept_issued (normalize (Js.str (sb_email b))) SIGNUP None
                      (Some (signup_data b))) | eauto 6]).
Qed.

End Outcomes.

(** ** Requests, by their routes *)

Lemma otp_request_sweeps ext env req email type db :
  issued_key req = Some (email, type) -> complete req ->
  swept env email type db (db_after ext env req db).
Proof.
  intros K C. unfold db_after, serve.
  destruct req as [[b|] | | [b|] | | | | | | | | [b|]]; cbn in K; try discriminate;
    inversion K; subst; clear K; cbn [app]; cbn in C.
  - destruct C as (N & Em & D).
    destruct (signup env (Some b) _) as [st r] eqn:E.
    destruct (signup_outcomes env b db st r N Em D E) as (Sw & resp & -> & _).
    exact Sw.
  - unfold signin. rewrite C.
    destruct (issue_signin_otp _ _ _ _ _) as [st r] eqn:E.
    destruct (issue_signin_otp_outcomes env _ _ _ db st r E) as (Sw & resp & -> & _).
    exact Sw.
  - unfold signin_resend. rewrite C.
    destruct (issue_signin_otp _ _ _ _ _) as [st r] eqn:E.
    destruct (issue_signin_otp_outcomes env _ _ _ db st r E) as (Sw & resp & -> & _).
    exact Sw.
Qed.

Lemma signin_request_status ext env req email db :
  issued_key req = Some (email, SIGNIN) -> complete req ->
  users_ready db ->
  match find (fun x => String.eqb (user_email x) email) (users db) with
  | None => response_of ext env req db = json (JError "User not found") 404
  | Some _ =>
      status (response_of ext env req db) = 200
      \/ status (response_of ext env req db) = 500
  end.
Proof.
  intros K C Rd. unfold response_of, serve.
  destruct req as [[b|] | | [b|] | | | | | | | | [b|]]; cbn in K; try discriminate;
    inversion K; subst; clear K; cbn [app]; cbn in C.
  - unfold signin. rewrite C.
    destruct (issue_signin_otp _ _ _ _ _) as [st r] eqn:E.
    destruct (issue_signin_otp_outcomes env _ _ _ db st r E) as (_ & resp & -> & O).
    destruct (find _ (users db)) as [u|] eqn:F; [ | now subst resp].
    apply find_some in F. destruct (Rd u (proj1 F)) as [V A].
    rewrite V, A in O. cbn in O. destruct O as [-> | ->]; cbn; auto.
  - unfold signin_resend. rewrite C.
    destruct (issue_signin_otp _ _ _ _ _) as [st r] eqn:E.
    destruct (issue_signin_otp_outcomes env _ _ _ db st r E) as (_ & resp & -> & O).
    destruct (find _ (users db)) as [u|] eqn:F; [ | now subst resp].
    apply find_some in F. destruct (Rd u (proj1 F)) as [V A].
    rewrite V, A in O. cbn in O. destruct O as [-> | ->]; cbn; auto.
Qed.

(** ** The mail that fails *)

Lemma generateOTP_mail_fails env : generateOTP (mail_fails env) = generateOTP env.
Proof. reflexivity. Qed.

Lemma issue_signin_otp_mail_fails env email sent failed db st r :
  issue_signin_otp env email sent failed {| st_db := db; st_log := [] |} = (st, Ok r) ->
  status r = 200 ->
  issue_signin_otp (mail_fails env) email sent failed {| st_db := db; st_log := [] |}
  = (st, Ok (json (JError failed) 500)).
Proof.
  unfold issue_signin_otp, cleanupExpiredOtps, user_findUnique, otp_deleteMany,
    otp_create, sendOTPEmail. cbv zeta. rewrite generateOTP_mail_fails.
  cbn [mail_fails now fresh_otp_id email_ok]. unfold_h. simp_db.
  destruct (find _ (users db)) as [u|] eqn:F; unfold_h;
    [ | intros E S; inversion E; subst; cbn in S; discriminate].
  destruct (user_verified u) eqn:V; cbn [negb]; unfold_h;
    [ | intros E S; inversion E; subst; cbn in S; discriminate].
  destruct (user_isActive u) eqn:A; cbn [negb]; unfold_h;
    [ | intros E S; inversion E; subst; cbn in S; discriminate].
  simp_db.
  destruct (existsb _ _); unfold_h;
    [intros E S; inversion E; subst; cbn in S; discriminate | ].
  destruct (negb _); unfold_h;
    [intros E S; inversion E; subst; cbn in S; discriminate | ].
  destruct (email_ok env) eqn:M; unfold_h;
    [ | intros E S; inversion E; subst; cbn in S; discriminate].
  intros E S. inversion E; subst. reflexivity.
Qed.

Lemma signup_mail_fails env b db st r :
  signup env (Some b) {| st_db := db; st_log := [] |} = (st, Ok r) ->
  status r = 200 ->
  signup (mail_fails env) (Some b) {| st_db := db; st_log := [] |}
  = (st, Ok (json (JError "Signup failed. Please try again.") 500)).
Proof.
  unfold signup, cleanupExpiredOtps, user_findUnique, otp_deleteMany,
    otp_create, sendOTPEmail. cbv zeta. rewrite generateOTP_mail_fails.
  cbn [mail_fails now fresh_otp_id email_ok].
  destruct (Js.falsy (sb_name b) || Js.falsy (sb_email b) || Js.falsy (sb_dateOfBirth b));
    [intros E S; inversion E; subst; cbn in S; discriminate | ].
  unfold_h. simp_db.
  destruct (find _ (users db)) as [u|] eqn:F; unfold_h;
    [intros E S; inversion E; subst; cbn in S; discriminate | ].
  simp_db.
  destruct (existsb _ _); unfold_h;
    [intros E S; inversion E; subst; cbn in S; discriminate | ].
  cbn [fk_user negb]. unfold_h.
  destruct (email_ok env) eqn:M; unfold_h;
    [ | intros E S; inversion E; subst; cbn in S; discriminate].
  intros E S. inversion E; subst. reflexivity.
Qed.

(** ** The attempt limit, in tables without attempts *)

Section NoAttempts.
Variable ext : Ext.
Variable env : Env.

Ltac other R := subst R; cbn; intros X; discriminate X.

Lemma signup_verify_not_limited hdr bd db :
  otps_fresh db ->
  body (response_of ext env (POST_signup_verify hdr bd) db)
  <> JError "Too many attempts. Please request a new OTP.".
Proof.
  intros Fr. unfold response_of.
  remember (serve ext env (POST_signup_verify hdr bd) db) as R eqn:ER.
  unfold serve, app, signup_verify, otp_findFirst in ER. cbv zeta in ER.
  destruct bd as [b|]; [ | other R].
  destruct (Js.falsy (vb_email b) || Js.falsy (vb_otp b)); [other R | ].
  unfold_h.
  destruct (find _ (otps db)) as [o|] eqn:F; unfold_h; [ | other R].
  rewrite (proj1 (Fr o (proj1 (find_some _ _ F)))) in ER.
  cbn [Z.leb Z.compare] in ER. unfold_h.
  destruct (otp_signupData o) as [sd|]; unfold_h; [ | other R].
  destruct (transaction _ _) as [st1 [u|x]]; unfold_h; [ | other R].
  destruct (session_create _ _ _ _ _ _ _) as [st2 [s|x]]; unfold_h; other R.
Qed.

Lemma signin_verify_not_limited hdr bd db :
  otps_fresh db ->
  body (response_of ext env (POST_signin_verify hdr bd) db)
  <> JError "Too many attempts. Please request a new OTP.".
Proof.
  intros Fr. unfold response_of.
  remember (serve ext env (POST_signin_verify hdr bd) db) as R eqn:ER.
  unfold serve, app, signin_verify, otp_findFirst_include_user in ER.
  cbv zeta in ER.
  destruct bd as [b|]; [ | other R].
  destruct (Js.falsy (vb_email b) || Js.falsy (vb_otp b)); [other R | ].
  unfold_h.
  destruct (find _ (otps db)) as [o|] eqn:F; unfold_h; [ | other R].
  rewrite (proj1 (Fr o (proj1 (find_some _ _ F)))) in ER.
  destruct (otp_user db o) as [u|]; unfold_h.
  - cbn [Z.leb Z.compare] in ER. unfold_h.
    destruct (otp_update _ _ _) as [st1 [u1|x]]; unfold_h; [ | other R].
    destruct (session_create _ _ _ _ _ _ _) as [st2 [s|x]]; unfold_h; other R.
  - destruct (otp_update _ _ _) as [st1 [u1|x]]; unfold_h; other R.
Qed.

End NoAttempts.

(** ** Normalizing an address *)

Lemma lower_char_twice c : Js.lower_char (Js.lower_char c) = Js.lower_char c.
Proof. destruct c as [[] [] [] [] [] [] [] []]; reflexivity. Qed.

Lemma is_space_lower_char c : Js.is_space (Js.lower_char c) = Js.is_space c.
Proof. destruct c as [[] [] [] [] [] [] [] []]; reflexivity. Qed.

Lemma toLowerCase_twice s : Js.toLowerCase (Js.toLowerCase s) = Js.toLowerCase s.
Proof.
  induction s as [|c r IH]; cbn; [reflexivity | ].
  now rewrite lower_char_twice, IH.
Qed.

Lemma trimStart_toLowerCase s :
  Js.trimStart (Js.toLowerCase s) = Js.toLowerCase (Js.trimStart s).
Proof.
  induction s as [|c r IH]; cbn; [reflexivity | ].
  rewrite is_space_lower_char. now destruct (Js.is_space c).
Qed.

Lemma trimEnd_toLowerCase s :
  Js.trimEnd (Js.toLowerCase s) = Js.toLowerCase (Js.trimEnd s).
Proof.
  induction s as [|c r IH]; cbn; [reflexivity | ].
  rewrite IH, is_space_lower_char.
  destruct (Js.trimEnd r); cbn; [now destruct (Js.is_space c) | reflexivity].
Qed.

Lemma trimEnd_twice s : Js.trimEnd (Js.trimEnd s) = Js.trimEnd s.
Proof.
  induction s as [|c r IH]; cbn; [reflexivity | ].
  destruct (Js.trimEnd r) as [|c' r'] eqn:E.
  - destruct (Js.is_space c) eqn:Sp; cbn; [reflexivity | now rewrite Sp].
  - cbn [Js.trimEnd]. fold Js.trimEnd. cbn [Js.trimEnd] in IH. now rewrite IH.
Qed.

Lemma trimStart_trimEnd_trimStart s :
  Js.trimStart (Js.trimEnd (Js.trimStart s)) = Js.trimEnd (Js.trimStart s).
Proof.
  induction s as [|c r IH]; cbn; [reflexivity | ].
  destruct (Js.is_space c) eqn:Sp; [exact IH | ].
  cbn. destruct (Js.trimEnd r); rewrite ?Sp; cbn; rewrite ?Sp; reflexivity.
Qed.

Lemma trim_twice s : Js.trim (Js.trim s) = Js.trim s.
Proof.
  unfold Js.trim. now rewrite trimStart_trimEnd_trimStart, trimEnd_twice.
Qed.

Lemma trim_toLowerCase s : Js.trim (Js.toLowerCase s) = Js.toLowerCase (Js.trim s).
Proof. unfold Js.trim. now rewrite trimStart_toLowerCase, trimEnd_toLowerCase. Qed.

Lemma normalize_twice e : normalize (normalize e) = normalize e.
Proof.
  unfold normalize. now rewrite <- trim_toLowerCase, toLowerCase_twice, trim_twice.
Qed.

Lemma normalize_trimmed_lowered e :
  normalize (Js.toLowerCase (Js.trim e)) = normalize e.
Proof.
  unfold normalize. now rewrite toLowerCase_twice, <- trim_toLowerCase, trim_twice.
Qed.

(** * Further properties: statements *)

(** ** The middleware *)

(** X1.  [authMiddleware] hands a request over to its route handler as user
    [u] exactly when the request has an [Authorization] header that starts
    with "Bearer ", the rest of the header verifies as a session token of
    [u], and the sessions table holds a row with that token that is active
    and has not expired; the handler then runs on the unchanged tables with
    one [session.findFirst] on the log. *)
Theorem middleware_lets_through_live_sessions_only ext env hdr db u :
  authenticated_as ext env hdr db u
  <-> exists h s,
        h_authorization hdr = Some h
        /\ Js.startsWith h "Bearer " = true
        /\ verifyToken ext env (Js.substring h 7) = Some u
        /\ In s (sessions db)
        /\ session_token s = Js.substring h 7
        /\ session_isActive s = true
        /\ now env < session_expiresAt s.
Proof.
  rewrite authenticated_iff. split.
  - intros (h & s & A & P & V & Hin & Sv). exists h, s.
    unfold session_valid in Sv.
    apply andb_prop in Sv. destruct Sv as [Sv L].
    apply andb_prop in Sv. destruct Sv as [T Act].
    apply String.eqb_eq in T. apply Z.ltb_lt in L. auto 10.
  - intros (h & s & A & P & V & Hin & T & Act & L). exists h, s.
    unfold session_valid. rewrite T, String.eqb_refl, Act.
    apply Z.ltb_lt in L. rewrite L. auto.
Qed.

Lemma sample_no_headers_unauthenticated ext env db u :
  ~ authenticated_as ext env Sample.no_headers db u.
Proof.
  intros A. apply authenticated_iff in A.
  destruct A as (h & s & A & _). discriminate A.
Qed.

(** X2.  A request to one of the four notes routes that the middleware does
    not let through is answered 401 with an error body; the tables are left
    as they were, the route handler is not run, and the only Prisma call, if
    any, is the middleware's session lookup. *)
Theorem unauthenticated_notes_request_is_refused ext env req hdr db :
  notes_request req = Some hdr ->
  (forall u, ~ authenticated_as ext env hdr db u) ->
  status (response_of ext env req db) = 401
  /\ is_error (response_of ext env req db)
  /\ db_after ext env req db = db
  /\ (calls_of ext env req db = []
      \/ calls_of ext env req db = [Call SessionFindFirst]).
Proof.
  intros R N.
  destruct (refused_or_authenticated ext env req hdr db R) as [[u A] | (log & msg & E & L)].
  - destruct (N u A).
  - unfold response_of, db_after, calls_of. rewrite E. cbn.
    repeat split; auto.
Qed.

Lemma unauthenticated_notes_request_is_refused_witness :
  status (response_of Sample.ext (Sample.env 1000 "1")
            (POST_notes Sample.no_headers (Some Tour.hello)) Sample.db) = 401
  /\ db_after Sample.ext (Sample.env 1000 "1")
       (POST_notes Sample.no_headers (Some Tour.hello)) Sample.db = Sample.db.
Proof.
  pose proof (unauthenticated_notes_request_is_refused Sample.ext (Sample.env 1000 "1")
                (POST_notes Sample.no_headers (Some Tour.hello)) Sample.no_headers
                Sample.db eq_refl
                (sample_no_headers_unauthenticated _ _ _)) as H.
  split; [exact (proj1 H) | exact (proj1 (proj2 (proj2 H)))].
Defined.

(** ** Notes of the signed-in user *)

(** X3.  [POST /api/notes] answered 200 has stored one note: the body had a
    title, the note carries the trimmed title and content, the requester as
    owner and the time of the request as [createdAt] and [updatedAt]; it is
    appended to the notes table and returned in the response.  From then
    on [GET /api/notes] lists it for its owner and for nobody else. *)
Theorem created_note_is_listed_for_its_owner ext env env' hdr hdr' body db u :
  authenticated_as ext env hdr db u ->
  status (response_of ext env (POST_notes hdr body) db) = 200 ->
  exists b,
    body = Some b
    /\ response_of ext env (POST_notes hdr body) db
       = json_ok (JNote "Note created successfully" (new_note env u b))
    /\ notes (db_after ext env (POST_notes hdr body) db)
       = notes db ++ [new_note env u b]
    /\ note_title (new_note env u b) <> ""
    /\ forall v,
         authenticated_as ext env' hdr' (db_after ext env (POST_notes hdr body) db) v ->
         exists l,
           response_of ext env' (GET_notes hdr')
             (db_after ext env (POST_notes hdr body) db) = json_ok (JNotes l)
           /\ (In (new_note env u b) l <-> v = u).
Proof.
  intros A S.
  destruct (create_note_success ext env hdr db u body A S) as (b & B & T & Tn & E).
  exists b. unfold response_of, db_after. rewrite E. cbn [fst snd].
  split; [exact B | ]. split; [reflexivity | ]. split; [reflexivity | ].
  split; [exact Tn | ].
  intros v Av. rewrite (get_notes_served _ _ _ _ _ Av). cbn [snd].
  eexists. split; [reflexivity | ].
  split.
  - intros Hin. apply (Permutation_in _ (orderBy_createdAt_desc_perm _)) in Hin.
    apply filter_In in Hin. destruct Hin as [_ X]. cbn in X.
    apply String.eqb_eq in X. now symmetry.
  - intros ->.
    apply (Permutation_in _ (Permutation_sym (orderBy_createdAt_desc_perm _))).
    apply filter_In. split.
    + cbn [notes set_notes]. apply in_or_app. right. now left.
    + cbn. apply String.eqb_refl.
Qed.

(** Ann stores a note and reads her list again. *)
Lemma created_note_is_listed_for_its_owner_witness :
  authenticated_as Sample.ext (Sample.env 1000 "1") Tour.ann_hdr Sample.db "ann"
  /\ status (response_of Sample.ext (Sample.env 1000 "1")
               (POST_notes Tour.ann_hdr (Some Tour.hello)) Sample.db) = 200
  /\ exists b,
       Some Tour.hello = Some b
       /\ notes (db_after Sample.ext (Sample.env 1000 "1")
                   (POST_notes Tour.ann_hdr (Some Tour.hello)) Sample.db)
          = notes Sample.db ++ [new_note (Sample.env 1000 "1") "ann" b].
Proof.
  split; [exact sample_ann_authenticated | ].
  split; [reflexivity | ].
  destruct (created_note_is_listed_for_its_owner Sample.ext (Sample.env 1000 "1")
              (Sample.env 2000 "2") Tour.ann_hdr Tour.ann_hdr (Some Tour.hello)
              Sample.db "ann" sample_ann_authenticated eq_refl)
    as (b & B & _ & N & _).
  exists b. split; [exact B | exact N].
Defined.

(** X4.  [POST /api/notes] needs a title: a body whose title is missing,
    empty or only white space is answered 400 "Title is required"; and
    whenever the answer is not 200, whatever the body, no table has
    changed. *)
Theorem note_without_title_is_rejected ext env hdr body db u :
  authenticated_as ext env hdr db u ->
  (forall b, body = Some b ->
     Js.falsy (nb_title b) = true \/ Js.trim (Js.str (nb_title b)) = "" ->
     response_of ext env (POST_notes hdr body) db
     = json (JError "Title is required") 400)
  /\ (status (response_of ext env (POST_notes hdr body) db) <> 200 ->
      db_after ext env (POST_notes hdr body) db = db).
Proof.
  intros A. split.
  - intros b -> T. unfold response_of.
    now rewrite (create_note_blank_title ext env hdr db u b A T).
  - apply (create_note_refused ext env hdr db u body A).
Qed.

Lemma note_without_title_is_rejected_witness :
  authenticated_as Sample.ext (Sample.env 1000 "1") Tour.ann_hdr Sample.db "ann"
  /\ response_of Sample.ext (Sample.env 1000 "1")
       (POST_notes Tour.ann_hdr (Some Tour.blank)) Sample.db
     = json (JError "Title is required") 400.
Proof.
  split; [exact sample_ann_authenticated | ].
  apply (proj1 (note_without_title_is_rejected Sample.ext (Sample.env 1000 "1")
                  Tour.ann_hdr (Some Tour.blank) Sample.db "ann"
                  sample_ann_authenticated) Tour.blank eq_refl).
  right. reflexivity.
Defined.

Lemma map_id_update (id : string) (f : Note -> Note) l :
  (forall x, note_id (f x) = note_id x) ->
  map note_id (map (fun x => if String.eqb (note_id x) id then f x else x) l)
  = map note_id l.
Proof.
  intros Hf. rewrite map_map. apply map_ext. intros x.
  destruct (String.eqb (note_id x) id); [apply Hf | reflexivity].
Qed.

(** X5.  [PUT /api/notes/:id] by the owner of the note, with a title or a
    content in the body, answers 200 with the updated note.  The note keeps
    its id, owner and [createdAt]; [updatedAt] becomes the time of the
    request; a field the body gives is stored trimmed (so a title of white
    space only is stored as the empty string: unlike creation, the update
    does not ask for a non-blank title), a field it does not give is kept.
    Every other note is what it was, and no note is added or removed. *)
Theorem owner_update_rewrites_one_note ext env hdr db u id n b :
  authenticated_as ext env hdr db u ->
  notes_pkey db -> owned_by db id u n ->
  Js.falsy (nb_title b) = false \/ nb_content b <> None ->
  exists n',
    response_of ext env (PUT_notes hdr id (Some b)) db
    = json_ok (JNote "Note updated successfully" n')
    /\ In n' (notes (db_after ext env (PUT_notes hdr id (Some b)) db))
    /\ note_id n' = id /\ note_userId n' = u
    /\ note_createdAt n' = note_createdAt n /\ note_updatedAt n' = now env
    /\ note_title n'
       = (if Js.falsy (nb_title b) then note_title n
          else Js.trim (Js.str (nb_title b)))
    /\ note_content n'
       = match nb_content b with
         | Some c => Js.trim c
         | None => note_content n
         end
    /\ (forall x, note_id x <> id ->
          (In x (notes (db_after ext env (PUT_notes hdr id (Some b)) db))
           <-> In x (notes db)))
    /\ map note_id (notes (db_after ext env (PUT_notes hdr id (Some b)) db))
       = map note_id (notes db).
Proof.
  intros A K O G.
  pose proof (update_note_owned ext env hdr db u id n b A K O G) as E.
  destruct O as (Hin & I & U).
  exists (note_apply (title_update b) (content_update b) (now env) n).
  unfold response_of, db_after. rewrite E. cbn [fst snd notes set_notes].
  split; [reflexivity | ]. split.
  { apply in_map_iff. exists n. rewrite I, String.eqb_refl. auto. }
  split; [exact I | ]. split; [exact U | ].
  split; [reflexivity | ]. split; [reflexivity | ]. split.
  { unfold title_update. cbn. now destruct (Js.falsy (nb_title b)). }
  split.
  { unfold content_update. cbn. now destruct (nb_content b). }
  split.
  - intros x Nx. rewrite in_map_iff. split.
    + intros (y & Ey & Hy). destruct (String.eqb_spec (note_id y) id) as [Iy|Iy].
      * subst x. cbn in Nx. contradiction.
      * now subst x.
    + intros Hx. exists x. apply String.eqb_neq in Nx. rewrite Nx. auto.
  - now apply map_id_update.
Qed.

Lemma sample_ann_owns : owned_by Sample.db "n-ann" "ann" Sample.ann_note.
Proof. repeat split. cbn. auto. Qed.

(** Ann renames her note. *)
Lemma owner_update_rewrites_one_note_witness :
  authenticated_as Sample.ext (Sample.env 1000 "1") Tour.ann_hdr Sample.db "ann"
  /\ notes_pkey Sample.db
  /\ owned_by Sample.db "n-ann" "ann" Sample.ann_note
  /\ exists n',
       response_of Sample.ext (Sample.env 1000 "1")
         (PUT_notes Tour.ann_hdr "n-ann" (Some Tour.retitle)) Sample.db
       = json_ok (JNote "Note updated successfully" n')
       /\ note_updatedAt n' = 1000.
Proof.
  split; [exact sample_ann_authenticated | ].
  split; [exact sample_notes_pkey | ].
  split; [exact sample_ann_owns | ].
  destruct (owner_update_rewrites_one_note Sample.ext (Sample.env 1000 "1")
              Tour.ann_hdr Sample.db "ann" "n-ann" Sample.ann_note Tour.retitle
              sample_ann_authenticated sample_notes_pkey sample_ann_owns
              (or_introl eq_refl))
    as (n' & R & _ & _ & _ & _ & T & _).
  exists n'. split; [exact R | exact T].
Defined.

(** X6.  [DELETE /api/notes/:id] by the owner of the note answers 200 and
    removes that note and no other.  The same request once more, still
    authenticated, is answered 404 "Note not found" and changes nothing. *)
Theorem owner_delete_removes_one_note ext env env' hdr db u id n :
  authenticated_as ext env hdr db u ->
  notes_pkey db -> owned_by db id u n ->
  response_of ext env (DELETE_notes hdr id) db
  = json_ok (JMessage "Note deleted successfully")
  /\ (forall x, In x (notes (db_after ext env (DELETE_notes hdr id) db))
                <-> In x (notes db) /\ x <> n)
  /\ (authenticated_as ext env' hdr (db_after ext env (DELETE_notes hdr id) db) u ->
      response_of ext env' (DELETE_notes hdr id)
        (db_after ext env (DELETE_notes hdr id) db)
      = json (JError "Note not found") 404
      /\ db_after ext env' (DELETE_notes hdr id)
           (db_after ext env (DELETE_notes hdr id) db)
         = db_after ext env (DELETE_notes hdr id) db).
Proof.
  intros A K O.
  pose proof (delete_note_owned ext env hdr db u id n A K O) as E.
  destruct O as (Hin & I & U).
  assert (D : db_after ext env (DELETE_notes hdr id) db
              = set_notes db (filter (fun x => negb (String.eqb (note_id x) id))
                                (notes db))).
  { unfold db_after. now rewrite E. }
  rewrite D. unfold response_of at 1. rewrite E. cbn [snd].
  split; [reflexivity | ]. split.
  - intros x. cbn [notes set_notes]. rewrite filter_In. split.
    + intros [Hx Nx]. split; [exact Hx | ]. intros ->.
      rewrite I, String.eqb_refl in Nx. discriminate.
    + intros [Hx Nx]. split; [exact Hx | ].
      destruct (String.eqb_spec (note_id x) id) as [Ix|Ix]; [ | reflexivity].
      exfalso. apply Nx.
      apply (NoDup_map_inj _ _ note_id (notes db)); auto. congruence.
  - intros A'.
    assert (G : forall x, In x (notes (set_notes db
                  (filter (fun x => negb (String.eqb (note_id x) id)) (notes db)))) ->
                note_id x <> id).
    { intros x Hx. cbn [notes set_notes] in Hx. apply filter_In in Hx.
      destruct Hx as [_ Nx]. intros Ix. rewrite Ix, String.eqb_refl in Nx.
      discriminate. }
    pose proof (note_gone_is_404 ext env' hdr _ u id A' G) as E'.
    unfold response_of, db_after. rewrite E'. split; reflexivity.
Qed.

(** Ann deletes her note. *)
Lemma owner_delete_removes_one_note_witness :
  authenticated_as Sample.ext (Sample.env 1000 "1") Tour.ann_hdr Sample.db "ann"
  /\ notes_pkey Sample.db
  /\ owned_by Sample.db "n-ann" "ann" Sample.ann_note
  /\ response_of Sample.ext (Sample.env 1000 "1")
       (DELETE_notes Tour.ann_hdr "n-ann") Sample.db
     = json_ok (JMessage "Note deleted successfully").
Proof.
  split; [exact sample_ann_authenticated | ].
  split; [exact sample_notes_pkey | ].
  split; [exact sample_ann_owns | ].
  exact (proj1 (owner_delete_removes_one_note Sample.ext (Sample.env 1000 "1")
                  (Sample.env 2000 "2") Tour.ann_hdr Sample.db "ann" "n-ann"
                  Sample.ann_note sample_ann_authenticated sample_notes_pkey
                  sample_ann_owns)).
Defined.

(** X7.  [GET /api/notes] answers 200 with the requester's notes ordered by
    [createdAt], newest first: in the list no note is followed by a more
    recent one.  The request changes no table. *)
Theorem notes_are_listed_newest_first ext env hdr db u :
  authenticated_as ext env hdr db u ->
  exists l,
    response_of ext env (GET_notes hdr) db = json_ok (JNotes l)
    /\ newest_first l
    /\ Permutation l (filter (fun n => String.eqb (note_userId n) u) (notes db))
    /\ db_after ext env (GET_notes hdr) db = db.
Proof.
  intros A. unfold response_of, db_after. rewrite (get_notes_served _ _ _ _ _ A).
  cbn [fst snd]. eexists. split; [reflexivity | ].
  split; [apply orderBy_createdAt_desc_newest_first | ].
  split; [apply orderBy_createdAt_desc_perm | reflexivity].
Qed.

Lemma notes_are_listed_newest_first_witness :
  authenticated_as Sample.ext (Sample.env 1000 "1") Tour.ann_hdr Sample.db "ann"
  /\ exists l,
       response_of Sample.ext (Sample.env 1000 "1") (GET_notes Tour.ann_hdr) Sample.db
       = json_ok (JNotes l)
       /\ newest_first l.
Proof.
  split; [exact sample_ann_authenticated | ].
  destruct (notes_are_listed_newest_first Sample.ext (Sample.env 1000 "1")
              Tour.ann_hdr Sample.db "ann" sample_ann_authenticated)
    as (l & R & N & _).
  exists l. split; [exact R | exact N].
Defined.

(** ** Signing in *)

Lemma sample_users_keys : users_keys Sample.db.
Proof.
  split; cbn; repeat constructor; cbn; intuition discriminate.
Qed.

(** X8.  The code sent by [POST /api/signin] or [POST /api/signin/resend]
    signs its user in: when the request was answered 200, a
    [POST /api/signin/verify] made less than ten minutes later with an
    e-mail that normalizes to the same address and with the code that was
    generated (white space around it is ignored) is answered 200 with the
    view of the account registered for that address and a token for it.
    Stated for tables in which user ids and e-mails are unique, and for a
    session id and token not yet in the sessions table. *)
Theorem issued_code_signs_in ext env1 env2 req email hdr v db :
  users_keys db ->
  issued_key req = Some (email, SIGNIN) ->
  status (response_of ext env1 req db) = 200 ->
  Js.falsy (vb_email v) = false ->
  normalize (Js.str (vb_email v)) = email ->
  Js.trim (Js.str (vb_otp v)) = generateOTP env1 ->
  now env2 < now env1 + minutes 10 ->
  (forall u, registered db email u -> session_is_fresh ext env2 db (user_id u)) ->
  exists u,
    registered db email u
    /\ response_of ext env2 (POST_signin_verify hdr (Some v))
         (db_after ext env1 req db)
       = json_ok (JAuth "Signed in successfully" (view u)
                    (generateToken ext env2 (user_id u))).
Proof.
  intros UK K S Em N C L Fr.
  destruct (signin_code_issued ext env1 req email db K S) as (u & F & D).
  pose proof (find_email_registered _ _ _ F) as Reg.
  exists u. split; [exact Reg | ].
  rewrite D. unfold response_of.
  rewrite (signin_verified ext env2 hdr v _
             (new_otp env1 email SIGNIN (Some (user_id u)) None) u).
  - reflexivity.
  - exact Em.
  - apply (code_given v (generateOTP env1)); [ | exact C].
    apply (generateOTP_digits env1).
  - now apply matched_after_issue.
  - unfold otp_user. cbn [otp_userId new_otp issued users set_otps].
    apply find_user_by_id; [exact UK | apply Reg].
  - cbn. lia.
  - exact (Fr u Reg).
Qed.

(** Ann asks for a code and presents it a second later. *)
Lemma issued_code_signs_in_witness :
  users_keys Sample.db
  /\ status (response_of Sample.ext (Sample.env 1000 "1") Sample.signin_ann Sample.db)
     = 200
  /\ exists u,
       registered Sample.db "ann@example.com" u
       /\ response_of Sample.ext (Sample.env 2000 "2")
            (POST_signin_verify Sample.no_headers (Some Tour.ann_code)) Tour.db_signin
          = json_ok (JAuth "Signed in successfully" (view u)
                       (generateToken Sample.ext (Sample.env 2000 "2") (user_id u))).
Proof.
  split; [exact sample_users_keys | ].
  split; [reflexivity | ].
  apply (issued_code_signs_in Sample.ext (Sample.env 1000 "1") (Sample.env 2000 "2")
           Sample.signin_ann "ann@example.com" Sample.no_headers Tour.ann_code
           Sample.db sample_users_keys eq_refl eq_refl eq_refl eq_refl eq_refl).
  - reflexivity.
  - intros u [[<-|[<-|[]]] E]; [reflexivity | discriminate E].
Defined.

(** X9.  The token returned by [POST /api/signin/verify] is a session: a
    request to a notes route that bears it is let through by the middleware
    as the user in the response for as long as the session has not expired
    (24 hours, or 30 days with [keepLoggedIn]) and the token verifies; from
    the moment of expiry on it is answered 401 and changes nothing. *)
Theorem signin_token_opens_the_notes ext env env' hdr hdr' body db msg uv token :
  response_of ext env (POST_signin_verify hdr body) db
  = json_ok (JAuth msg uv token) ->
  bears hdr' token ->
  exists b,
    body = Some b
    /\ (now env' < (if keep_logged_in b then now env + days 30 else now env + hours 24) ->
        verifyToken ext env' token = Some (uv_id uv) ->
        authenticated_as ext env' hdr'
          (db_after ext env (POST_signin_verify hdr body) db) (uv_id uv))
    /\ ((if keep_logged_in b then now env + days 30 else now env + hours 24) <= now env' ->
        forall req, notes_request req = Some hdr' ->
          status (response_of ext env' req
                    (db_after ext env (POST_signin_verify hdr body) db)) = 401
          /\ db_after ext env' req (db_after ext env (POST_signin_verify hdr body) db)
             = db_after ext env (POST_signin_verify hdr body) db).
Proof.
  intros R B.
  assert (S : status (response_of ext env (POST_signin_verify hdr body) db) = 200)
    by now rewrite R.
  destruct (signin_verify_facts ext env hdr body db S)
    as (b & o & u & -> & Em & C & F & U & A & Fr).
  pose proof (signin_verified ext env hdr b db o u Em C F U A Fr) as E.
  unfold response_of in R. rewrite E in R. cbn [snd] in R.
  unfold json_ok, json in R. injection R as _ Euv Et.
  subst uv token. cbn [uv_id view].
  exists b. split; [reflexivity | ].
  apply (new_session_round_trip ext env env' hdr hdr' db); auto.
  unfold db_after. rewrite E. reflexivity.
Qed.

(** Ann signs in at second 1 and opens her notes at second 5. *)
Lemma signin_token_opens_the_notes_witness :
  response_of Sample.ext (Sample.env 1000 "1") Sample.verify_ann (Sample.db_otps 0)
  = json_ok (JAuth "Signed in successfully" (view Sample.ann) "session:ann@1")
  /\ authenticated_as Sample.ext (Sample.env 5000 "3") (Sample.bearer "session:ann@1")
       (db_after Sample.ext (Sample.env 1000 "1") Sample.verify_ann (Sample.db_otps 0))
       "ann".
Proof.
  split; [reflexivity | ].
  destruct (signin_token_opens_the_notes Sample.ext (Sample.env 1000 "1")
              (Sample.env 5000 "3") Sample.no_headers (Sample.bearer "session:ann@1")
              (Sample.verify_body "ann@example.com" "123456") (Sample.db_otps 0)
              "Signed in successfully" (view Sample.ann) "session:ann@1"
              eq_refl eq_refl)
    as (b & B & Y & _).
  apply Y; [ | reflexivity].
  injection B as <-. reflexivity.
Defined.

(** X10.  A code lives ten minutes: once [POST /api/signup],
    [POST /api/signin] or [POST /api/signin/resend] has been answered 200,
    a verification request of that flow for the same address made ten
    minutes after the issuing request or later is answered 400, whatever
    code it carries, and changes no table. *)
Theorem codes_lapse_after_ten_minutes ext env1 env2 req email type hdr v db :
  issued_key req = Some (email, type) ->
  status (response_of ext env1 req db) = 200 ->
  normalize (Js.str (vb_email v)) = email ->
  now env1 + minutes 10 <= now env2 ->
  status (response_of ext env2 (verify_request type hdr (Some v))
            (db_after ext env1 req db)) = 400
  /\ is_error (response_of ext env2 (verify_request type hdr (Some v))
                 (db_after ext env1 req db))
  /\ db_after ext env2 (verify_request type hdr (Some v)) (db_after ext env1 req db)
     = db_after ext env1 req db.
Proof.
  intros K S N L.
  destruct (code_issued ext env1 req email type db K S) as (uid & sd & D).
  rewrite D.
  pose proof (unmatched_after_expiry env1 env2 v db email type uid sd N L) as U.
  assert (T : type = SIGNUP \/ type = SIGNIN).
  { destruct req as [[b|] | | [b|] | | | | | | | | [b|]]; cbn in K;
      try discriminate; inversion K; auto. }
  destruct T as [-> | ->]; cbn [verify_request].
  - destruct (proj1 (unmatched_verification_writes_nothing ext env2 hdr v _) U)
      as [Dn St].
    split; [exact St | ]. split; [ | exact Dn].
    destruct (signup_verify_runs ext env2 hdr (Some v)
                (issued env1 db email SIGNUP uid sd))
      as [(log & msg & code & E & C) | (b' & o & sd' & dob & B & F & _)].
    + unfold response_of. rewrite E. exact Logic.I.
    + inversion B; subst. congruence.
  - destruct (proj2 (unmatched_verification_writes_nothing ext env2 hdr v _) U)
      as [Dn St].
    split; [exact St | ]. split; [ | exact Dn].
    destruct (signin_verify_runs ext env2 hdr (Some v)
                (issued env1 db email SIGNIN uid sd))
      as [(log & msg & E) | (b' & o & B & F & _)].
    + unfold response_of. rewrite E. exact Logic.I.
    + inversion B; subst. congruence.
Qed.

(** Ann presents her code ten minutes after asking for it. *)
Lemma codes_lapse_after_ten_minutes_witness :
  status (response_of Sample.ext (Sample.env 1000 "1") Sample.signin_ann Sample.db)
  = 200
  /\ status (response_of Sample.ext (Sample.env 601000 "2")
               (verify_request SIGNIN Sample.no_headers (Some Tour.ann_code))
               (db_after Sample.ext (Sample.env 1000 "1") Sample.signin_ann Sample.db))
     = 400.
Proof.
  split; [reflexivity | ].
  assert (L : now (Sample.env 1000 "1") + minutes 10 <= now (Sample.env 601000 "2"))
    by (cbn; lia).
  exact (proj1 (codes_lapse_after_ten_minutes Sample.ext (Sample.env 1000 "1")
                  (Sample.env 601000 "2") Sample.signin_ann "ann@example.com" SIGNIN
                  Sample.no_headers Tour.ann_code Sample.db eq_refl eq_refl eq_refl L)).
Defined.

(** ** Signing up *)

(** X11.  Sign-up end to end.  When [POST /api/signup] has been answered
    200, a [POST /api/signup/verify] made less than ten minutes later with
    an e-mail that normalizes to the same address and with the generated
    code is answered 200 "Account created successfully": it appends to the
    users table one account, verified and active, with the trimmed name, the
    normalized e-mail and the parsed date of birth of the sign-up request,
    and opens one session of 30 days for it.  After that, a
    [POST /api/signup] for the same address is answered 409 "User already
    exists".  Stated for a date of birth that parses and for a user id,
    session id and token not yet in use. *)
Theorem signup_then_verify_creates_the_account
    ext env1 env2 env3 hdr b v b3 dob db :
  status (response_of ext env1 (POST_signup (Some b)) db) = 200 ->
  Js.falsy (vb_email v) = false ->
  normalize (Js.str (vb_email v)) = normalize (Js.str (sb_email b)) ->
  Js.trim (Js.str (vb_otp v)) = generateOTP env1 ->
  now env2 < now env1 + minutes 10 ->
  parse_date ext (Js.str (sb_dateOfBirth b)) = Some dob ->
  user_id_is_fresh env2 db ->
  session_is_fresh ext env2 db (fresh_user_id env2) ->
  let db1 := db_after ext env1 (POST_signup (Some b)) db in
  let db2 := db_after ext env2 (POST_signup_verify hdr (Some v)) db1 in
  let u := {| user_id := fresh_user_id env2;
              user_email := normalize (Js.str (sb_email b));
              user_name := Js.trim (Js.str (sb_name b));
              user_dateOfBirth := dob;
              user_verified := true; user_isActive := true |} in
  response_of ext env2 (POST_signup_verify hdr (Some v)) db1
  = json_ok (JAuth "Account created successfully" (view u)
               (generateToken ext env2 (fresh_user_id env2)))
  /\ users db2 = users db ++ [u]
  /\ sessions db2
     = sessions db ++ [new_session ext env2 hdr (fresh_user_id env2) (now env2 + days 30)]
  /\ (Js.falsy (sb_name b3) = false -> Js.falsy (sb_email b3) = false ->
      Js.falsy (sb_dateOfBirth b3) = false ->
      normalize (Js.str (sb_email b3)) = normalize (Js.str (sb_email b)) ->
      response_of ext env3 (POST_signup (Some b3)) db2
      = json (JError "User already exists") 409).
Proof.
  intros S Em N C L PD Fu Fs db1 db2 u.
  destruct (signup_issued ext env1 b db S) as (_ & _ & _ & F & _ & D).
  assert (E : serve ext env2 (POST_signup_verify hdr (Some v)) db1
              = (set_sessions
                   (otp_updated (set_users db1 (users db1 ++ [u]))
                      (otp_id (new_otp env1 (normalize (Js.str (sb_email b))) SIGNUP None
                                 (Some (signup_data b))))
                      (verified_by (fresh_user_id env2)))
                   (sessions db1 ++
                    [new_session ext env2 hdr (fresh_user_id env2) (now env2 + days 30)]),
                 [Call OtpFindFirst; Transaction [UserCreate; OtpUpdate];
                  Call SessionCreate],
                 json_ok (JAuth "Account created successfully" (view u)
                            (generateToken ext env2 (fresh_user_id env2))))).
  { subst db1. rewrite D.
    apply (signup_verified ext env2 hdr v _ _ (signup_data b) dob).
    - exact Em.
    - apply (code_given v (generateOTP env1)); [ | exact C].
      apply (generateOTP_digits env1).
    - now apply matched_after_issue.
    - cbn. lia.
    - reflexivity.
    - exact PD.
    - exact Fu.
    - exact F.
    - exact Fs. }
  assert (U2 : users db2 = users db ++ [u]).
  { subst db2. unfold db_after. rewrite E. subst db1. rewrite D. reflexivity. }
  split; [unfold response_of; now rewrite E | ].
  split; [exact U2 | ].
  split.
  { subst db2. unfold db_after at 1. rewrite E. subst db1. rewrite D. reflexivity. }
  intros N3 E3 D3 Same.
  assert (F3 : find (fun x => String.eqb (user_email x) (normalize (Js.str (sb_email b3))))
                 (users db2) = Some u).
  { rewrite U2, Same, (find_app_r _ _ _ _ F). cbn.
    now rewrite String.eqb_refl. }
  pose proof (signup_taken env3 b3 db2 u N3 E3 D3 F3) as T.
  unfold response_of, serve. cbn [app]. rewrite T. reflexivity.
Qed.

(** Cy signs up, confirms a second later, and signs up again. *)
Lemma signup_then_verify_creates_the_account_witness :
  status (response_of Sample.ext (Sample.env 1000 "1") Sample.signup_cy Sample.db) = 200
  /\ response_of Sample.ext (Sample.env 3000 "3") (POST_signup (Some Tour.cy_again))
       (db_after Sample.ext (Sample.env 2000 "2")
          (POST_signup_verify Sample.no_headers (Some Tour.cy_code)) Tour.db_signup)
     = json (JError "User already exists") 409.
Proof.
  split; [reflexivity | ].
  apply (signup_then_verify_creates_the_account Sample.ext (Sample.env 1000 "1")
           (Sample.env 2000 "2") (Sample.env 3000 "3") Sample.no_headers
           {| sb_name := Some "Cy"; sb_email := Some "cy@example.com";
              sb_dateOfBirth := Some "2000-01-01" |}
           Tour.cy_code Tour.cy_again 946684800000 Sample.db
           eq_refl eq_refl eq_refl eq_refl);
    reflexivity.
Defined.

(** ** What every request keeps *)

(** X12.  The constraints of the two migrations hold of every state the API
    reaches from the empty tables, and each request keeps them: user ids
    and e-mails, OTP ids, session ids and tokens, and note ids are unique,
    and every session, note and OTP that names a user names an existing
    one. *)
Theorem schema_constraints_are_kept ext :
  db_constraints empty_db
  /\ (forall env req db,
        db_constraints db -> db_constraints (db_after ext env req db))
  /\ forall history, db_constraints (run ext history empty_db).
Proof.
  split; [exact db_constraints_empty | ]. split.
  - intros env req db. apply db_constraints_step.
  - intros history. apply run_db_constraints. exact db_constraints_empty.
Qed.

(** X13.  Every account the API creates is verified and active, and stays
    so.  Hence, in every state reached from the empty tables, a sign-in or
    resend request that carries an e-mail is answered 404 "User not found"
    when no account has the normalized address, and 200 or 500 otherwise:
    the answers 400 "Please complete signup verification first" and 403
    "Account is deactivated" are never given. *)
Theorem accounts_are_verified_and_active ext history env req email :
  issued_key req = Some (email, SIGNIN) -> complete req ->
  users_ready (run ext history empty_db)
  /\ match find (fun x => String.eqb (user_email x) email)
                (users (run ext history empty_db)) with
     | None =>
         response_of ext env req (run ext history empty_db)
         = json (JError "User not found") 404
     | Some _ =>
         status (response_of ext env req (run ext history empty_db)) = 200
         \/ status (response_of ext env req (run ext history empty_db)) = 500
     end.
Proof.
  intros K C.
  assert (R : users_ready (run ext history empty_db)).
  { apply run_users_ready. intros u []. }
  split; [exact R | ].
  now apply signin_request_status.
Qed.

(** Cy signs up and confirms; then Cy, and Ann who has no account, ask to
    sign in. *)
Lemma accounts_are_verified_and_active_witness :
  response_of Sample.ext (Sample.env 3000 "3") Sample.signin_ann
    (run Sample.ext
       [(Sample.env 1000 "1", Sample.signup_cy);
        (Sample.env 2000 "2",
         POST_signup_verify Sample.no_headers (Some Tour.cy_code))] empty_db)
  = json (JError "User not found") 404.
Proof.
  exact (proj2 (accounts_are_verified_and_active Sample.ext
                  [(Sample.env 1000 "1", Sample.signup_cy);
                   (Sample.env 2000 "2",
                    POST_signup_verify Sample.no_headers (Some Tour.cy_code))]
                  (Sample.env 3000 "3") Sample.signin_ann "ann@example.com"
                  eq_refl eq_refl)).
Defined.

(** X14.  No attempt is ever counted: in every state reached from the empty
    tables each OTP row has [attempts = 0] and each sign-in OTP row has its
    user, so the increment of sign-in verification is never run and neither
    verification route ever answers "Too many attempts. Please request a new
    OTP.". *)
Theorem attempts_are_never_counted ext history :
  (forall o, In o (otps (run ext history empty_db)) ->
     otp_attempts o = 0
     /\ (otp_type o = SIGNIN ->
         exists u, otp_user (run ext history empty_db) o = Some u))
  /\ forall env hdr bd,
       body (response_of ext env (POST_signup_verify hdr bd) (run ext history empty_db))
       <> JError "Too many attempts. Please request a new OTP."
       /\ body (response_of ext env (POST_signin_verify hdr bd)
                  (run ext history empty_db))
          <> JError "Too many attempts. Please request a new OTP.".
Proof.
  assert (F : otps_fresh (run ext history empty_db)).
  { apply run_otps_fresh. intros o []. }
  split; [exact F | ].
  intros env hdr bd. split.
  - now apply signup_verify_not_limited.
  - now apply signin_verify_not_limited.
Qed.

(** ** Logging out, again *)

Lemma set_sessions_same db : set_sessions db (sessions db) = db.
Proof. now destruct db. Qed.

(** X15.  [POST /api/logout] asks for no authentication and is idempotent:
    with a non-empty token it answers 200 whether or not a session has that
    token; when none has, no table changes; and the same request once more
    answers 200 again and changes nothing. *)
Theorem logout_is_idempotent ext env env' token db :
  token <> "" ->
  let req := POST_logout (Some {| lb_token := Some token |}) in
  response_of ext env req db = json_ok (JMessage "Logged out successfully")
  /\ (~ In token (map session_token (sessions db)) -> db_after ext env req db = db)
  /\ response_of ext env' req (db_after ext env req db)
     = json_ok (JMessage "Logged out successfully")
  /\ db_after ext env' req (db_after ext env req db) = db_after ext env req db.
Proof.
  intros T req. subst req. unfold response_of, db_after.
  rewrite !(logout_runs _ _ _ _ T). cbn [fst snd].
  split; [reflexivity | ]. split; [ | split; [reflexivity | ]].
  - intros N.
    transitivity (set_sessions db (sessions db)); [ | apply set_sessions_same].
    f_equal.
    transitivity (map (fun s => s) (sessions db)); [ | apply map_id].
    apply map_ext_in. intros s Hin.
    destruct (String.eqb_spec (session_token s) token) as [E|]; [ | reflexivity].
    exfalso. apply N. rewrite <- E. now apply in_map.
  - cbn [sessions set_sessions]. rewrite session_deactivate_twice.
    now destruct db.
Qed.

Lemma logout_is_idempotent_witness :
  response_of Sample.ext (Sample.env 1000 "1")
    (POST_logout (Some {| lb_token := Some "no-such-token" |})) Sample.db
  = json_ok (JMessage "Logged out successfully").
Proof.
  apply (logout_is_idempotent Sample.ext (Sample.env 1000 "1") (Sample.env 2000 "2")
           "no-such-token" Sample.db).
  discriminate.
Defined.

(** ** Requesting a code *)

(** X16.  The OTP row is stored before the mail is sent, and a mail that
    fails does not take it back: a sign-up, sign-in or resend request that
    would be answered 200 is answered 500 when [sendOTPEmail] fails, and
    leaves the tables exactly as the successful request does, the new OTP
    row included. *)
Theorem failed_mail_keeps_the_otp ext env req email type db :
  issued_key req = Some (email, type) ->
  status (response_of ext env req db) = 200 ->
  status (response_of ext (mail_fails env) req db) = 500
  /\ is_error (response_of ext (mail_fails env) req db)
  /\ db_after ext (mail_fails env) req db = db_after ext env req db
  /\ exists o, In o (otps (db_after ext (mail_fails env) req db))
               /\ otp_key o = (email, type)
               /\ otp_code o = generateOTP env
               /\ otp_verified o = false.
Proof.
  intros K S.
  assert (G : status (response_of ext (mail_fails env) req db) = 500
              /\ is_error (response_of ext (mail_fails env) req db)
              /\ db_after ext (mail_fails env) req db = db_after ext env req db).
  { revert S. unfold response_of, db_after, serve.
    destruct req as [[b|] | | [b|] | | | | | | | | [b|]]; cbn in K; try discriminate;
      inversion K; subst; clear K; cbn [app].
    - destruct (signup env (Some b) _) as [st [r|x]] eqn:E; cbn [fst snd];
        [ | cbn; discriminate].
      intros S. rewrite (signup_mail_fails env b db st r E S). cbn. auto.
    - unfold signin. cbn [mail_fails]. destruct (Js.falsy (eb_email b));
        [cbn; discriminate | ].
      destruct (issue_signin_otp env _ _ _ _) as [st [r|x]] eqn:E; cbn [fst snd];
        [ | cbn; discriminate].
      intros S. rewrite (issue_signin_otp_mail_fails env _ _ _ db st r E S). cbn. auto.
    - unfold signin_resend. destruct (Js.falsy (eb_email b));
        [cbn; discriminate | ].
      destruct (issue_signin_otp env _ _ _ _) as [st [r|x]] eqn:E; cbn [fst snd];
        [ | cbn; discriminate].
      intros S. rewrite (issue_signin_otp_mail_fails env _ _ _ db st r E S). cbn. auto. }
  destruct G as (G1 & G2 & G3).
  split; [exact G1 | ]. split; [exact G2 | ]. split; [exact G3 | ].
  rewrite G3.
  destruct (issuance_runs ext env req email type db K S) as (o & O & Ko & Co & _ & V & _).
  exists o. rewrite O. split; [apply in_or_app; right; now left | auto].
Qed.

Lemma failed_mail_keeps_the_otp_witness :
  status (response_of Sample.ext (Sample.env 1000 "1") Sample.signin_ann Sample.db) = 200
  /\ status (response_of Sample.ext (mail_fails (Sample.env 1000 "1"))
               Sample.signin_ann Sample.db) = 500.
Proof.
  split; [reflexivity | ].
  exact (proj1 (failed_mail_keeps_the_otp Sample.ext (Sample.env 1000 "1")
                  Sample.signin_ann "ann@example.com" SIGNIN Sample.db
                  eq_refl eq_refl)).
Defined.

(** X17.  Requesting a code sweeps the OTP table: after a sign-up, sign-in
    or resend request whose body has the fields its route asks for,
    whatever the answer, no OTP row is left that expired before the
    request; every unexpired row of another e-mail or of the other flow is
    still there; users, sessions and notes are what they were. *)
Theorem otp_request_sweeps_expired_codes ext env req email type db :
  issued_key req = Some (email, type) -> complete req ->
  (forall o, In o (otps (db_after ext env req db)) -> now env <= otp_expiresAt o)
  /\ (forall o, In o (otps db) -> now env <= otp_expiresAt o ->
        otp_key o <> (email, type) -> In o (otps (db_after ext env req db)))
  /\ users (db_after ext env req db) = users db
  /\ sessions (db_after ext env req db) = sessions db
  /\ notes (db_after ext env req db) = notes db.
Proof.
  intros K C.
  destruct (otp_request_sweeps ext env req email type db K C) as (U & S & N & A & B).
  split; [exact A | ]. split; [ | auto].
  intros o Hin L Ko. apply B; auto.
  destruct (otp_is email type o) eqn:I; [ | reflexivity].
  apply otp_is_key in I. contradiction.
Qed.

(** Ann asks for a code a quarter of an hour after the sample codes were
    made: both have lapsed and are removed. *)
Lemma otp_request_sweeps_expired_codes_witness :
  otps (db_after Sample.ext (Sample.env 900000 "9") Sample.signin_ann (Sample.db_otps 0))
  = [new_otp (Sample.env 900000 "9") "ann@example.com" SIGNIN (Some "ann") None]
  /\ users (db_after Sample.ext (Sample.env 900000 "9") Sample.signin_ann
              (Sample.db_otps 0))
     = users (Sample.db_otps 0).
Proof.
  split; [reflexivity | ].
  exact (proj1 (proj2 (proj2
           (otp_request_sweeps_expired_codes Sample.ext (Sample.env 900000 "9")
              Sample.signin_ann "ann@example.com" SIGNIN (Sample.db_otps 0)
              eq_refl eq_refl)))).
Defined.

(** ** Edges of sign-in *)

(** X18.  A sign-in verification whose session row cannot be inserted,
    because the session id or the token is already in the sessions table,
    is answered 500 "Signin failed" after the OTP has been marked verified:
    no session is created, the code is used up, and the same request sent
    again is answered 400.  (The token is signed from the user id and the
    time, so a second sign-in of one user at the same time draws the same
    token.)  Stated for tables with at most one OTP row per e-mail and
    type. *)
Theorem session_collision_uses_up_the_code ext env env' hdr hdr' b db o u :
  otp_unique db ->
  Js.falsy (vb_email b) = false -> Js.falsy (vb_otp b) = false ->
  matched_otp env b SIGNIN db = Some o ->
  otp_user db o = Some u ->
  otp_attempts o < 5 ->
  ~ session_is_fresh ext env db (user_id u) ->
  response_of ext env (POST_signin_verify hdr (Some b)) db
  = json (JError "Signin failed") 500
  /\ sessions (db_after ext env (POST_signin_verify hdr (Some b)) db) = sessions db
  /\ spent (normalize (Js.str (vb_email b))) SIGNIN
       (db_after ext env (POST_signin_verify hdr (Some b)) db)
  /\ status (response_of ext env' (POST_signin_verify hdr' (Some b))
               (db_after ext env (POST_signin_verify hdr (Some b)) db)) = 400.
Proof.
  intros Un Em C F U A N.
  pose proof (signin_collision ext env hdr b db o u Em C F U A N) as E.
  unfold response_of at 1. unfold db_after. rewrite E. cbn [fst snd].
  split; [reflexivity | ]. split; [reflexivity | ].
  destruct (matched_otp_live env b SIGNIN db o F) as (Hin & K & _).
  assert (Sp : spent (normalize (Js.str (vb_email b))) SIGNIN
                 (otp_updated db (otp_id o) verified_only)).
  { intros x Hx Ee Et. cbn in Hx.
    apply in_map_iff in Hx. destruct Hx as (x0 & <- & Hx0).
    assert (x0 = o).
    { apply (NoDup_map_inj _ _ otp_key (otps db)); auto.
      destruct (String.eqb (otp_id x0) (otp_id o)); rewrite K;
        unfold otp_key; cbn in Ee, Et; congruence. }
    subst x0. rewrite String.eqb_refl. reflexivity. }
  split; [exact Sp | ].
  apply (proj2 (unmatched_verification_writes_nothing ext env' hdr' b _)).
  now apply spent_is_unmatched.
Qed.

Lemma sample_otps_unique : otp_unique (Sample.db_otps 0).
Proof.
  unfold otp_unique. cbn. repeat constructor; cbn; intuition discriminate.
Qed.

(** Ann has a session whose token was signed in second 0, and verifies a
    code in that same second. *)
Lemma session_collision_uses_up_the_code_witness :
  otp_unique (Sample.db_otps 0)
  /\ ~ session_is_fresh Sample.ext (Sample.env 500 "1") (Sample.db_otps 0) "ann"
  /\ response_of Sample.ext (Sample.env 500 "1") Sample.verify_ann (Sample.db_otps 0)
     = json (JError "Signin failed") 500.
Proof.
  split; [exact sample_otps_unique | ].
  split; [discriminate | ].
  apply (session_collision_uses_up_the_code Sample.ext (Sample.env 500 "1")
           (Sample.env 600 "2") Sample.no_headers Sample.no_headers
           {| vb_email := Some "ann@example.com"; vb_otp := Some "123456";
              vb_keepLoggedIn := None |}
           (Sample.db_otps 0) (Sample.signin_otp 0) Sample.ann
           sample_otps_unique eq_refl eq_refl eq_refl eq_refl eq_refl).
  discriminate.
Defined.

(** X19.  An account is addressed by its normalized e-mail (lower case,
    trimmed): two spellings with the same normal form are served
    identically by every route that takes an e-mail, in tables, Prisma
    calls and response; and normalizing is idempotent, so the address a
    response returns is itself such a spelling. *)
Theorem emails_are_matched_by_their_normal_form ext env e1 e2 db :
  e1 <> "" -> e2 <> "" -> normalize e1 = normalize e2 ->
  serve ext env (POST_signin (Some {| eb_email := Some e1 |})) db
  = serve ext env (POST_signin (Some {| eb_email := Some e2 |})) db
  /\ serve ext env (POST_signin_resend (Some {| eb_email := Some e1 |})) db
     = serve ext env (POST_signin_resend (Some {| eb_email := Some e2 |})) db
  /\ (forall name dob,
        serve ext env (POST_signup (Some {| sb_name := name; sb_email := Some e1;
                                            sb_dateOfBirth := dob |})) db
        = serve ext env (POST_signup (Some {| sb_name := name; sb_email := Some e2;
                                              sb_dateOfBirth := dob |})) db)
  /\ (forall hdr otp k,
        serve ext env (POST_signup_verify hdr
                         (Some {| vb_email := Some e1; vb_otp := otp;
                                  vb_keepLoggedIn := k |})) db
        = serve ext env (POST_signup_verify hdr
                           (Some {| vb_email := Some e2; vb_otp := otp;
                                    vb_keepLoggedIn := k |})) db)
  /\ (forall hdr otp k,
        serve ext env (POST_signin_verify hdr
                         (Some {| vb_email := Some e1; vb_otp := otp;
                                  vb_keepLoggedIn := k |})) db
        = serve ext env (POST_signin_verify hdr
                           (Some {| vb_email := Some e2; vb_otp := otp;
                                    vb_keepLoggedIn := k |})) db)
  /\ normalize (normalize e1) = normalize e1
  /\ normalize (Js.toLowerCase (Js.trim e1)) = normalize e1.
Proof.
  intros N1 N2 E.
  assert (F1 : Js.falsy (Some e1) = false)
    by (cbn; now destruct (String.eqb_spec e1 "")).
  assert (F2 : Js.falsy (Some e2) = false)
    by (cbn; now destruct (String.eqb_spec e2 "")).
  unfold serve. cbn [app].
  unfold signin, signin_resend, signup, signup_verify, signin_verify, issue_signin_otp.
  cbn [eb_email sb_email sb_name sb_dateOfBirth vb_email vb_otp vb_keepLoggedIn].
  rewrite F1, F2. cbn [Js.str]. rewrite E.
  repeat split; try reflexivity.
  - apply normalize_twice.
  - rewrite <- E. apply normalize_trimmed_lowered.
Qed.

Lemma emails_are_matched_by_their_normal_form_witness :
  response_of Sample.ext (Sample.env 1000 "1")
    (POST_signin (Some {| eb_email := Some "  ANN@Example.Com " |})) Sample.db
  = response_of Sample.ext (Sample.env 1000 "1")
      (POST_signin (Some {| eb_email := Some "ann@example.com" |})) Sample.db.
Proof.
  assert (N1 : "  ANN@Example.Com " <> "") by discriminate.
  assert (N2 : "ann@example.com" <> "") by discriminate.
  exact (f_equal snd
           (proj1 (emails_are_matched_by_their_normal_form Sample.ext
                     (Sample.env 1000 "1") "  ANN@Example.Com " "ann@example.com"
                     Sample.db N1 N2 eq_refl))).
Defined.

(** ** Which route writes which table *)


(** ** Only the latest code, and what the forms let through *)

(** X21.  Only the latest code works: once a sign-up, sign-in or resend
    request has been answered 200, a verification request of that flow for
    the same address with any other code than the one just generated is
    answered 400 and changes no table, whatever codes were issued for the
    address before. *)
Theorem only_the_latest_code_verifies ext env1 env2 req email type hdr v db :
  issued_key req = Some (email, type) ->
  status (response_of ext env1 req db) = 200 ->
  normalize (Js.str (vb_email v)) = email ->
  Js.trim (Js.str (vb_otp v)) <> generateOTP env1 ->
  status (response_of ext env2 (verify_request type hdr (Some v))
            (db_after ext env1 req db)) = 400
  /\ db_after ext env2 (verify_request type hdr (Some v)) (db_after ext env1 req db)
     = db_after ext env1 req db.
Proof.
  intros K S N C.
  destruct (issuance_runs ext env1 req email type db K S)
    as (o & O & Ko & Co & _).
  assert (U : matched_otp env2 v type (db_after ext env1 req db) = None).
  { apply find_none_iff. intros x Hx. rewrite O in Hx. apply in_app_or in Hx.
    unfold otp_live. rewrite N. destruct Hx as [Hx | [<- | []]].
    - apply filter_In in Hx. destruct Hx as [_ Hx].
      apply negb_true_iff in Hx. unfold otp_is in Hx.
      destruct (String.eqb (otp_email x) email); cbn in *; [ | reflexivity].
      destruct (String.eqb (otp_code x) _); cbn; [ | reflexivity].
      now rewrite Hx.
    - rewrite Co.
      destruct (String.eqb_spec (generateOTP env1) (Js.trim (Js.str (vb_otp v))))
        as [E|]; [now symmetry in E | ].
      now rewrite andb_false_r. }
  assert (T : type = SIGNUP \/ type = SIGNIN).
  { destruct req as [[b|] | | [b|] | | | | | | | | [b|]]; cbn in K;
      try discriminate; inversion K; auto. }
  destruct T as [-> | ->]; cbn [verify_request].
  - destruct (proj1 (unmatched_verification_writes_nothing ext env2 hdr v _) U); auto.
  - destruct (proj2 (unmatched_verification_writes_nothing ext env2 hdr v _) U); auto.
Qed.

(** Ann asks for a code and presents another one. *)
Lemma only_the_latest_code_verifies_witness :
  status (response_of Sample.ext (Sample.env 1000 "1") Sample.signin_ann Sample.db)
  = 200
  /\ status (response_of Sample.ext (Sample.env 2000 "2")
               (POST_signin_verify Sample.no_headers
                  (Sample.verify_body "ann@example.com" "654321"))
               Tour.db_signin) = 400.
Proof.
  split; [reflexivity | ].
  apply (only_the_latest_code_verifies Sample.ext (Sample.env 1000 "1")
           (Sample.env 2000 "2") Sample.signin_ann "ann@example.com" SIGNIN
           Sample.no_headers
           {| vb_email := Some "ann@example.com"; vb_otp := Some "654321";
              vb_keepLoggedIn := None |}
           Sample.db eq_refl eq_refl eq_refl).
  discriminate.
Defined.

Lemma digits_exactly_all n s :
  digits_exactly n s = true <-> Js.all_digits s = true /\ String.length s = n.
Proof.
  revert s. induction n as [|k IH]; intros [|c r]; cbn;
    try (split; [discriminate | intros [_ X]; discriminate X]).
  - tauto.
  - rewrite andb_true_iff, IH. split.
    + intros (D & A & L). rewrite D, A, L. auto.
    + intros (X & L). apply andb_prop in X. destruct X as [D A].
      injection L as L. auto.
Qed.

(** X22.  The sign-up form sends a code exactly when it consists of six
    decimal digits; the sign-in form then sends it too; and every code the
    server generates passes both forms and reaches the server unchanged by
    its [trim]. *)
Theorem forms_accept_generated_codes otp env :
  (validateOtpForm otp = None
   <-> Js.all_digits otp = true /\ String.length otp = 6%nat)
  /\ (validateOtpForm otp = None -> validateOtp otp = None)
  /\ validateOtpForm (generateOTP env) = None
  /\ validateOtp (generateOTP env) = None
  /\ Js.trim (generateOTP env) = generateOTP env.
Proof.
  assert (A : forall s, Js.all_digits s = true /\ String.length s = 6%nat ->
                        validateOtpForm s = None).
  { intros s [D L]. unfold validateOtpForm.
    rewrite (trim_digits s D), L.
    destruct (String.eqb_spec s ""); [subst s; discriminate L | ].
    cbn [Nat.eqb negb].
    now rewrite (proj2 (digits_exactly_all 6 s) (conj D L)). }
  assert (B : forall s, validateOtpForm s = None -> validateOtp s = None).
  { intros s. unfold validateOtpForm, validateOtp.
    destruct (String.eqb (Js.trim s) ""); [discriminate | ].
    destruct (negb (Nat.eqb (String.length s) 6)); [discriminate | reflexivity]. }
  pose proof (generateOTP_digits env) as (D & L & _).
  split; [split; [ | apply A] | ].
  - unfold validateOtpForm.
    destruct (String.eqb (Js.trim otp) ""); [discriminate | ].
    destruct (negb (Nat.eqb (String.length otp) 6)); [discriminate | ].
    destruct (digits_exactly 6 otp) eqn:X; [ | discriminate].
    intros _. now apply digits_exactly_all.
  - split; [apply B | ]. split; [now apply A | ].
    split; [apply B; now apply A | apply trim_generateOTP].
Qed.

(** ** Notes and their owners *)

Lemma filter_owner_update (u id : string) (f : Note -> Note) l :
  (forall x, In x l -> note_id x = id -> note_userId x <> u) ->
  (forall x, note_userId (f x) = note_userId x) ->
  filter (fun n => String.eqb (note_userId n) u)
    (map (fun x => if String.eqb (note_id x) id then f x else x) l)
  = filter (fun n => String.eqb (note_userId n) u) l.
Proof.
  intros H Hf. induction l as [|x r IH]; cbn; [reflexivity | ].
  rewrite IH by (intros y Hy; apply H; now right).
  destruct (String.eqb_spec (note_id x) id) as [E|E]; [ | reflexivity].
  rewrite Hf.
  destruct (String.eqb_spec (note_userId x) u) as [E'|E']; [ | reflexivity].
  destruct (H x (or_introl eq_refl) E E').
Qed.

Lemma filter_owner_delete (u id : string) l :
  (forall x, In x l -> note_id x = id -> note_userId x <> u) ->
  filter (fun n => String.eqb (note_userId n) u)
    (filter (fun x => negb (String.eqb (note_id x) id)) l)
  = filter (fun n => String.eqb (note_userId n) u) l.
Proof.
  intros H. induction l as [|x r IH]; cbn; [reflexivity | ].
  rewrite <- IH by (intros y Hy; apply H; now right).
  destruct (String.eqb_spec (note_id x) id) as [E|E]; cbn; [ | reflexivity].
  destruct (String.eqb_spec (note_userId x) u) as [E'|E']; [ | reflexivity].
  destruct (H x (or_introl eq_refl) E E').
Qed.

Lemma only_the_found_note db id v n :
  notes_pkey db ->
  find (fun x => String.eqb (note_id x) id && String.eqb (note_userId x) v)
       (notes db) = Some n ->
  owned_by db id v n
  /\ forall x, In x (notes db) -> note_id x = id -> note_userId x = v.
Proof.
  intros K F. apply find_some in F. destruct F as [Hin E].
  apply andb_prop in E. destruct E as [E1 E2].
  apply String.eqb_eq in E1. apply String.eqb_eq in E2.
  split; [repeat split; assumption | ].
  intros x Hx Ex.
  assert (x = n) by (apply (NoDup_map_inj _ _ note_id (notes db)); auto; congruence).
  now subst x.
Qed.

Lemma update_note_db ext env hdr db v id body :
  authenticated_as ext env hdr db v -> notes_pkey db ->
  db_after ext env (PUT_notes hdr id body) db = db
  \/ exists n f,
       owned_by db id v n
       /\ (forall x, note_userId (f x) = note_userId x)
       /\ db_after ext env (PUT_notes hdr id body) db
          = set_notes db
              (map (fun x => if String.eqb (note_id x) id then f x else x) (notes db)).
Proof.
  intros A K.
  destruct body as [b|].
  2:{ left. unfold db_after, serve. cbn [app]. rewrite A. reflexivity. }
  destruct (find (fun x => String.eqb (note_id x) id && String.eqb (note_userId x) v)
              (notes db)) as [n|] eqn:F.
  - destruct (Js.falsy (nb_title b)) eqn:T; [destruct (nb_content b) as [c|] eqn:C | ].
    + right. destruct (only_the_found_note db id v n K F) as [O _].
      exists n, (note_apply (title_update b) (content_update b) (now env)).
      split; [exact O | ]. split; [reflexivity | ].
      unfold db_after.
      rewrite (update_note_owned ext env hdr db v id n b A K O); [reflexivity | ].
      right. congruence.
    + left. unfold db_after, serve. cbn [app]. rewrite A.
      unfold update_note. cbv zeta. unfold_h. unfold_h. rewrite T, C. reflexivity.
    + right. destruct (only_the_found_note db id v n K F) as [O _].
      exists n, (note_apply (title_update b) (content_update b) (now env)).
      split; [exact O | ]. split; [reflexivity | ].
      unfold db_after.
      rewrite (update_note_owned ext env hdr db v id n b A K O); [reflexivity | ].
      now left.
  - left. unfold db_after, serve. cbn [app]. rewrite A.
    unfold update_note, note_findFirst. cbv zeta. unfold_h. unfold_h.
    destruct (Js.falsy (nb_title b) && _); unfold_h; [reflexivity | ].
    rewrite F. reflexivity.
Qed.

Lemma delete_note_db ext env hdr db v id :
  authenticated_as ext env hdr db v -> notes_pkey db ->
  db_after ext env (DELETE_notes hdr id) db = db
  \/ exists n,
       owned_by db id v n
       /\ db_after ext env (DELETE_notes hdr id) db
          = set_notes db (filter (fun x => negb (String.eqb (note_id x) id)) (notes db)).
Proof.
  intros A K.
  destruct (find (fun x => String.eqb (note_id x) id && String.eqb (note_userId x) v)
              (notes db)) as [n|] eqn:F.
  - right. destruct (only_the_found_note db id v n K F) as [O _].
    exists n. split; [exact O | ].
    unfold db_after. now rewrite (delete_note_owned ext env hdr db v id n A K O).
  - left. unfold db_after, serve. cbn [app]. rewrite A.
    unfold delete_note, note_findFirst. unfold_h. rewrite F. reflexivity.
Qed.

Lemma owned_is_not_of_another db id v u n :
  notes_pkey db -> owned_by db id v n -> v <> u ->
  forall x, In x (notes db) -> note_id x = id -> note_userId x <> u.
Proof.
  intros K (Hin & I & U) V x Hx Ex.
  assert (x = n) by (apply (NoDup_map_inj _ _ note_id (notes db)); auto; congruence).
  subst x. congruence.
Qed.

(** X23.  Nobody but its owner changes a note: with note ids unique, the
    notes of user [u] are the same before and after every request, except a
    request to a notes route that the middleware lets through as [u]. *)
Theorem notes_change_only_for_their_owner ext env req db u :
  notes_pkey db ->
  (forall hdr, notes_request req = Some hdr -> ~ authenticated_as ext env hdr db u) ->
  filter (fun n => String.eqb (note_userId n) u) (notes (db_after ext env req db))
  = filter (fun n => String.eqb (note_userId n) u) (notes db).
Proof.
  intros K N.
  destruct (notes_request req) as [hdr|] eqn:R.
  2:{ now rewrite (notes_change_only_on_notes_routes ext env req db R). }
  specialize (N hdr eq_refl).
  destruct (refused_or_authenticated ext env req hdr db R)
    as [[v A] | (log & msg & E & _)].
  2:{ unfold db_after. now rewrite E. }
  assert (V : v <> u) by (intros ->; exact (N A)).
  destruct req as [b0|h0 b0|b0|h0 b0|b0|h0|h0 bd|h0 id bd|h0 id| |b0];
    cbn in R; try discriminate; inversion R; subst h0; clear R.
  - unfold db_after. now rewrite (get_notes_served _ _ _ _ _ A).
  - destruct (Z.eq_dec (status (response_of ext env (POST_notes hdr bd) db)) 200)
      as [S|S].
    + destruct (create_note_success ext env hdr db v bd A S) as (b & _ & _ & _ & E).
      unfold db_after. rewrite E. cbn [fst notes set_notes].
      rewrite filter_app. cbn.
      destruct (String.eqb_spec v u); [contradiction | ]. apply app_nil_r.
    + now rewrite (create_note_refused ext env hdr db v bd A S).
  - destruct (update_note_db ext env hdr db v id bd A K) as [-> | (n & f & O & Hf & ->)];
      [reflexivity | ].
    cbn [notes set_notes]. apply filter_owner_update; [ | exact Hf].
    now apply (owned_is_not_of_another db id v u n).
  - destruct (delete_note_db ext env hdr db v id A K) as [-> | (n & O & ->)];
      [reflexivity | ].
    cbn [notes set_notes]. apply filter_owner_delete.
    now apply (owned_is_not_of_another db id v u n).
Qed.

(** Ann rewrites her note; Bob's notes are what they were. *)
Lemma notes_change_only_for_their_owner_witness :
  notes_pkey Sample.db
  /\ filter (fun n => String.eqb (note_userId n) "bob")
       (notes (db_after Sample.ext (Sample.env 1000 "1")
                 (PUT_notes Tour.ann_hdr "n-ann" (Some Tour.retitle)) Sample.db))
     = [Sample.bob_note].
Proof.
  split; [exact sample_notes_pkey | ].
  apply (notes_change_only_for_their_owner Sample.ext (Sample.env 1000 "1")
           (PUT_notes Tour.ann_hdr "n-ann" (Some Tour.retitle)) Sample.db "bob"
           sample_notes_pkey).
  intros hdr R A. injection R as <-.
  apply middleware_says_one_user with (1 := sample_ann_authenticated) in A.
  discriminate A.
Defined.

(** * A code is used once (C6) *)

Section UsedUp.
Variable ext : Ext.
Variable email : string.
Variable type : OtpType.
Variable code : string.

Lemma otp_deleteMany_used_up w :
  preserves (code_used_up email type code) (otp_deleteMany w).
Proof.
  apply preserves_orm. intros db db' a E H. orm_cases E.
  intros o Ho. cbn in Ho. apply filter_In in Ho. now apply H.
Qed.

Lemma otp_update_used_up id d :
  upd_verified d <> Some false ->
  preserves (code_used_up email type code) (otp_update id d).
Proof.
  intros V. apply preserves_orm. intros db db' a E H. orm_cases E.
  intros o Ho. cbn in Ho. apply in_map_iff in Ho. destruct Ho as (o0 & <- & Ho0).
  destruct (String.eqb (otp_id o0) id); [ | now apply H].
  cbn. intros Ee Et Ec.
  destruct (upd_verified d) as [[|]|]; [reflexivity | congruence | now apply H].
Qed.

Lemma otp_create_used_up id c e ty exp uid sd :
  (e, ty) <> (email, type) \/ c <> code ->
  preserves (code_used_up email type code) (otp_create id c e ty exp uid sd).
Proof.
  intros K. apply preserves_orm. intros db db' a E H. orm_cases E.
  intros o Ho. cbn in Ho. apply in_app_or in Ho.
  destruct Ho as [Ho | [<- | []]]; [now apply H | ].
  cbn. intros -> -> ->. destruct K as [K | K]; now destruct K.
Qed.

Lemma key_eq_dec (e : string) (ty : OtpType) :
  (e, ty) = (email, type) \/ (e, ty) <> (email, type).
Proof.
  destruct (String.eqb_spec e email) as [-> | N]; [ | right; congruence].
  destruct ty, type; (left; reflexivity) || (right; congruence).
Qed.

(** A request keeps the code used up, unless it issues a code for the
    same e-mail and type and draws the same code. *)
Lemma used_up_step env req db :
  (issued_key req = Some (email, type) -> generateOTP env <> code) ->
  code_used_up email type code db ->
  code_used_up email type code (db_after ext env req db).
Proof.
  intros N.
  apply (db_after_keeps ext env (code_used_up email type code));
    try other_table.
  - intros _. apply otp_deleteMany_used_up.
  - intros e id sd B k K Esd Hk.
    apply preserves_bind; [apply otp_deleteMany_used_up | intros _].
    apply preserves_bind; [ | intros _; exact Hk].
    apply otp_create_used_up.
    destruct (key_eq_dec e SIGNUP) as [Q | Q]; [ | now left].
    right. apply N. now rewrite K, Q.
  - intros e id uid B k K Hk.
    apply preserves_bind; [apply otp_deleteMany_used_up | intros _].
    apply preserves_bind; [ | intros _; exact Hk].
    apply otp_create_used_up.
    destruct (key_eq_dec e SIGNIN) as [Q | Q]; [ | now left].
    right. apply N. now rewrite K, Q.
  - intros. apply otp_update_used_up. discriminate.
  - intros. apply otp_update_used_up. discriminate.
  - intros. apply otp_update_used_up. discriminate.
Qed.

End UsedUp.

Lemma spent_used_up email type code db :
  spent email type db -> code_used_up email type code db.
Proof. intros S o Hin Ee Et _. now apply S. Qed.

Lemma used_up_is_unmatched env b type db :
  code_used_up (normalize (Js.str (vb_email b))) type (Js.trim (Js.str (vb_otp b))) db ->
  matched_otp env b type db = None.
Proof.
  intros S. apply find_none_iff. intros o Hin. unfold otp_live.
  destruct (String.eqb_spec (otp_email o) (normalize (Js.str (vb_email b)))) as [E|];
    [ | reflexivity].
  destruct (String.eqb_spec (otp_code o) (Js.trim (Js.str (vb_otp b)))) as [C|];
    [ | reflexivity].
  destruct (OtpType_eqb (otp_type o) type) eqn:T; [ | reflexivity].
  apply OtpType_eqb_eq in T. rewrite (S o Hin E T C). reflexivity.
Qed.

(** Sign-up for an address that has an account stores no code. *)
Lemma signup_registered ext env b db u :
  registered db (normalize (Js.str (sb_email b))) u ->
  forall o, In o (otps (db_after ext env (POST_signup (Some b)) db)) -> In o (otps db).
Proof.
  intros [Hin Eu]. unfold db_after, serve. cbn [app].
  destruct (Js.falsy (sb_name b)) eqn:N;
    [unfold signup; rewrite N; cbn; auto | ].
  destruct (Js.falsy (sb_email b)) eqn:Em;
    [unfold signup; rewrite N, Em; cbn; auto | ].
  destruct (Js.falsy (sb_dateOfBirth b)) eqn:D;
    [unfold signup; rewrite N, Em, D; cbn; auto | ].
  destruct (find_exists _ (fun x => String.eqb (user_email x)
                                      (normalize (Js.str (sb_email b)))) _ u Hin)
    as [y F]; [now apply String.eqb_eq | ].
  rewrite (signup_taken env b db y N Em D F). cbn.
  intros o Ho. apply filter_In in Ho. tauto.
Qed.

Lemma issues_for_key_dec req email type :
  issued_key req = Some (email, type) \/ issued_key req <> Some (email, type).
Proof.
  destruct (issued_key req) as [[e ty]|]; [ | right; discriminate].
  destruct (key_eq_dec email type e ty) as [Q | Q]; [left | right]; congruence.
Qed.

Lemma registered_step ext env req db email u :
  registered db email u -> registered (db_after ext env req db) email u.
Proof.
  intros [Hin E]. unfold registered.
  destruct (users_only_grow ext env req db) as [l L]. rewrite L.
  split; [apply in_or_app; now left | exact E].
Qed.

(** Through any history: for sign-up because the account now exists, for
    sign-in as long as no new draw repeats the code. *)
Lemma run_used_up ext email type code history db :
  (type = SIGNUP -> exists u, registered db email u) ->
  (type = SIGNIN ->
   forall er, In er history -> issued_key (snd er) = Some (email, SIGNIN) ->
              generateOTP (fst er) <> code) ->
  type <> PASSWORD_RESET ->
  code_used_up email type code db ->
  code_used_up email type code (run ext history db).
Proof.
  intros R N T. revert db R.
  induction history as [|[env req] rest IH]; intros db R H; cbn; [exact H | ].
  apply IH.
  - intros er Ty Hin. apply N; auto. now right.
  - intros Ty. destruct (R Ty) as [u Ru]. exists u. now apply registered_step.
  - destruct type; [ | | contradiction].
    + destruct (R eq_refl) as [u Ru].
      destruct (issues_for_key_dec req email SIGNUP) as [K | K].
      * destruct req as [[b|] | | [b|] | | | | | | | | [b|]]; cbn in K;
          try discriminate; inversion K; subst; clear K.
        intros o Ho. apply H. now apply (signup_registered ext env b db u Ru).
      * apply used_up_step; [ | exact H]. intros K'. contradiction.
    + apply used_up_step; [ | exact H].
      intros K. apply (N eq_refl (env, req)); [now left | exact K].
Qed.

(** Every state the API reaches has its sign-up rows consistent. *)
Lemma signup_data_consistent_step ext env req db :
  signup_data_consistent db -> signup_data_consistent (db_after ext env req db).
Proof.
  apply (db_after_keeps ext env signup_data_consistent); try other_table.
  - intros _. apply preserves_orm. intros d d' a E Hd. orm_cases E.
    intros o sd Ho. cbn in Ho. apply filter_In in Ho. now apply Hd.
  - intros e id sd B k K Esd Hk.
    apply preserves_bind; [ | intros _].
    { apply preserves_orm. intros d d' a E Hd. orm_cases E.
      intros o sd0 Ho. cbn in Ho. apply filter_In in Ho. now apply Hd. }
    apply preserves_bind; [ | intros _; exact Hk].
    apply preserves_orm. intros d d' a E Hd. orm_cases E.
    intros o sd0 Ho. cbn in Ho. apply in_app_or in Ho.
    destruct Ho as [Ho | [<- | []]]; [now apply Hd | ].
    cbn. congruence.
  - intros e id uid B k K Hk.
    apply preserves_bind; [ | intros _].
    { apply preserves_orm. intros d d' a E Hd. orm_cases E.
      intros o sd0 Ho. cbn in Ho. apply filter_In in Ho. now apply Hd. }
    apply preserves_bind; [ | intros _; exact Hk].
    apply preserves_orm. intros d d' a E Hd. orm_cases E.
    intros o sd0 Ho. cbn in Ho. apply in_app_or in Ho.
    destruct Ho as [Ho | [<- | []]]; [now apply Hd | ].
    cbn. discriminate.
  - intros. apply preserves_orm. intros d d' a E Hd. orm_cases E.
    intros o sd0 Ho. cbn in Ho. apply in_map_iff in Ho.
    destruct Ho as (o0 & <- & Ho0).
    destruct (String.eqb (otp_id o0) id); [cbn; now apply Hd | now apply Hd].
  - intros. apply preserves_orm. intros d d' a E Hd. orm_cases E.
    intros o sd0 Ho. cbn in Ho. apply in_map_iff in Ho.
    destruct Ho as (o0 & <- & Ho0).
    destruct (String.eqb (otp_id o0) id); [cbn; now apply Hd | now apply Hd].
  - intros. apply preserves_orm. intros d d' a E Hd. orm_cases E.
    intros o sd0 Ho. cbn in Ho. apply in_map_iff in Ho.
    destruct Ho as (o0 & <- & Ho0).
    destruct (String.eqb (otp_id o0) id); [cbn; now apply Hd | now apply Hd].
Qed.

Lemma run_signup_data_consistent ext history :
  signup_data_consistent (run ext history empty_db).
Proof.
  assert (G : forall db, signup_data_consistent db ->
                         signup_data_consistent (run ext history db)).
  { induction history as [|[env req] rest IH]; intros db H; cbn; [exact H | ].
    apply IH. now apply signup_data_consistent_step. }
  apply G. intros o sd [].
Qed.

(** A sign-up verification answered 200 has registered the address. *)
Lemma signup_verify_registers ext env hdr b db :
  signup_data_consistent db ->
  status (response_of ext env (POST_signup_verify hdr (Some b)) db) = 200 ->
  exists u, registered (db_after ext env (POST_signup_verify hdr (Some b)) db)
              (normalize (Js.str (vb_email b))) u.
Proof.
  intros C. unfold response_of, db_after.
  destruct (signup_verify_runs ext env hdr (Some b) db)
    as [(log & msg & code & E & [-> | ->])
       | (b' & o & sd & dob & B & F & _ & SD & _ & [E | E])];
    rewrite E; cbn [fst snd status json json_ok]; intros S; try discriminate.
  inversion B; subst b'; clear B.
  destruct (matched_otp_live env b SIGNUP db o F) as (Hin & K & _).
  exists (new_user env sd dob). split.
  - cbn. apply in_or_app. right. now left.
  - cbn. rewrite (C o sd Hin SD). unfold otp_key in K. congruence.
Qed.

(** C6, as the code has it.  Where each (email, type) has at most one OTP
    row (C9) and the sign-up rows carry their own e-mail, as in every state
    the API reaches, a verification answered 200 has set [verified] on the
    row it matched, and from then on no row of that e-mail and type is
    unverified.  As long as no new OTP is requested for that e-mail and
    type, every later verification request for the e-mail, whatever its
    code, matches nothing and is answered 400 without a write.  And
    whatever is requested afterwards, a later verification request with the
    same e-mail, code and type is answered 400 without a write: for sign-up
    always, since the address now has an account and no sign-up code is
    issued for it again; for sign-in unless a sign-in code has been
    requested again for the e-mail and the draw was the same code. *)
Theorem verified_otp_is_spent ext env type hdr b db :
  type <> PASSWORD_RESET ->
  otp_unique db ->
  signup_data_consistent db ->
  status (response_of ext env (verify_request type hdr (Some b)) db) = 200 ->
  let email := normalize (Js.str (vb_email b)) in
  let code := Js.trim (Js.str (vb_otp b)) in
  let db1 := db_after ext env (verify_request type hdr (Some b)) db in
  (exists o, matched_otp env b type db = Some o
             /\ forall o', In o' (otps db1) -> otp_id o' = otp_id o -> otp_verified o' = true)
  /\ spent email type db1
  /\ (forall history,
        (forall er, In er history -> issued_key (snd er) <> Some (email, type)) ->
        forall env' hdr' b',
          normalize (Js.str (vb_email b')) = email ->
          let db2 := run ext history db1 in
          matched_otp env' b' type db2 = None
          /\ status (response_of ext env' (verify_request type hdr' (Some b')) db2) = 400
          /\ db_after ext env' (verify_request type hdr' (Some b')) db2 = db2)
  /\ (forall history,
        (type = SIGNIN ->
         forall er, In er history -> issued_key (snd er) = Some (email, SIGNIN) ->
                    generateOTP (fst er) <> code) ->
        forall env' hdr' b',
          normalize (Js.str (vb_email b')) = email ->
          Js.trim (Js.str (vb_otp b')) = code ->
          let db2 := run ext history db1 in
          matched_otp env' b' type db2 = None
          /\ status (response_of ext env' (verify_request type hdr' (Some b')) db2) = 400
          /\ db_after ext env' (verify_request type hdr' (Some b')) db2 = db2).
Proof.
  intros T U C S. cbv zeta.
  destruct (verify_success ext env type hdr (Some b) db T S)
    as (b0 & o & d & B & F & V & E).
  inversion B; subst b0; clear B.
  destruct (matched_otp_live env b type db o F) as (Hin & K & _).
  assert (Sp : spent (normalize (Js.str (vb_email b))) type
                 (db_after ext env (verify_request type hdr (Some b)) db)).
  { intros x Hx Ee Et. rewrite E in Hx. cbn in Hx.
    apply in_map_iff in Hx. destruct Hx as (x0 & <- & Hx0).
    assert (x0 = o).
    { apply (NoDup_map_inj _ _ otp_key (otps db)); auto.
      destruct (String.eqb (otp_id x0) (otp_id o)); rewrite K;
        unfold otp_key; cbn in Ee, Et; congruence. }
    subst x0. rewrite String.eqb_refl. cbn. now rewrite V. }
  assert (Refused : forall env' hdr' b' db2,
            matched_otp env' b' type db2 = None ->
            matched_otp env' b' type db2 = None
            /\ status (response_of ext env' (verify_request type hdr' (Some b')) db2) = 400
            /\ db_after ext env' (verify_request type hdr' (Some b')) db2 = db2).
  { intros env' hdr' b' db2 M. split; [exact M | ].
    destruct (unmatched_verification_writes_nothing ext env' hdr' b' db2) as [Hup Hin'].
    destruct type; [ | | contradiction]; cbn [verify_request] in *.
    - destruct (Hup M) as [X Y]. auto.
    - destruct (Hin' M) as [X Y]. auto. }
  split; [ | split; [exact Sp | split]].
  - exists o. split; [exact F | ].
    intros o' Ho' Eid. rewrite E in Ho'. cbn in Ho'.
    apply in_map_iff in Ho'. destruct Ho' as (x0 & <- & Hx0).
    destruct (String.eqb_spec (otp_id x0) (otp_id o)) as [E0 | E0].
    + cbn. now rewrite V.
    + contradiction.
  - intros history N env' hdr' b' Eb. apply Refused.
    apply spent_is_unmatched. rewrite Eb. now apply run_spent.
  - intros history N env' hdr' b' Eb Ec. apply Refused.
    apply used_up_is_unmatched. rewrite Eb, Ec.
    apply run_used_up; auto.
    + intros ->. cbn [verify_request] in *.
      now apply (signup_verify_registers ext env hdr b db).
    + now apply spent_used_up.
Qed.

(** Ann signs in; she asks for a new code and the draw is "111111"; her
    first code is presented a second time. *)
Lemma verified_otp_is_spent_witness :
  let db1 := db_after Sample.ext (Sample.env 1000 "1") Sample.signin_ann Sample.db in
  let db2 := db_after Sample.ext (Sample.env 2000 "2") Sample.verify_ann db1 in
  SIGNIN <> PASSWORD_RESET
  /\ otp_unique db1
  /\ signup_data_consistent db1
  /\ status (response_of Sample.ext (Sample.env 2000 "2") Sample.verify_ann db1) = 200
  /\ status (response_of Sample.ext (Tour.env_111111 2500 "x") Sample.signin_ann db2)
     = 200
  /\ status (response_of Sample.ext (Sample.env 3000 "3") Sample.verify_ann
               (run Sample.ext [(Tour.env_111111 2500 "x", Sample.signin_ann)] db2))
     = 400.
Proof.
  cbv zeta.
  assert (T : SIGNIN <> PASSWORD_RESET) by discriminate.
  assert (U : otp_unique
                (db_after Sample.ext (Sample.env 1000 "1") Sample.signin_ann Sample.db)).
  { unfold otp_unique. cbn. repeat constructor; cbn; intuition discriminate. }
  assert (C : signup_data_consistent
                (db_after Sample.ext (Sample.env 1000 "1") Sample.signin_ann Sample.db)).
  { intros o sd [<- | []] X. discriminate X. }
  assert (S : status (response_of Sample.ext (Sample.env 2000 "2")
                        (verify_request SIGNIN Sample.no_headers
                           (Some {| vb_email := Some "ann@example.com";
                                    vb_otp := Some "123456";
                                    vb_keepLoggedIn := None |}))
                        (db_after Sample.ext (Sample.env 1000 "1")
                           Sample.signin_ann Sample.db)) = 200) by reflexivity.
  split; [exact T | ]. split; [exact U | ]. split; [exact C | ]. split; [exact S | ].
  split; [reflexivity | ].
  destruct (verified_otp_is_spent Sample.ext (Sample.env 2000 "2") SIGNIN
              Sample.no_headers _ _ T U C S) as (_ & _ & _ & H).
  apply (H [(Tour.env_111111 2500 "x", Sample.signin_ann)]).
  - intros _ er [<- | []] _. discriminate.
  - reflexivity.
  - reflexivity.
Defined.
